(** * go-ftw: the stage-execution engine (package runner) and the log window
    reader (package waflog), embedded in Rocq.

    Layout of the development:
    - the data the two packages exchange (errors, destinations, requests,
      test inputs and expected outputs, run statistics);
    - the collaborators that are not part of the embedded sources (HTTP
      client, operating system, clock, the check package), as interfaces
      over an abstract world;
    - the functions of waflog.go and of the runner, one definition per Go
      function, the world and an event trace passed explicitly;
    - a small simulated world, used to run the definitions on concrete inputs;
    - the properties. *)

From Stdlib Require Import ZArith Lia Bool.
From stdpp Require Import base list strings gmap pretty.

Local Open Scope string_scope.
Local Open Scope Z_scope.
Local Open Scope list_scope.

(** ** Basic data *)

(** Go's [[]byte]; a nil slice is [None] where the code tests for nil. *)
Definition bytes := list Byte.byte.

(** Go's [error] values.  [errors_New msg] is [errors.New(msg)] (also used
    for the errors that the collaborators produce); [fmt_Errorf text] is
    [fmt.Errorf] with a format without [%w] verb, [text] the formatted
    message; [fmt_Errorf_w text w] is [fmt.Errorf] with a format that ends in
    [%w], [text] the formatted message up to that verb and [w] the wrapped
    error. *)
Inductive error : Type :=
| errors_New (msg : string)
| fmt_Errorf (text : string)
| fmt_Errorf_w (text : string) (wrapped : error).

(** [err.Error()] *)
Fixpoint Error (e : error) : string :=
  match e with
  | errors_New msg => msg
  | fmt_Errorf text => text
  | fmt_Errorf_w text w => text +:+ Error w
  end.

(** Go's [int] and [time.Duration] are 64-bit signed integers; arithmetic
    wraps around. *)
Definition wrap_int (z : Z) : Z := (z + 2 ^ 63) mod 2 ^ 64 - 2 ^ 63.

(** An open [os.File], identified by its descriptor. *)
Inductive File : Type := mkFile (fd : Z).

(** *** package config *)

Inductive config_RunMode : Type := DefaultRunMode | CloudRunMode.

Definition RunMode_eqb (a b : config_RunMode) : bool :=
  match a, b with
  | DefaultRunMode, DefaultRunMode | CloudRunMode, CloudRunMode => true
  | _, _ => false
  end.

(** [config.FTWConfig.TestOverride.Input]: the three optional global
    overrides (Go pointers, nil when not configured). *)
Record config_InputOverride : Type := {
  Override_Port : option Z;
  Override_DestAddr : option string;
  Override_Protocol : option string
}.

(** The fields of the global [config.FTWConfig] that the embedded code
    reads, and the forced results that it hands to package check. *)
Record config_FTWConfiguration : Type := {
  LogFile : string;
  LogMarkerHeaderName : string;
  RunMode : config_RunMode;
  TestOverride_Input : config_InputOverride;
  (* the test ids with a forced result; read by package check only *)
  TestOverride_Ignore : list string;
  TestOverride_ForceFail : list string;
  TestOverride_ForcePass : list string
}.

(** *** package ftwhttp (data only) *)

(** [ftwhttp.Header] is a Go map from header name to value; a nil map is
    [None] in the fields that hold one. *)
Abbreviation ftwhttp_Header := (gmap string string).

(** Modelled from the spec: [Header.Get] and [Header.Set] of package ftwhttp
    are not among the embedded sources.  [Get] reads the map and yields the
    empty string when the key has no entry; [Set] stores the entry. *)
Definition Header_Get (h : ftwhttp_Header) (key : string) : string :=
  default "" (h !! key).

Definition Header_Set (h : ftwhttp_Header) (key value : string) : ftwhttp_Header :=
  <[key := value]> h.

Record ftwhttp_Destination : Type := {
  Dest_DestAddr : string;
  Dest_Port : Z;
  Dest_Protocol : string
}.

Record ftwhttp_RequestLine : Type := {
  Method : string;
  URI : string;
  Version : string
}.

(** The two ways the runner builds a request: [ftwhttp.NewRequest(rline,
    headers, data, autocomplete)] and [ftwhttp.NewRawRequest(raw,
    autocomplete)]. *)
Inductive ftwhttp_Request : Type :=
| NewRequest (rline : ftwhttp_RequestLine) (headers : option ftwhttp_Header)
             (data : option bytes) (autocomplete : bool)
| NewRawRequest (raw : bytes) (autocomplete : bool).

(** What the runner reads of an [ftwhttp.Response]:
    [response.Parsed.StatusCode] and [response.GetBodyAsString()]. *)
Record ftwhttp_Response : Type := {
  Parsed_StatusCode : Z;
  GetBodyAsString : string
}.

Record ftwhttp_ClientConfig : Type := {
  ConnectTimeout : Z;
  ReadTimeout : Z
}.

(** *** package test (data only) *)

Record test_Input : Type := {
  Input_DestAddr : option string;
  Input_Port : option Z;
  Input_Protocol : option string;
  Input_URI : option string;
  Input_Version : option string;
  Input_Headers : option ftwhttp_Header;
  Input_Method : option string;
  Input_Data : option string;
  Input_EncodedRequest : string;
  Input_RAWRequest : string;
  Input_StopMagic : bool
}.

Record test_Output : Type := {
  Status : list Z;
  ResponseContains : string;
  LogContains : string;
  NoLogContains : string;
  ExpectError : bool
}.

Record test_Stage : Type := {
  Stage_Input : test_Input;
  Stage_Output : test_Output
}.

(** A test case: [test.Test]; its [Stages] are the [stage.Stage] values the
    runner iterates over. *)
Record test_Test : Type := {
  TestTitle : string;
  Stages : list test_Stage
}.

Record test_FTWTest : Type := {
  Meta_Enabled : bool;
  Meta_Name : string;
  Tests : list test_Test
}.

(** *** package waflog (data) *)

Record waflog_FTWLogLines : Type := {
  logFile : option File;
  FileName : string;
  StartMarker : option bytes;
  EndMarker : option bytes
}.

(** [FTWLogOption], a function on a pointer to [FTWLogLines]: an option
    updates the value under construction. *)
Definition FTWLogOption : Type := waflog_FTWLogLines -> waflog_FTWLogLines.

(** *** package runner (data) *)

(** Modelled from the spec: the declaration of [TestResult] is not among the
    embedded sources; the spec lists its six values. *)
Inductive TestResult : Type :=
| Success | Failed | Skipped | Ignored | ForceFail | ForcePass.

Definition TestResult_eqb (a b : TestResult) : bool :=
  match a, b with
  | Success, Success | Failed, Failed | Skipped, Skipped
  | Ignored, Ignored | ForceFail, ForceFail | ForcePass, ForcePass => true
  | _, _ => false
  end.

Definition all_results : list TestResult :=
  [Success; Failed; Skipped; Ignored; ForceFail; ForcePass].

(** Modelled from the spec: the declaration of the statistics record is not
    among the embedded sources.  The spec: a mapping from outcome kind to
    count, plus the total executed count ([Run], a Go int) and the cumulative
    elapsed time ([RunTime], a [time.Duration]). *)
Record TestStats : Type := {
  Stats_Run : Z;
  Stats_count : TestResult -> nat;
  Stats_RunTime : Z
}.

Definition zero_TestStats : TestStats :=
  {| Stats_Run := 0; Stats_count := fun _ => 0%nat; Stats_RunTime := 0 |}.

(** Modelled from the spec: [addResultToStats] is not among the embedded
    sources.  It records one more stage (or skipped test) of the given
    outcome kind and touches neither [Run] nor [RunTime], which [RunStage]
    updates itself. *)
Definition addResultToStats (result : TestResult) (title : string)
    (stats : TestStats) : TestStats :=
  {| Stats_Run := Stats_Run stats;
     Stats_count := fun k =>
       if TestResult_eqb k result then S (Stats_count stats k)
       else Stats_count stats k;
     Stats_RunTime := Stats_RunTime stats |}.

(** [regexp.Regexp]: a compiled pattern is used only through
    [MatchString]; a nil pointer is [None]. *)
Record Regexp : Type := { MatchString : string -> bool }.

(** The runner's [Config] (the command-line selection). *)
Record Config : Type := {
  Config_Include : option Regexp;
  Config_Exclude : option Regexp;
  Config_ShowTime : bool;
  Config_Quiet : bool;
  Config_ConnectTimeout : Z;
  Config_ReadTimeout : Z
}.

(** [TestRunContext].  [Client] and the open log file live in the world;
    [LogLines] holds the pointee of the pointer to [waflog.FTWLogLines], which is
    non-nil in every context that [Run] builds. *)
Record TestRunContext : Type := {
  Include : option Regexp;
  Exclude : option Regexp;
  ShowTime : bool;
  Output : bool;
  LogLines : waflog_FTWLogLines;
  Ctx_RunMode : config_RunMode;
  Stats : TestStats;
  Result : TestResult
}.

Definition zero_FTWLogLines : waflog_FTWLogLines :=
  {| logFile := None; FileName := ""; StartMarker := None; EndMarker := None |}.

(** [TestRunContext{}]; the zero value of [TestResult] is its first
    constant. *)
Definition zero_TestRunContext : TestRunContext :=
  {| Include := None; Exclude := None; ShowTime := false; Output := false;
     LogLines := zero_FTWLogLines; Ctx_RunMode := DefaultRunMode;
     Stats := zero_TestStats; Result := Success |}.

Definition set_Stats (ctx : TestRunContext) (s : TestStats) : TestRunContext :=
  {| Include := Include ctx; Exclude := Exclude ctx; ShowTime := ShowTime ctx;
     Output := Output ctx; LogLines := LogLines ctx;
     Ctx_RunMode := Ctx_RunMode ctx; Stats := s; Result := Result ctx |}.

Definition set_Result (ctx : TestRunContext) (r : TestResult) : TestRunContext :=
  {| Include := Include ctx; Exclude := Exclude ctx; ShowTime := ShowTime ctx;
     Output := Output ctx; LogLines := LogLines ctx;
     Ctx_RunMode := Ctx_RunMode ctx; Stats := Stats ctx; Result := r |}.

(** ** Events

    Every call that leaves the two packages is recorded, in program order, in
    a trace. *)

Inductive PrintArg : Type :=
| PStr (s : string)
| PDuration (d : Z).

Inductive Assertion : Type :=
| AExpectError | AStatus | AResponseContains | ALogContains | ANoLogContains.

Inductive Event : Type :=
| EvOpen (name : string)
| EvClose (f : File)
| EvNewClient (conf : ftwhttp_ClientConfig)
| EvNewConnection (d : ftwhttp_Destination)
| EvNewOrReusedConnection (d : ftwhttp_Destination)
| EvDo (r : ftwhttp_Request)
| EvCheckLogForMarker (stageID : string)
| EvAssert (a : Assertion)
| EvPrintf (format : string) (args : list PrintArg)
| EvPrintSummary (quiet : bool) (stats : TestStats)
| EvLogDebug (msg : string)
| EvLogError (msg : string).

(** The calls that reach the network through the HTTP client. *)
Definition is_network (e : Event) : bool :=
  match e with
  | EvNewConnection _ | EvNewOrReusedConnection _ | EvDo _ => true
  | _ => false
  end.

Definition is_close (e : Event) : bool :=
  match e with EvClose _ => true | _ => false end.

Definition is_open (e : Event) : bool :=
  match e with EvOpen _ => true | _ => false end.

(** ** Collaborators *)

(** The world outside the two packages: operating system, clock, identifier
    source, the HTTP client with the server behind it, and the part of the
    log reader that scans the file.  [W] is the state of that world. *)
Class Env (W : Type) : Type := {
  time_Now : W -> Z * W;
  uuid_NewString : W -> string * W;
  os_Open : string -> W -> (File + error) * W;
  File_Close : File -> W -> option error * W;
  ftwhttp_NewClientConfig : ftwhttp_ClientConfig;
  ftwhttp_NewClient : ftwhttp_ClientConfig -> W -> option error * W;
  Client_NewConnection : ftwhttp_Destination -> W -> option error * W;
  Client_NewOrReusedConnection : ftwhttp_Destination -> W -> option error * W;
  Client_Do : ftwhttp_Request -> W ->
              (option ftwhttp_Response * option error) * W;
  Client_StartTrackingTime : W -> W;
  Client_StopTrackingTime : W -> W;
  Client_RoundTripDuration : W -> Z;
  CheckLogForMarker : waflog_FTWLogLines -> string -> W -> option bytes * W
}.

(** The accessors of [test.Input] that the runner calls; package test is not
    among the embedded sources. *)
Class InputAccessors : Type := {
  GetDestAddr : test_Input -> string;
  GetPort : test_Input -> Z;
  GetProtocol : test_Input -> string;
  GetMethod : test_Input -> string;
  GetURI : test_Input -> string;
  GetVersion : test_Input -> string;
  GetRawRequest : test_Input -> option bytes * option error;
  ParseData : test_Input -> option bytes
}.

(** The interface of [check.FTWCheck]; package check is not among the
    embedded sources.  [C] is the state of a check object; the setters
    return the updated object.  The two log assertions read the log file.

    Modelled from the spec: [AssertExpectError] holds exactly when the
    expected output held by the check declares that an error is expected
    (it is only called with a non-nil error), and [SetExpectTestOutput]
    installs that expected output. *)
Class Check (C W : Type) : Type := {
  NewCheck : config_FTWConfiguration -> W -> C * W;
  CloudMode : C -> bool;
  SetCloudMode : C -> C;
  ForcedIgnore : C -> string -> bool;
  ForcedFail : C -> string -> bool;
  ForcedPass : C -> string -> bool;
  SetStartMarker : C -> option bytes -> C;
  SetEndMarker : C -> option bytes -> C;
  Expected : C -> test_Output;
  SetExpectTestOutput : C -> test_Output -> C;
  AssertExpectError : C -> error -> bool;
  AssertStatus : C -> Z -> bool;
  AssertResponseContains : C -> string -> bool;
  AssertLogContains : C -> W -> bool;
  AssertNoLogContains : C -> W -> bool;
  AssertExpectError_Expected :
    forall c e, AssertExpectError c e = ExpectError (Expected c);
  Expected_SetExpectTestOutput :
    forall c o, Expected (SetExpectTestOutput c o) = o
}.

(** ** Program state and control flow *)

Section Program.

Context {W : Type} {env : Env W} {acc : InputAccessors}.
Context {C : Type} {chk : Check C W}.

(** The global [config.FTWConfig]. *)
Variable FTWConfig : config_FTWConfiguration.

Record St : Type := { world : W; trace : list Event }.

Definition emit (e : Event) (st : St) : St :=
  {| world := world st; trace := trace st ++ [e] |}.

(** A call to the world that returns a value, recorded as event [e]. *)
Definition perform {A : Type} (e : Event) (op : W -> A * W) (st : St) : A * St :=
  let '(a, w) := op (world st) in
  (a, {| world := w; trace := trace st ++ [e] |}).

(** A call to the world that is not recorded. *)
Definition silently {A : Type} (op : W -> A * W) (st : St) : A * St :=
  let '(a, w) := op (world st) in
  (a, {| world := w; trace := trace st |}).

Definition update (f : W -> W) (st : St) : St :=
  {| world := f (world st); trace := trace st |}.

(** ** waflog.go *)

Definition errNoLogFile : error := errors_New "no log file supplied".

(** [p == nil] and [p != nil] on a Go pointer, slice or error. *)
Definition is_nil {A : Type} (p : option A) : bool :=
  match p with None => true | Some _ => false end.

Definition not_nil {A : Type} (p : option A) : bool := negb (is_nil p).

(** [WithLogFile(fileName string) FTWLogOption] *)
Definition WithLogFile (fileName : string) : FTWLogOption :=
  fun ll =>
    {| logFile := logFile ll; FileName := fileName;
       StartMarker := StartMarker ll; EndMarker := EndMarker ll |}.

Definition set_logFile (ll : waflog_FTWLogLines) (f : option File) : waflog_FTWLogLines :=
  {| logFile := f; FileName := FileName ll;
     StartMarker := StartMarker ll; EndMarker := EndMarker ll |}.

(** [FTWLogLines.openLogFile() error].  [os.Open] yields either a
    file or an error; on an error the file it returns is nil, and that nil is
    what the assignment stores. *)
Definition openLogFile (ll : waflog_FTWLogLines) (st : St)
  : option error * waflog_FTWLogLines * St :=
  if RunMode_eqb (RunMode FTWConfig) DefaultRunMode then
    if negb (String.eqb (FileName ll) "") && is_nil (logFile ll) then
      let '(r, st) := perform (EvOpen (FileName ll)) (os_Open (FileName ll)) st in
      match r with
      | inl f => (None, set_logFile ll (Some f), st)
      | inr err => (Some err, set_logFile ll None, st)
      end
    else (None, ll, st)
  else (None, ll, st).

(** [NewFTWLogLines(opts ...FTWLogOption)].  The Go function returns a
    pointer and an error of which exactly one is nil: [inl ll] is
    [(ll, nil)], [inr err] is [(nil, err)]. *)
Definition NewFTWLogLines (opts : list FTWLogOption) (st : St)
  : (waflog_FTWLogLines + error) * St :=
  let ll := {| logFile := None; FileName := LogFile FTWConfig;
               StartMarker := None; EndMarker := None |} in
  let ll := fold_left (fun ll opt => opt ll) opts ll in
  let '(err, ll, st) := openLogFile ll st in
  match err with
  | Some err => (inr (fmt_Errorf_w "cannot open log file: " err), st)
  | None =>
    if RunMode_eqb (RunMode FTWConfig) DefaultRunMode && is_nil (logFile ll)
    then (inr errNoLogFile, st)
    else (inl ll, st)
  end.

(** [FTWLogLines.Cleanup() error] *)
Definition Cleanup (ll : waflog_FTWLogLines) (st : St) : option error * St :=
  match logFile ll with
  | Some f => perform (EvClose f) (File_Close f) st
  | None => (None, st)
  end.

(** ** Go function bodies

    A statement either falls through to the next one ([Next]) or leaves the
    function with its result ([Returned]).  A function invocation carries the
    calls it has deferred so far; they run, most recent first, when the
    function returns, and only those whose [defer] statement was reached. *)

Inductive Flow (R A : Type) : Type :=
| Returned (r : R)
| Next (a : A).

Arguments Returned {R A} r.
Arguments Next {R A} a.

Definition Deferred : Type := St -> St.

Definition Body (R A : Type) : Type :=
  list Deferred -> St -> Flow R A * list Deferred * St.

Definition ret {R A : Type} (a : A) : Body R A :=
  fun ds st => (Next a, ds, st).

Definition Return {R A : Type} (r : R) : Body R A :=
  fun ds st => (Returned r, ds, st).

Definition bind {R A B : Type} (m : Body R A) (k : A -> Body R B) : Body R B :=
  fun ds st =>
    match m ds st with
    | (Returned r, ds, st) => (Returned r, ds, st)
    | (Next a, ds, st) => k a ds st
    end.

(** A call whose result is bound to a variable. *)
Definition lift {R A : Type} (m : St -> A * St) : Body R A :=
  fun ds st => let '(a, st) := m st in (Next a, ds, st).

(** A call made for its effect. *)
Definition exec {R : Type} (f : St -> St) : Body R unit :=
  fun ds st => (Next tt, ds, f st).

(** [defer f(...)] *)
Definition defer {R : Type} (f : Deferred) : Body R unit :=
  fun ds st => (Next tt, f :: ds, st).

Definition run_deferred (ds : list Deferred) (st : St) : St :=
  fold_left (fun st f => f st) ds st.

(** Running a function body to its result. *)
Definition call {R : Type} (body : Body R R) (st : St) : R * St :=
  match body [] st with
  | (Returned r, ds, st) | (Next r, ds, st) => (r, run_deferred ds st)
  end.

Notation "x <- m ;; k" := (bind m (fun x => k))
  (at level 100, m at next level, right associativity).
Notation "m ;;; k" := (bind m (fun _ => k))
  (at level 100, right associativity).

(** ** The runner *)

Definition errBadTestRequest : error :=
  errors_New "ftw/run: bad test: choose between data, encoded_request, or raw_request".

(** [printUnlessQuietMode(quiet, format, a...)] *)
Definition printUnlessQuietMode (quiet : bool) (format : string)
    (a : list PrintArg) (st : St) : St :=
  if negb quiet then emit (EvPrintf format a) st else st.

(** [notRunningInCloudMode(c)] *)
Definition notRunningInCloudMode (c : C) : bool := negb (CloudMode c).

(** [cleanLogs(logLines)] *)
Definition cleanLogs (logLines : waflog_FTWLogLines) (st : St) : St :=
  let '(err, st) := Cleanup logLines st in
  match err with
  | Some err => emit (EvLogError "Failed to cleanup log file") st
  | None => st
  end.

Definition set_Port (i : test_Input) (v : option Z) : test_Input :=
  {| Input_DestAddr := Input_DestAddr i; Input_Port := v;
     Input_Protocol := Input_Protocol i; Input_URI := Input_URI i;
     Input_Version := Input_Version i; Input_Headers := Input_Headers i;
     Input_Method := Input_Method i; Input_Data := Input_Data i;
     Input_EncodedRequest := Input_EncodedRequest i;
     Input_RAWRequest := Input_RAWRequest i;
     Input_StopMagic := Input_StopMagic i |}.

Definition set_DestAddr (i : test_Input) (v : option string) : test_Input :=
  {| Input_DestAddr := v; Input_Port := Input_Port i;
     Input_Protocol := Input_Protocol i; Input_URI := Input_URI i;
     Input_Version := Input_Version i; Input_Headers := Input_Headers i;
     Input_Method := Input_Method i; Input_Data := Input_Data i;
     Input_EncodedRequest := Input_EncodedRequest i;
     Input_RAWRequest := Input_RAWRequest i;
     Input_StopMagic := Input_StopMagic i |}.

Definition set_Protocol (i : test_Input) (v : option string) : test_Input :=
  {| Input_DestAddr := Input_DestAddr i; Input_Port := Input_Port i;
     Input_Protocol := v; Input_URI := Input_URI i;
     Input_Version := Input_Version i; Input_Headers := Input_Headers i;
     Input_Method := Input_Method i; Input_Data := Input_Data i;
     Input_EncodedRequest := Input_EncodedRequest i;
     Input_RAWRequest := Input_RAWRequest i;
     Input_StopMagic := Input_StopMagic i |}.

Definition set_Headers (i : test_Input) (v : option ftwhttp_Header) : test_Input :=
  {| Input_DestAddr := Input_DestAddr i; Input_Port := Input_Port i;
     Input_Protocol := Input_Protocol i; Input_URI := Input_URI i;
     Input_Version := Input_Version i; Input_Headers := v;
     Input_Method := Input_Method i; Input_Data := Input_Data i;
     Input_EncodedRequest := Input_EncodedRequest i;
     Input_RAWRequest := Input_RAWRequest i;
     Input_StopMagic := Input_StopMagic i |}.

(** [applyInputOverride(testRequest)]: the error it returns and the value of
    the input it was given a pointer to.  Inside the address override,
    a nil [Headers] map is first replaced by an empty one, then [Host] is set
    when [Get] yields the empty string. *)
Definition applyInputOverride (testRequest : test_Input) : option error * test_Input :=
  let overrides := TestOverride_Input FTWConfig in
  let testRequest :=
    match Override_Port overrides with
    | Some port => set_Port testRequest (Some port)
    | None => testRequest
    end in
  let testRequest :=
    match Override_DestAddr overrides with
    | Some addr =>
      let testRequest := set_DestAddr testRequest (Some addr) in
      let headers :=
        match Input_Headers testRequest with
        | None => (∅ : ftwhttp_Header)
        | Some h => h
        end in
      let headers :=
        if String.eqb (Header_Get headers "Host") ""
        then Header_Set headers "Host" addr
        else headers in
      set_Headers testRequest (Some headers)
    | None => testRequest
    end in
  let testRequest :=
    match Override_Protocol overrides with
    | Some protocol => set_Protocol testRequest (Some protocol)
    | None => testRequest
    end in
  (None, testRequest).

(** [needToSkipTest(include, exclude, title, enabled)] *)
Definition needToSkipTest (include exclude : option Regexp) (title : string)
    (enabled : bool) : bool :=
  if negb enabled then true
  else
    if match include with
       | Some re => MatchString re title
       | None => false
       end
    then false
    else
      let result := false in
      let result :=
        match exclude with
        | Some re => if MatchString re title then true else result
        | None => result
        end in
      let result :=
        match include with
        | Some re => if negb (MatchString re title) then true else result
        | None => result
        end in
      result.

(** Modelled from the spec: [utils.IsNotEmpty] is not among the embedded
    sources; a string pointer is not empty when it is non-nil and points to
    a non-empty string (a request-body form that is set). *)
Definition IsNotEmpty (s : option string) : bool :=
  match s with
  | Some s => negb (String.eqb s "")
  | None => false
  end.

(** [checkTestSanity(testRequest)] *)
Definition checkTestSanity (testRequest : test_Input) : bool :=
  (IsNotEmpty (Input_Data testRequest) && negb (String.eqb (Input_EncodedRequest testRequest) ""))
  || (IsNotEmpty (Input_Data testRequest) && negb (String.eqb (Input_RAWRequest testRequest) ""))
  || (negb (String.eqb (Input_EncodedRequest testRequest) "")
      && negb (String.eqb (Input_RAWRequest testRequest) "")).

(** [displayResult(quiet, result, roundTripTime, stageTime)] *)
Definition displayResult (quiet : bool) (result : TestResult)
    (roundTripTime stageTime : Z) (st : St) : St :=
  match result with
  | Success =>
    printUnlessQuietMode quiet ":check_mark:passed in %s (RTT %s)\n"
      [PDuration stageTime; PDuration roundTripTime] st
  | Failed =>
    printUnlessQuietMode quiet ":collision:failed in %s (RTT %s)\n"
      [PDuration stageTime; PDuration roundTripTime] st
  | Ignored => printUnlessQuietMode quiet ":information:test ignored\n" [] st
  | ForceFail => printUnlessQuietMode quiet ":information:test forced to fail\n" [] st
  | ForcePass => printUnlessQuietMode quiet ":information:test forced to pass\n" [] st
  | Skipped => st
  end.

(** [overriddenTestResult(c, id)]; [Failed] stands for "no override". *)
Definition overriddenTestResult (c : C) (id : string) : TestResult :=
  if ForcedIgnore c id then Ignored
  else if ForcedFail c id then ForceFail
  else if ForcedPass c id then ForcePass
  else Failed.

(** A call to one of the check's assertions, recorded in the trace. *)
Definition assertion (a : Assertion) (b : bool) : St -> bool * St :=
  fun st => (b, emit (EvAssert a) st).

(** [checkResult(c, response, responseError)]: the result and the check
    object, which [SetCloudMode] may have updated. *)
Definition checkResult (c : C) (response : option ftwhttp_Response)
    (responseError : option error) : St -> (TestResult * C) * St :=
  call (
    match responseError with
    | Some err =>
      b <- lift (assertion AExpectError (AssertExpectError c err)) ;;
      if b then Return (Success, c) else ret tt
    | None => ret tt
    end ;;;
    (if not_nil responseError then Return (Failed, c) else ret tt) ;;;
    c <- (if CloudMode c then ret (SetCloudMode c) else ret c) ;;
    match response with
    | Some response =>
      b <- lift (assertion AStatus (AssertStatus c (Parsed_StatusCode response))) ;;
      (if b then Return (Success, c) else ret tt) ;;;
      b <- lift (assertion AResponseContains
                   (AssertResponseContains c (GetBodyAsString response))) ;;
      if b then Return (Success, c) else ret tt
    | None => ret tt
    end ;;;
    b <- lift (fun st => assertion ALogContains (AssertLogContains c (world st)) st) ;;
    (if b then Return (Success, c) else ret tt) ;;;
    b <- lift (fun st => assertion ANoLogContains (AssertNoLogContains c (world st)) st) ;;
    (if b then Return (Success, c) else ret tt) ;;;
    Return (Failed, c)).

(** [getRequestFromTest(testRequest)] *)
Definition getRequestFromTest (testRequest : test_Input)
  : St -> ftwhttp_Request * St :=
  call (
    let '(raw, err) := GetRawRequest testRequest in
    match err with
    | Some err =>
      exec (emit (EvLogError ("ftw/run: error getting raw data: " +:+ Error err +:+ "\n")))
    | None => ret tt
    end ;;;
    match raw with
    | Some raw => Return (NewRawRequest raw (negb (Input_StopMagic testRequest)))
    | None =>
      let rline := {| Method := GetMethod testRequest;
                      URI := GetURI testRequest;
                      Version := GetVersion testRequest |} in
      let data := ParseData testRequest in
      Return (NewRequest rline (Input_Headers testRequest) data
                (negb (Input_StopMagic testRequest)))
    end).

(** The [%+v] rendering of a pointer to a destination. *)
Definition fmt_Destination (d : ftwhttp_Destination) : string :=
  "&{DestAddr:" +:+ Dest_DestAddr d +:+ " Port:" +:+ pretty (Dest_Port d)
  +:+ " Protocol:" +:+ Dest_Protocol d +:+ "}".

(** The body of the probe loop of [markAndFlush], once per element of the
    array that the loop ranges over. *)
Fixpoint markAndFlush_loop (iterations : list Z) (runContext : TestRunContext)
    (dest : ftwhttp_Destination) (req : ftwhttp_Request) (stageID : string)
  : Body (option bytes * option error) unit :=
  match iterations with
  | [] => ret tt
  | _ :: iterations =>
    err <- lift (perform (EvNewOrReusedConnection dest)
                   (Client_NewOrReusedConnection dest)) ;;
    match err with
    | Some err =>
      Return (None, Some (fmt_Errorf_w
        ("ftw/run: can't connect to destination " +:+ fmt_Destination dest +:+ ": ") err))
    | None => ret tt
    end ;;;
    r <- lift (perform (EvDo req) (Client_Do req)) ;;
    match snd r with
    | Some err =>
      Return (None, Some (fmt_Errorf_w
        ("ftw/run: failed sending request to " +:+ fmt_Destination dest +:+ ": ") err))
    | None => ret tt
    end ;;;
    marker <- lift (perform (EvCheckLogForMarker stageID)
                      (CheckLogForMarker (LogLines runContext) stageID)) ;;
    match marker with
    | Some m => Return (Some m, None)
    | None => ret tt
    end ;;;
    markAndFlush_loop iterations runContext dest req stageID
  end.

(** The probe request that [markAndFlush] builds. *)
Definition marker_request (stageID : string) : ftwhttp_Request :=
  let rline := {| Method := "GET"; URI := "/status/200"; Version := "HTTP/1.1" |} in
  let headers : ftwhttp_Header :=
    <[LogMarkerHeaderName FTWConfig := stageID]>
      (<["Host" := "localhost"]>
         (<["User-Agent" := "go-ftw test agent"]>
            (<["Accept" := "*/*"]> ∅))) in
  NewRequest rline (Some headers) None true.

Definition errMarkerNotFound (fileName : string) : error :=
  fmt_Errorf ("can't find log marker. Am I reading the correct log? Log file: " +:+ fileName).

(** [markAndFlush(runContext, dest, stageID)] *)
Definition markAndFlush (runContext : TestRunContext) (dest : ftwhttp_Destination)
    (stageID : string) : St -> (option bytes * option error) * St :=
  call (
    let req := marker_request stageID in
    markAndFlush_loop (repeat 0 20) runContext dest req stageID ;;;
    Return (None, Some (errMarkerNotFound (FileName (LogLines runContext))))).

(** *** RunStage

    The body of [RunStage] after its prologue, in the four blocks it is
    written in: start marker, real request, end marker, evaluation and
    bookkeeping.  Each block either returns from [RunStage] or hands its
    results to the next one. *)

Definition StageReturn : Type := option error * TestRunContext * C.

(** The [if notRunningInCloudMode(ftwCheck)] block before the request. *)
Definition acquireStartMarker (runContext : TestRunContext) (ftwCheck : C)
    (dest : ftwhttp_Destination) (stageID : string)
    (expectedOutput : test_Output) : Body StageReturn C :=
  if notRunningInCloudMode ftwCheck then
    r <- lift (markAndFlush runContext dest stageID) ;;
    let '(startMarker, err) := r in
    match err with
    | Some err =>
      if negb (ExpectError expectedOutput)
      then Return (Some (fmt_Errorf_w "failed to find start marker: " err),
                   runContext, ftwCheck)
      else ret tt
    | None => ret tt
    end ;;;
    ret (SetStartMarker ftwCheck startMarker)
  else ret ftwCheck.

(** From [getRequestFromTest] to the check of [responseErr]. *)
Definition sendRequest (runContext : TestRunContext) (ftwCheck : C)
    (testRequest : test_Input) (dest : ftwhttp_Destination)
    (expectedOutput : test_Output)
  : Body StageReturn (option ftwhttp_Response * option error) :=
  req <- lift (getRequestFromTest testRequest) ;;
  err <- lift (perform (EvNewConnection dest) (Client_NewConnection dest)) ;;
  match err with
  | Some err =>
    if negb (ExpectError expectedOutput)
    then Return (Some (fmt_Errorf_w
                   ("can't connect to destination " +:+ fmt_Destination dest +:+ ": ") err),
                 runContext, ftwCheck)
    else ret tt
  | None => ret tt
  end ;;;
  exec (update Client_StartTrackingTime) ;;;
  r <- lift (perform (EvDo req) (Client_Do req)) ;;
  let '(response, responseErr) := r in
  exec (update Client_StopTrackingTime) ;;;
  match responseErr with
  | Some err =>
    if negb (ExpectError expectedOutput)
    then Return (Some (fmt_Errorf_w
                   ("failed sending request to destination " +:+ fmt_Destination dest +:+ ": ")
                   err),
                 runContext, ftwCheck)
    else ret tt
  | None => ret tt
  end ;;;
  ret (response, responseErr).

(** The [if notRunningInCloudMode(ftwCheck)] block after the request. *)
Definition acquireEndMarker (runContext : TestRunContext) (ftwCheck : C)
    (dest : ftwhttp_Destination) (stageID : string)
    (expectedOutput : test_Output) : Body StageReturn C :=
  if notRunningInCloudMode ftwCheck then
    r <- lift (markAndFlush runContext dest stageID) ;;
    let '(endMarker, err) := r in
    match err with
    | Some err =>
      if negb (ExpectError expectedOutput)
      then Return (Some (fmt_Errorf_w "failed to find end marker: " err),
                   runContext, ftwCheck)
      else ret tt
    | None => ret tt
    end ;;;
    ret (SetEndMarker ftwCheck endMarker)
  else ret ftwCheck.

(** [runContext.Stats.Run++] and [runContext.Stats.RunTime += stageTime] *)
Definition count_run (stats : TestStats) (stageTime : Z) : TestStats :=
  {| Stats_Run := wrap_int (Stats_Run stats + 1);
     Stats_count := Stats_count stats;
     Stats_RunTime := wrap_int (Stats_RunTime stats + stageTime) |}.

(** From [SetExpectTestOutput] to the end of [RunStage]. *)
Definition evaluateAndRecord (runContext : TestRunContext) (ftwCheck : C)
    (testCase : test_Test) (expectedOutput : test_Output)
    (response : option ftwhttp_Response) (responseErr : option error)
    (stageStartTime : Z) : Body StageReturn StageReturn :=
  let ftwCheck := SetExpectTestOutput ftwCheck expectedOutput in
  r <- lift (checkResult ftwCheck response responseErr) ;;
  let '(testResult, ftwCheck) := r in
  roundTripTime <- lift (fun st => (Client_RoundTripDuration (world st), st)) ;;
  now <- lift (silently time_Now) ;;
  let stageTime := wrap_int (now - stageStartTime) in
  let runContext :=
    set_Stats runContext
      (addResultToStats testResult (TestTitle testCase) (Stats runContext)) in
  let runContext := set_Result runContext testResult in
  exec (displayResult (Output runContext) testResult roundTripTime stageTime) ;;;
  let runContext := set_Stats runContext (count_run (Stats runContext) stageTime) in
  Return (None, runContext, ftwCheck).

(** [RunStage(runContext, ftwCheck, testCase, stage)]: the error it returns,
    and the run context and the check object it was given pointers to. *)
Definition RunStage (runContext : TestRunContext) (ftwCheck : C)
    (testCase : test_Test) (stage : test_Stage) : St -> StageReturn * St :=
  call (
    stageStartTime <- lift (silently time_Now) ;;
    stageID <- lift (silently uuid_NewString) ;;
    let '(err, testRequest) := applyInputOverride (Stage_Input stage) in
    match err with
    | Some err =>
      exec (emit (EvLogDebug ("ftw/run: problem overriding input: " +:+ Error err)))
    | None => ret tt
    end ;;;
    let expectedOutput := Stage_Output stage in
    (if checkTestSanity testRequest
     then Return (Some errBadTestRequest, runContext, ftwCheck)
     else ret tt) ;;;
    let overridden := overriddenTestResult ftwCheck (TestTitle testCase) in
    (if negb (TestResult_eqb overridden Failed)
     then
       let runContext :=
         set_Stats runContext
           (addResultToStats overridden (TestTitle testCase) (Stats runContext)) in
       exec (displayResult (Output runContext) overridden 0 0) ;;;
       Return (None, runContext, ftwCheck)
     else ret tt) ;;;
    let dest := {| Dest_DestAddr := GetDestAddr testRequest;
                   Dest_Port := GetPort testRequest;
                   Dest_Protocol := GetProtocol testRequest |} in
    ftwCheck <- acquireStartMarker runContext ftwCheck dest stageID expectedOutput ;;
    r <- sendRequest runContext ftwCheck testRequest dest expectedOutput ;;
    let '(response, responseErr) := r in
    ftwCheck <- acquireEndMarker runContext ftwCheck dest stageID expectedOutput ;;
    evaluateAndRecord runContext ftwCheck testCase expectedOutput
      response responseErr stageStartTime).

(** *** RunTest *)

(** The loop over the stages of a test case. *)
Fixpoint RunTest_stages (runContext : TestRunContext) (testCase : test_Test)
    (stages : list test_Stage)
  : Body (option error * TestRunContext) TestRunContext :=
  match stages with
  | [] => ret runContext
  | stage :: stages =>
    ftwCheck <- lift (silently (NewCheck FTWConfig)) ;;
    r <- lift (RunStage runContext ftwCheck testCase stage) ;;
    let '(err, runContext, _) := r in
    match err with
    | Some err => Return (Some err, runContext)
    | None => ret tt
    end ;;;
    RunTest_stages runContext testCase stages
  end.

(** The loop over the test cases of a test file; [changed] is the local
    variable of that name. *)
Fixpoint RunTest_cases (ftwTest : test_FTWTest) (changed : bool)
    (runContext : TestRunContext) (cases : list test_Test)
  : Body (option error * TestRunContext) TestRunContext :=
  match cases with
  | [] => ret runContext
  | testCase :: cases =>
    if needToSkipTest (Include runContext) (Exclude runContext)
         (TestTitle testCase) (Meta_Enabled ftwTest)
    then
      let runContext :=
        set_Stats runContext
          (addResultToStats Skipped (TestTitle testCase) (Stats runContext)) in
      (if negb (Meta_Enabled ftwTest)
       then exec (printUnlessQuietMode (Output runContext) "\tskipping %s\n"
                    [PStr (TestTitle testCase)])
       else ret tt) ;;;
      RunTest_cases ftwTest changed runContext cases
    else
      changed <- (if changed
                  then
                    exec (printUnlessQuietMode (Output runContext)
                            ":point_right:executing tests in file %s\n"
                            [PStr (Meta_Name ftwTest)]) ;;;
                    ret false
                  else ret changed) ;;
      exec (printUnlessQuietMode (Output runContext) "\trunning %s: "
              [PStr (TestTitle testCase)]) ;;;
      runContext <- RunTest_stages runContext testCase (Stages testCase) ;;
      RunTest_cases ftwTest changed runContext cases
  end.

(** [RunTest(runContext, ftwTest)]: the error it returns and the run context
    it was given a pointer to. *)
Definition RunTest (runContext : TestRunContext) (ftwTest : test_FTWTest)
  : St -> (option error * TestRunContext) * St :=
  call (
    runContext <- RunTest_cases ftwTest true runContext (Tests ftwTest) ;;
    Return (None, runContext)).

(** *** Run *)

(** The loop of [Run] over the test files. *)
Fixpoint Run_tests (runContext : TestRunContext) (tests : list test_FTWTest)
  : Body (TestRunContext * option error) TestRunContext :=
  match tests with
  | [] => ret runContext
  | tc :: tests =>
    r <- lift (RunTest runContext tc) ;;
    let '(err, runContext) := r in
    match err with
    | Some err => Return (zero_TestRunContext, Some err)
    | None => ret tt
    end ;;;
    Run_tests runContext tests
  end.

(** [Run(tests, c)].  The [defer] statement stands where the source has it:
    after the loop and the summary, before the final [return]. *)
Definition Run (tests : list test_FTWTest) (c : Config)
  : St -> (TestRunContext * option error) * St :=
  call (
    exec (printUnlessQuietMode (Config_Quiet c) ":rocket:Running go-ftw!\n" []) ;;;
    r <- lift (NewFTWLogLines [WithLogFile (LogFile FTWConfig)]) ;;
    match r with
    | inr err => Return (zero_TestRunContext, Some err)
    | inl logLines =>
      let conf := ftwhttp_NewClientConfig in
      let conf :=
        if negb (Config_ConnectTimeout c =? 0)
        then {| ConnectTimeout := Config_ConnectTimeout c;
                ReadTimeout := ReadTimeout conf |}
        else conf in
      let conf :=
        if negb (Config_ReadTimeout c =? 0)
        then {| ConnectTimeout := ConnectTimeout conf;
                ReadTimeout := Config_ReadTimeout c |}
        else conf in
      err <- lift (perform (EvNewClient conf) (ftwhttp_NewClient conf)) ;;
      match err with
      | Some err => Return (zero_TestRunContext, Some err)
      | None => ret tt
      end ;;;
      let runContext :=
        {| Include := Config_Include c;
           Exclude := Config_Exclude c;
           ShowTime := Config_ShowTime c;
           Output := Config_Quiet c;
           LogLines := logLines;
           Ctx_RunMode := RunMode FTWConfig;
           Stats := zero_TestStats;
           Result := Success |} in
      runContext <- Run_tests runContext tests ;;
      exec (emit (EvPrintSummary (Config_Quiet c) (Stats runContext))) ;;;
      defer (cleanLogs logLines) ;;;
      Return (runContext, None)
    end).

End Program.

Arguments St : clear implicits.
Arguments Returned {R A} r.
Arguments Next {R A} a.

(** ** A simulated world

    A deterministic stand-in for the collaborators, to run the program on
    concrete inputs: a server that answers every request in the same way, a
    log in which the marker of a probe shows up after a given number of
    probes (or never), a file system with a fixed set of readable files. *)

Record SimSetup : Type := {
  sim_files : list string;              (* the files that can be opened *)
  sim_refuse : bool;                    (* connections are refused *)
  sim_send_fails : bool;                (* requests fail in transit *)
  sim_response : ftwhttp_Response;      (* the answer to every request *)
  sim_log : string;                     (* the log text between the markers *)
  sim_line : bytes                      (* the log line that carries a marker *)
}.

Record SimWorld : Type := {
  sim_clock : Z;
  sim_next_id : nat;
  sim_next_fd : Z;
  sim_open : list File;                 (* the files currently open *)
  sim_flush_after : option nat;         (* probes left before the marker shows *)
  sim_setup : SimSetup
}.

Definition sim_tick (w : SimWorld) : Z * SimWorld :=
  (sim_clock w,
   {| sim_clock := sim_clock w + 1; sim_next_id := sim_next_id w;
      sim_next_fd := sim_next_fd w; sim_open := sim_open w;
      sim_flush_after := sim_flush_after w; sim_setup := sim_setup w |}).

Definition sim_fresh_id (w : SimWorld) : string * SimWorld :=
  ("stage-" +:+ pretty (sim_next_id w),
   {| sim_clock := sim_clock w; sim_next_id := S (sim_next_id w);
      sim_next_fd := sim_next_fd w; sim_open := sim_open w;
      sim_flush_after := sim_flush_after w; sim_setup := sim_setup w |}).

Definition sim_os_Open (name : string) (w : SimWorld) : (File + error) * SimWorld :=
  if existsb (String.eqb name) (sim_files (sim_setup w))
  then (inl (mkFile (sim_next_fd w)),
        {| sim_clock := sim_clock w; sim_next_id := sim_next_id w;
           sim_next_fd := sim_next_fd w + 1;
           sim_open := mkFile (sim_next_fd w) :: sim_open w;
           sim_flush_after := sim_flush_after w; sim_setup := sim_setup w |})
  else (inr (errors_New ("open " +:+ name +:+ ": no such file or directory")), w).

Definition File_eqb (f g : File) : bool :=
  match f, g with mkFile a, mkFile b => a =? b end.

Definition sim_Close (f : File) (w : SimWorld) : option error * SimWorld :=
  if existsb (File_eqb f) (sim_open w)
  then (None,
        {| sim_clock := sim_clock w; sim_next_id := sim_next_id w;
           sim_next_fd := sim_next_fd w;
           sim_open := filter (fun g => negb (File_eqb f g)) (sim_open w);
           sim_flush_after := sim_flush_after w; sim_setup := sim_setup w |})
  else (Some (errors_New "close: file already closed"), w).

Definition sim_connect (d : ftwhttp_Destination) (w : SimWorld) : option error * SimWorld :=
  if sim_refuse (sim_setup w)
  then (Some (errors_New "connection refused"), w)
  else (None, w).

Definition sim_Do (r : ftwhttp_Request) (w : SimWorld)
  : (option ftwhttp_Response * option error) * SimWorld :=
  if sim_send_fails (sim_setup w)
  then ((None, Some (errors_New "broken pipe")), w)
  else ((Some (sim_response (sim_setup w)), None), w).

Definition sim_CheckLogForMarker (ll : waflog_FTWLogLines) (stageID : string)
    (w : SimWorld) : option bytes * SimWorld :=
  match sim_flush_after w with
  | None => (None, w)
  | Some O => (Some (sim_line (sim_setup w)), w)
  | Some (S n) =>
    (None,
     {| sim_clock := sim_clock w; sim_next_id := sim_next_id w;
        sim_next_fd := sim_next_fd w; sim_open := sim_open w;
        sim_flush_after := Some n; sim_setup := sim_setup w |})
  end.

#[local] Instance sim_env : Env SimWorld := {|
  time_Now := sim_tick;
  uuid_NewString := sim_fresh_id;
  os_Open := sim_os_Open;
  File_Close := sim_Close;
  ftwhttp_NewClientConfig := {| ConnectTimeout := 3000; ReadTimeout := 1000 |};
  ftwhttp_NewClient := fun _ w => (None, w);
  Client_NewConnection := sim_connect;
  Client_NewOrReusedConnection := sim_connect;
  Client_Do := sim_Do;
  Client_StartTrackingTime := fun w => w;
  Client_StopTrackingTime := fun w => w;
  Client_RoundTripDuration := fun _ => 1;
  CheckLogForMarker := sim_CheckLogForMarker
|}.

#[local] Instance sim_accessors : InputAccessors := {|
  GetDestAddr := fun i => default "localhost" (Input_DestAddr i);
  GetPort := fun i => default 80 (Input_Port i);
  GetProtocol := fun i => default "http" (Input_Protocol i);
  GetMethod := fun i => default "GET" (Input_Method i);
  GetURI := fun i => default "/" (Input_URI i);
  GetVersion := fun i => default "HTTP/1.1" (Input_Version i);
  GetRawRequest := fun i =>
    (if String.eqb (Input_RAWRequest i) "" then None
     else Some (String.list_byte_of_string (Input_RAWRequest i)), None);
  ParseData := fun i => String.list_byte_of_string <$> Input_Data i
|}.

(** Modelled from the spec: a check object as the spec describes package
    check (not among the embedded sources): the forced results of the
    configuration, the run mode, the expected output and the two markers;
    in cloud mode the log-based expectations are dropped. *)
Record SimCheck : Type := {
  sc_config : config_FTWConfiguration;
  sc_expected : test_Output;
  sc_start : option bytes;
  sc_end : option bytes
}.

Definition contains (s substr : string) : bool :=
  match String.index 0 substr s with Some _ => true | None => false end.

Definition sc_set_expected (c : SimCheck) (o : test_Output) : SimCheck :=
  {| sc_config := sc_config c; sc_expected := o;
     sc_start := sc_start c; sc_end := sc_end c |}.

#[local] Instance sim_check : Check SimCheck SimWorld := {|
  NewCheck := fun cfg w =>
    ({| sc_config := cfg;
        sc_expected := {| Status := []; ResponseContains := ""; LogContains := "";
                          NoLogContains := ""; ExpectError := false |};
        sc_start := None; sc_end := None |}, w);
  CloudMode := fun c => RunMode_eqb (RunMode (sc_config c)) CloudRunMode;
  SetCloudMode := fun c =>
    sc_set_expected c
      {| Status := Status (sc_expected c);
         ResponseContains := ResponseContains (sc_expected c);
         LogContains := ""; NoLogContains := "";
         ExpectError := ExpectError (sc_expected c) |};
  ForcedIgnore := fun c id => existsb (String.eqb id) (TestOverride_Ignore (sc_config c));
  ForcedFail := fun c id => existsb (String.eqb id) (TestOverride_ForceFail (sc_config c));
  ForcedPass := fun c id => existsb (String.eqb id) (TestOverride_ForcePass (sc_config c));
  SetStartMarker := fun c m =>
    {| sc_config := sc_config c; sc_expected := sc_expected c;
       sc_start := m; sc_end := sc_end c |};
  SetEndMarker := fun c m =>
    {| sc_config := sc_config c; sc_expected := sc_expected c;
       sc_start := sc_start c; sc_end := m |};
  Expected := sc_expected;
  SetExpectTestOutput := sc_set_expected;
  AssertExpectError := fun c _ => ExpectError (sc_expected c);
  AssertStatus := fun c code => existsb (Z.eqb code) (Status (sc_expected c));
  AssertResponseContains := fun c body =>
    negb (String.eqb (ResponseContains (sc_expected c)) "")
    && contains body (ResponseContains (sc_expected c));
  AssertLogContains := fun c w =>
    negb (String.eqb (LogContains (sc_expected c)) "")
    && contains (sim_log (sim_setup w)) (LogContains (sc_expected c));
  AssertNoLogContains := fun c w =>
    negb (String.eqb (NoLogContains (sc_expected c)) "")
    && negb (contains (sim_log (sim_setup w)) (NoLogContains (sc_expected c)));
  AssertExpectError_Expected := fun _ _ => eq_refl;
  Expected_SetExpectTestOutput := fun _ _ => eq_refl
|}.

(** *** Concrete inputs *)

Definition sim_setup0 : SimSetup :=
  {| sim_files := ["/var/log/waf/error.log"];
     sim_refuse := false; sim_send_fails := false;
     sim_response := {| Parsed_StatusCode := 200; GetBodyAsString := "OK" |};
     sim_log := "ModSecurity: Warning. [id 920100]";
     sim_line := [Byte.x6d; Byte.x61; Byte.x72; Byte.x6b] |}.

(** A world in which the marker shows up at the [n]-th next probe
    ([None]: never). *)
Definition sim_world (flush : option nat) (setup : SimSetup) : SimWorld :=
  {| sim_clock := 100; sim_next_id := 0; sim_next_fd := 3; sim_open := [];
     sim_flush_after := flush; sim_setup := setup |}.

Definition sim_st (flush : option nat) (setup : SimSetup) : St SimWorld :=
  {| world := sim_world flush setup; trace := [] |}.

Definition no_override : config_InputOverride :=
  {| Override_Port := None; Override_DestAddr := None; Override_Protocol := None |}.

Definition sim_config (mode : config_RunMode) : config_FTWConfiguration :=
  {| LogFile := "/var/log/waf/error.log";
     LogMarkerHeaderName := "X-CRS-Test";
     RunMode := mode;
     TestOverride_Input := no_override;
     TestOverride_Ignore := ["ignored-1"];
     TestOverride_ForceFail := ["forced-fail-1"];
     TestOverride_ForcePass := ["forced-pass-1"] |}.

Definition plain_input : test_Input :=
  {| Input_DestAddr := None; Input_Port := None; Input_Protocol := None;
     Input_URI := Some "/"; Input_Version := None;
     Input_Headers := None; Input_Method := Some "GET";
     Input_Data := None; Input_EncodedRequest := ""; Input_RAWRequest := "";
     Input_StopMagic := false |}.

(** An input whose headers carry a [Host] entry with an empty value. *)
Definition empty_host_input : test_Input :=
  {| Input_DestAddr := None; Input_Port := None; Input_Protocol := None;
     Input_URI := Some "/"; Input_Version := None;
     Input_Headers := Some (<["Host" := ""]> ∅);
     Input_Method := Some "GET";
     Input_Data := None; Input_EncodedRequest := ""; Input_RAWRequest := "";
     Input_StopMagic := false |}.

(** An input with two request-body forms set. *)
Definition bad_input : test_Input :=
  {| Input_DestAddr := None; Input_Port := None; Input_Protocol := None;
     Input_URI := Some "/"; Input_Version := None;
     Input_Headers := None; Input_Method := Some "POST";
     Input_Data := Some "a=1"; Input_EncodedRequest := "";
     Input_RAWRequest := "POST / HTTP/1.1";
     Input_StopMagic := false |}.

Definition expect_status (codes : list Z) (expectError : bool) : test_Output :=
  {| Status := codes; ResponseContains := ""; LogContains := "";
     NoLogContains := ""; ExpectError := expectError |}.

Definition quiet_config : Config :=
  {| Config_Include := None; Config_Exclude := None; Config_ShowTime := false;
     Config_Quiet := true; Config_ConnectTimeout := 0; Config_ReadTimeout := 0 |}.

Definition one_stage_test (title : string) (stage : test_Stage) : test_FTWTest :=
  {| Meta_Enabled := true; Meta_Name := "sample.yaml";
     Tests := [ {| TestTitle := title; Stages := [stage] |} ] |}.

Definition cfg_standard : config_FTWConfiguration := sim_config DefaultRunMode.
Definition cfg_cloud : config_FTWConfiguration := sim_config CloudRunMode.

(** A configuration with all three global input overrides. *)
Definition cfg_override : config_FTWConfiguration :=
  {| LogFile := "/var/log/waf/error.log";
     LogMarkerHeaderName := "X-CRS-Test";
     RunMode := DefaultRunMode;
     TestOverride_Input :=
       {| Override_Port := Some 8080;
          Override_DestAddr := Some "waf.example.com";
          Override_Protocol := Some "https" |};
     TestOverride_Ignore := [];
     TestOverride_ForceFail := [];
     TestOverride_ForcePass := [] |}.

(** The check object of a stage of the given configuration, as [NewCheck]
    builds it. *)
Definition sim_new_check (cfg : config_FTWConfiguration) : SimCheck :=
  fst (NewCheck cfg (sim_world None sim_setup0)).

(** A check object that holds the given expected output. *)
Definition sim_check_expecting (cfg : config_FTWConfiguration)
    (out : test_Output) : SimCheck :=
  SetExpectTestOutput (sim_new_check cfg) out.

(** The run context of a standard-mode run whose log file is open. *)
Definition sim_context : TestRunContext :=
  {| Include := None; Exclude := None; ShowTime := false; Output := true;
     LogLines := {| logFile := Some (mkFile 3);
                    FileName := "/var/log/waf/error.log";
                    StartMarker := None; EndMarker := None |};
     Ctx_RunMode := DefaultRunMode;
     Stats := zero_TestStats; Result := Success |}.

Definition plain_stage : test_Stage :=
  {| Stage_Input := plain_input; Stage_Output := expect_status [200] false |}.

Definition bad_stage : test_Stage :=
  {| Stage_Input := bad_input; Stage_Output := expect_status [200] false |}.

Definition case_of (title : string) (stages : list test_Stage) : test_Test :=
  {| TestTitle := title; Stages := stages |}.

(** A disabled test file with one test case of two stages. *)
Definition disabled_test : test_FTWTest :=
  {| Meta_Enabled := false; Meta_Name := "disabled.yaml";
     Tests := [case_of "920200-1" [plain_stage; plain_stage]] |}.

Definition localhost : ftwhttp_Destination :=
  {| Dest_DestAddr := "localhost"; Dest_Port := 80; Dest_Protocol := "http" |}.

(** A pattern that matches the titles that start with the given prefix. *)
Definition prefix_pattern (p : string) : Regexp :=
  {| MatchString := fun title => String.prefix p title |}.

(** A server that refuses connections. *)
Definition sim_setup_refusing : SimSetup :=
  {| sim_files := sim_files sim_setup0;
     sim_refuse := true; sim_send_fails := false;
     sim_response := sim_response sim_setup0;
     sim_log := sim_log sim_setup0;
     sim_line := sim_line sim_setup0 |}.

(** The tests of a run with one executed stage, one stage with a forced
    pass, and a disabled test case of two stages. *)
Definition mixed_tests : list test_FTWTest :=
  [ one_stage_test "920100-1" plain_stage;
    one_stage_test "forced-pass-1" plain_stage;
    disabled_test ].

(** A run whose only stage has a malformed input. *)
Definition malformed_tests : list test_FTWTest :=
  [ one_stage_test "920100-1" bad_stage ].

(** ** waflog.go: the marker options *)

(** [bytes.ToLower] of the Go standard library, on a slice that may be
    nil. *)
Class GoBytes : Type := {
  bytes_ToLower : option bytes -> option bytes
}.

Section MarkerOptions.

Context {gb : GoBytes}.

(** [WithStartMarker(marker []byte) FTWLogOption] *)
Definition WithStartMarker (marker : option bytes) : FTWLogOption :=
  fun ll =>
    {| logFile := logFile ll; FileName := FileName ll;
       StartMarker := bytes_ToLower marker; EndMarker := EndMarker ll |}.

(** [WithEndMarker(marker []byte) FTWLogOption] *)
Definition WithEndMarker (marker : option bytes) : FTWLogOption :=
  fun ll =>
    {| logFile := logFile ll; FileName := FileName ll;
       StartMarker := StartMarker ll; EndMarker := bytes_ToLower marker |}.

(** The three options that waflog.go exports, as data. *)
Inductive LogOption : Type :=
| OptStartMarker (marker : option bytes)
| OptEndMarker (marker : option bytes)
| OptLogFile (fileName : string).

Definition log_option (o : LogOption) : FTWLogOption :=
  match o with
  | OptStartMarker marker => WithStartMarker marker
  | OptEndMarker marker => WithEndMarker marker
  | OptLogFile fileName => WithLogFile fileName
  end.

(** The last value that a list of options gives to each field, if any. *)
Fixpoint last_start (os : list LogOption) (d : option bytes) : option bytes :=
  match os with
  | [] => d
  | OptStartMarker marker :: os => last_start os (bytes_ToLower marker)
  | _ :: os => last_start os d
  end.

Fixpoint last_end (os : list LogOption) (d : option bytes) : option bytes :=
  match os with
  | [] => d
  | OptEndMarker marker :: os => last_end os (bytes_ToLower marker)
  | _ :: os => last_end os d
  end.

Fixpoint last_file (os : list LogOption) (d : string) : string :=
  match os with
  | [] => d
  | OptLogFile fileName :: os => last_file os fileName
  | _ :: os => last_file os d
  end.

End MarkerOptions.

(** *** More of the simulated world *)

(** Lower case of an ASCII letter. *)
Definition ascii_lower (b : Byte.byte) : Byte.byte :=
  let n := Byte.to_N b in
  if ((65 <=? n) && (n <=? 90))%N then default b (Byte.of_N (n + 32)) else b.

(** [bytes.ToLower] on ASCII text. *)
#[local] Instance sim_bytes : GoBytes := {|
  bytes_ToLower := fun s => Some (map ascii_lower (default [] s))
|}.

(** A standard-mode configuration without a log file. *)
Definition cfg_no_log : config_FTWConfiguration :=
  {| LogFile := "";
     LogMarkerHeaderName := "X-CRS-Test";
     RunMode := DefaultRunMode;
     TestOverride_Input := no_override;
     TestOverride_Ignore := [];
     TestOverride_ForceFail := [];
     TestOverride_ForcePass := [] |}.

(** An input that already carries a [Host] header. *)
Definition hosted_input : test_Input :=
  {| Input_DestAddr := None; Input_Port := None; Input_Protocol := None;
     Input_URI := Some "/"; Input_Version := None;
     Input_Headers := Some (<["Host" := "example.org"]> ∅);
     Input_Method := Some "GET";
     Input_Data := None; Input_EncodedRequest := ""; Input_RAWRequest := "";
     Input_StopMagic := false |}.

(** A stage that expects an error. *)
Definition failing_stage : test_Stage :=
  {| Stage_Input := plain_input; Stage_Output := expect_status [] true |}.

Definition verbose_config : Config :=
  {| Config_Include := None; Config_Exclude := None; Config_ShowTime := false;
     Config_Quiet := false; Config_ConnectTimeout := 0; Config_ReadTimeout := 0 |}.

(** A verbose run context of a standard-mode run. *)
Definition verbose_context : TestRunContext :=
  {| Include := None; Exclude := None; ShowTime := false; Output := false;
     LogLines := LogLines sim_context;
     Ctx_RunMode := DefaultRunMode;
     Stats := zero_TestStats; Result := Success |}.

(** ** Vocabulary of the properties *)

Section Vocabulary.

Context {W : Type} {env : Env W} {acc : InputAccessors}.
Context {C : Type} {chk : Check C W}.

Variable FTWConfig : config_FTWConfiguration.

(** The log reader as the options leave it, before the file is opened. *)
Definition configured_FTWLogLines (opts : list FTWLogOption) : waflog_FTWLogLines :=
  fold_left (fun ll opt => opt ll) opts
    {| logFile := None; FileName := LogFile FTWConfig;
       StartMarker := None; EndMarker := None |}.

(** The state after a recorded call that left the world in [w]. *)
Definition after (st : St W) (e : Event) (w : W) : St W :=
  {| world := w; trace := trace st ++ [e] |}.

(** The header map of an input, a nil map read as the empty map. *)
Definition headers_of (i : test_Input) : ftwhttp_Header :=
  default ∅ (Input_Headers i).

(** C10 as the specification states it, for the [Host] header: an input
    whose headers already have a [Host] entry leaves [applyInputOverride]
    with that entry as it was. *)
Definition host_set_only_when_absent (i : test_Input) : Prop :=
  is_Some (headers_of i !! "Host") ->
  headers_of (snd (applyInputOverride FTWConfig i)) !! "Host"
  = headers_of i !! "Host".

(** An optional override applied to an optional field. *)
Definition overridden_by {A : Type} (override field : option A) : option A :=
  match override with
  | Some v => Some v
  | None => field
  end.

(** The skip decision in the words of the specification: a disabled test is
    skipped; an inclusion filter that matches forces execution; an inclusion
    filter that is configured and does not match skips; otherwise the
    exclusion filter decides. *)
Definition filter_matches (filter : option Regexp) (title : string) : bool :=
  match filter with
  | Some re => MatchString re title
  | None => false
  end.

Definition skip_decision (include exclude : option Regexp) (title : string)
    (enabled : bool) : bool :=
  if negb enabled then true
  else if filter_matches include title then false
  else if not_nil include then true
  else filter_matches exclude title.

(** The number of request-body forms that an input sets. *)
Definition forms_set (i : test_Input) : nat :=
  ((if IsNotEmpty (Input_Data i) then 1 else 0)
   + (if String.eqb (Input_EncodedRequest i) "" then 0 else 1)
   + (if String.eqb (Input_RAWRequest i) "" then 0 else 1))%nat.

(** *** Probes

    One attempt of the marker synchronizer, in the words of the
    specification: obtain a connection, send the probe, ask the log reader
    for the identifier. *)

Inductive ProbeOutcome : Type :=
| ConnectFailed (err : error)
| SendFailed (err : error)
| MarkerSeen (line : bytes)
| NoMarker.

Definition probe (runContext : TestRunContext) (dest : ftwhttp_Destination)
    (stageID : string) (st : St W) : ProbeOutcome * St W :=
  let '(err, st) :=
    perform (EvNewOrReusedConnection dest) (Client_NewOrReusedConnection dest) st in
  match err with
  | Some err => (ConnectFailed err, st)
  | None =>
    let '(r, st) :=
      perform (EvDo (marker_request FTWConfig stageID))
        (Client_Do (marker_request FTWConfig stageID)) st in
    match snd r with
    | Some err => (SendFailed err, st)
    | None =>
      let '(marker, st) :=
        perform (EvCheckLogForMarker stageID)
          (CheckLogForMarker (LogLines runContext) stageID) st in
      match marker with
      | Some line => (MarkerSeen line, st)
      | None => (NoMarker, st)
      end
    end
  end.

(** [misses n st st']: starting in [st], [n] probes in a row complete
    without the marker being observed, and leave the state [st']. *)
Inductive misses (runContext : TestRunContext) (dest : ftwhttp_Destination)
    (stageID : string) : nat -> St W -> St W -> Prop :=
| misses_O st : misses runContext dest stageID 0 st st
| misses_S n st st1 st2 :
    probe runContext dest stageID st = (NoMarker, st1) ->
    misses runContext dest stageID n st1 st2 ->
    misses runContext dest stageID (S n) st st2.



(** The events of a probe. *)
Definition is_probe_event (e : Event) : bool :=
  match e with
  | EvNewOrReusedConnection _ | EvDo _ | EvCheckLogForMarker _ => true
  | _ => false
  end.

(** The events that the execution of a stage can produce. *)
Definition is_stage_event (e : Event) : bool :=
  match e with
  | EvNewConnection _ | EvNewOrReusedConnection _ | EvDo _
  | EvCheckLogForMarker _ | EvAssert _ | EvPrintf _ _ | EvLogError _ => true
  | _ => false
  end.

(** *** The prologue of a stage *)

(** The input of a stage after the global overrides. *)
Definition stage_input (stage : test_Stage) : test_Input :=
  snd (applyInputOverride FTWConfig (Stage_Input stage)).

(** The destination that [RunStage] derives from the input. *)
Definition stage_dest (stage : test_Stage) : ftwhttp_Destination :=
  {| Dest_DestAddr := GetDestAddr (stage_input stage);
     Dest_Port := GetPort (stage_input stage);
     Dest_Protocol := GetProtocol (stage_input stage) |}.

(** The first two statements of [RunStage]: the start time, the stage
    identifier, and the state they leave. *)
Definition stage_prologue (st : St W) : Z * string * St W :=
  let '(stageStartTime, st) := silently time_Now st in
  let '(stageID, st) := silently uuid_NewString st in
  (stageStartTime, stageID, st).

(** *** The result evaluator in the words of the specification

    An ordered list of rules, each a named check with its verdict.  The
    first satisfied rule yields [Success] and the rules after it are not
    looked at; when no rule is satisfied the result is [Failed].  The rules
    on the response exist only when there is a response. *)

Definition evaluation_rules (c : C) (response : option ftwhttp_Response) (w : W)
  : list (Assertion * bool) :=
  match response with
  | Some response =>
    [ (AStatus, AssertStatus c (Parsed_StatusCode response));
      (AResponseContains, AssertResponseContains c (GetBodyAsString response)) ]
  | None => []
  end
  ++ [ (ALogContains, AssertLogContains c w);
       (ANoLogContains, AssertNoLogContains c w) ].

(** The result, and the checks that were consulted, in order. *)
Fixpoint first_satisfied (rules : list (Assertion * bool))
  : TestResult * list Assertion :=
  match rules with
  | [] => (Failed, [])
  | (a, satisfied) :: rules =>
    if satisfied then (Success, [a])
    else let '(result, consulted) := first_satisfied rules in
         (result, a :: consulted)
  end.

Definition evaluate (c : C) (response : option ftwhttp_Response)
    (responseError : option error) (w : W) : TestResult * C * list Assertion :=
  match responseError with
  | Some _ =>
    (if ExpectError (Expected c) then Success else Failed, c, [AExpectError])
  | None =>
    let c := if CloudMode c then SetCloudMode c else c in
    let '(result, consulted) := first_satisfied (evaluation_rules c response w) in
    (result, c, consulted)
  end.

(** The state after the given assertions were consulted. *)
Definition consulting (st : St W) (consulted : list Assertion) : St W :=
  {| world := world st; trace := trace st ++ map EvAssert consulted |}.

(** Some call reached the network. *)
Definition has_network (evs : list Event) : Prop :=
  existsb is_network evs = true.

(** The statistics after a stage that was executed with the given result
    and elapsed time. *)
Definition stats_executed (result : TestResult) (title : string)
    (stageTime : Z) (stats : TestStats) : TestStats :=
  count_run (addResultToStats result title stats) stageTime.

(** The run context after a stage that was executed with the given result
    and elapsed time. *)
Definition record_executed (runContext : TestRunContext) (result : TestResult)
    (title : string) (stageTime : Z) : TestRunContext :=
  set_Stats
    (set_Result
       (set_Stats runContext (addResultToStats result title (Stats runContext)))
       result)
    (stats_executed result title stageTime (Stats runContext)).

(** The run context after a stage with a forced result. *)
Definition record_forced (runContext : TestRunContext) (result : TestResult)
    (title : string) : TestRunContext :=
  set_Stats runContext (addResultToStats result title (Stats runContext)).

(** The four blocks of [RunStage] that follow the override check. *)
Definition stage_blocks (runContext : TestRunContext) (ftwCheck : C)
    (testCase : test_Test) (stage : test_Stage) (stageStartTime : Z)
    (stageID : string) : Body StageReturn StageReturn :=
  bind (acquireStartMarker FTWConfig runContext ftwCheck (stage_dest stage)
          stageID (Stage_Output stage))
    (fun ftwCheck =>
       bind (sendRequest runContext ftwCheck (stage_input stage)
               (stage_dest stage) (Stage_Output stage))
         (fun r =>
            let '(response, responseErr) := r in
            bind (acquireEndMarker FTWConfig runContext ftwCheck
                    (stage_dest stage) stageID (Stage_Output stage))
              (fun ftwCheck =>
                 evaluateAndRecord runContext ftwCheck testCase
                   (Stage_Output stage) response responseErr stageStartTime))).

(** Console output only. *)
Definition is_print (e : Event) : bool :=
  match e with EvPrintf _ _ => true | _ => false end.

(** C6 as the specification states it, for one stage: whenever the test id
    has a forced result, [RunStage] records that result and returns no
    error. *)
Definition forced_result_always_recorded (runContext : TestRunContext) (c : C)
    (testCase : test_Test) (stage : test_Stage) (st : St W) : Prop :=
  overriddenTestResult c (TestTitle testCase) <> Failed ->
  fst (RunStage FTWConfig runContext c testCase stage st)
  = (None,
     record_forced runContext (overriddenTestResult c (TestTitle testCase))
       (TestTitle testCase), c).

(** *** Counting *)

(** The sum of the per-outcome counts. *)
Definition tally (s : TestStats) : nat :=
  sum_list (map (Stats_count s) all_results).

(** The number of stages recorded as [Success] or [Failed]. *)
Definition executed (s : TestStats) : nat :=
  (Stats_count s Success + Stats_count s Failed)%nat.

(** [Run] agrees with the number of executed stages, as a Go int. *)
Definition run_consistent (s : TestStats) : Prop :=
  Stats_Run s = wrap_int (Z.of_nat (executed s)).

(** From [s] to [s']: [nskip] more skipped test cases and [nstage] more
    stages that went through [RunStage]. *)
Definition stats_delta (s s' : TestStats) (nskip nstage : nat) : Prop :=
  Stats_count s' Skipped = (Stats_count s Skipped + nskip)%nat
  /\ tally s' = (tally s + nskip + nstage)%nat
  /\ (run_consistent s -> run_consistent s').

(** What the stages leave untouched in the run context. *)
Definition same_filters (ctx ctx' : TestRunContext) : Prop :=
  Include ctx' = Include ctx /\ Exclude ctx' = Exclude ctx
  /\ Output ctx' = Output ctx /\ LogLines ctx' = LogLines ctx.

(** The test cases of a file that the filters skip, and the stages of the
    others. *)
Fixpoint skipped_in (include exclude : option Regexp) (enabled : bool)
    (cases : list test_Test) : nat :=
  match cases with
  | [] => 0
  | testCase :: cases =>
    ((if needToSkipTest include exclude (TestTitle testCase) enabled then 1 else 0)
     + skipped_in include exclude enabled cases)%nat
  end.

Fixpoint stages_in (include exclude : option Regexp) (enabled : bool)
    (cases : list test_Test) : nat :=
  match cases with
  | [] => 0
  | testCase :: cases =>
    ((if needToSkipTest include exclude (TestTitle testCase) enabled then 0
      else length (Stages testCase))
     + stages_in include exclude enabled cases)%nat
  end.

Fixpoint skipped_cases (include exclude : option Regexp)
    (tests : list test_FTWTest) : nat :=
  match tests with
  | [] => 0
  | t :: tests =>
    (skipped_in include exclude (Meta_Enabled t) (Tests t)
     + skipped_cases include exclude tests)%nat
  end.

Fixpoint stages_run (include exclude : option Regexp)
    (tests : list test_FTWTest) : nat :=
  match tests with
  | [] => 0
  | t :: tests =>
    (stages_in include exclude (Meta_Enabled t) (Tests t)
     + stages_run include exclude tests)%nat
  end.





(** The number of times a log file was closed, and opened. *)
Definition closes (evs : list Event) : nat := length (List.filter is_close evs).
Definition opens (evs : list Event) : nat := length (List.filter is_open evs).

End Vocabulary.

(** ** More vocabulary *)

Section MoreVocabulary.

Context {W : Type} {env : Env W} {acc : InputAccessors}.
Context {C : Type} {chk : Check C W}.

Variable FTWConfig : config_FTWConfiguration.

(** The header map with [Host] set to the address unless [Get] finds a
    [Host] already. *)
Definition host_default (addr : string) (h : ftwhttp_Header) : ftwhttp_Header :=
  if String.eqb (Header_Get h "Host") "" then Header_Set h "Host" addr else h.

(** The number of events of a kind. *)
Definition count_events (p : Event -> bool) (evs : list Event) : nat :=
  length (List.filter p evs).

Definition is_reconnect (e : Event) : bool :=
  match e with EvNewOrReusedConnection _ => true | _ => false end.

Definition is_connect (e : Event) : bool :=
  match e with EvNewConnection _ => true | _ => false end.

Definition is_send (e : Event) : bool :=
  match e with EvDo _ => true | _ => false end.

Definition is_log_query (e : Event) : bool :=
  match e with EvCheckLogForMarker _ => true | _ => false end.

(** The calls of the marker synchronizer that are not made on behalf of the
    real request. *)
Definition is_marker_event (e : Event) : bool :=
  is_reconnect e || is_log_query e.

(** The events of one probe, by its outcome. *)
Definition probe_events (dest : ftwhttp_Destination) (stageID : string)
    (o : ProbeOutcome) : list Event :=
  match o with
  | ConnectFailed _ => [EvNewOrReusedConnection dest]
  | SendFailed _ =>
    [EvNewOrReusedConnection dest; EvDo (marker_request FTWConfig stageID)]
  | MarkerSeen _ | NoMarker =>
    [EvNewOrReusedConnection dest; EvDo (marker_request FTWConfig stageID);
     EvCheckLogForMarker stageID]
  end.

(** The formats that [displayResult] prints. *)
Definition display_formats : list string :=
  [ ":check_mark:passed in %s (RTT %s)\n";
    ":collision:failed in %s (RTT %s)\n";
    ":information:test ignored\n";
    ":information:test forced to fail\n";
    ":information:test forced to pass\n" ].

(** What a stage may put on the console: nothing in quiet mode, and only
    lines of [displayResult] otherwise. *)
Definition stage_print_ok (quiet : bool) (e : Event) : bool :=
  match e with
  | EvPrintf format _ => negb quiet && existsb (String.eqb format) display_formats
  | _ => true
  end.

(** What the loop over the test cases may put on the console in addition:
    the header of the file, the "running" and the "skipping" lines. *)
Definition is_header (e : Event) : bool :=
  match e with
  | EvPrintf format _ =>
    String.eqb format ":point_right:executing tests in file %s\n"
  | _ => false
  end.

Definition test_print_ok (quiet : bool) (e : Event) : bool :=
  match e with
  | EvPrintf format _ =>
    negb quiet
    && (existsb (String.eqb format) display_formats
        || String.eqb format ":point_right:executing tests in file %s\n"
        || String.eqb format "\trunning %s: "
        || String.eqb format "\tskipping %s\n")
  | _ => true
  end.



Definition is_log_error (e : Event) : bool :=
  match e with EvLogError _ => true | _ => false end.

(** What a piece of a stage does, seen from outside: it prints only what a
    stage may print, it opens [k] connections for the real request, and in
    cloud mode it makes no call of the marker synchronizer and sends at most
    [k] requests. *)
Definition block_facts (quiet cloud : bool) (k : nat) (evs : list Event) : Prop :=
  Forall (fun e => stage_print_ok quiet e = true) evs
  /\ count_events is_connect evs = k
  /\ (cloud = true ->
      Forall (fun e => is_marker_event e = false) evs
      /\ (count_events is_send evs <= k)%nat).

(** The run context that a loop hands back, on either way out. *)
Definition context_of {E : Type}
    (fl : Flow (E * TestRunContext) TestRunContext) : TestRunContext :=
  match fl with
  | Returned (_, runContext) => runContext
  | Next runContext => runContext
  end.

(** The "skipping" lines of a disabled test file. *)
Definition skipping_lines (quiet : bool) (cases : list test_Test) : list Event :=
  if quiet then []
  else map (fun testCase => EvPrintf "\tskipping %s\n" [PStr (TestTitle testCase)])
         cases.

(** [n] more test cases recorded as skipped. *)
Fixpoint skip_all (titles : list string) (stats : TestStats) : TestStats :=
  match titles with
  | [] => stats
  | title :: titles => skip_all titles (addResultToStats Skipped title stats)
  end.

(** Every per-outcome count of [s'] is at least that of [s]. *)
Definition counts_grow (s s' : TestStats) : Prop :=
  forall k, (Stats_count s k <= Stats_count s' k)%nat.

End MoreVocabulary.

(** ** Properties *)

Lemma TestResult_eqb_eq a b : TestResult_eqb a b = true <-> a = b.
Proof. destruct a, b; simpl; split; congruence. Qed.

Section Properties.

Context {W : Type} {env : Env W} {acc : InputAccessors}.
Context {C : Type} {chk : Check C W}.

Variable FTWConfig : config_FTWConfiguration.

(** *** The log window reader *)

Lemma openLogFile_cloud ll (st : St W) :
  RunMode FTWConfig = CloudRunMode ->
  openLogFile FTWConfig ll st = (None, ll, st).
Proof. intros Hm. unfold openLogFile. now rewrite Hm. Qed.

(** C9: construction of the log window reader.  In cloud mode it succeeds
    without opening any file.  In standard mode: a reader whose file is not
    open and whose file name is empty yields the no-log-file error; with a
    file name, the file is opened, and a failure of the open is returned
    wrapped, a success yields the reader with the file open. *)
Theorem NewFTWLogLines_contract (opts : list FTWLogOption) (st : St W) :
  let ll := configured_FTWLogLines FTWConfig opts in
  (RunMode FTWConfig = CloudRunMode ->
     NewFTWLogLines FTWConfig opts st = (inl ll, st))
  /\ (RunMode FTWConfig = DefaultRunMode -> logFile ll = None ->
      (FileName ll = "" ->
         NewFTWLogLines FTWConfig opts st = (inr errNoLogFile, st))
      /\ (FileName ll <> "" -> forall err w,
            os_Open (FileName ll) (world st) = (inr err, w) ->
            NewFTWLogLines FTWConfig opts st
            = (inr (fmt_Errorf_w "cannot open log file: " err),
               after st (EvOpen (FileName ll)) w))
      /\ (FileName ll <> "" -> forall f w,
            os_Open (FileName ll) (world st) = (inl f, w) ->
            NewFTWLogLines FTWConfig opts st
            = (inl (set_logFile ll (Some f)),
               after st (EvOpen (FileName ll)) w))).
Proof.
  intros ll. split.
  - intros Hm. unfold NewFTWLogLines. fold (configured_FTWLogLines FTWConfig opts).
    fold ll. rewrite openLogFile_cloud by exact Hm. now rewrite Hm.
  - intros Hm Hfile.
    assert (Hne : forall s, s <> "" -> String.eqb s "" = false)
      by (intros s Hs; now apply String.eqb_neq).
    unfold NewFTWLogLines, openLogFile.
    fold (configured_FTWLogLines FTWConfig opts). fold ll.
    rewrite Hm, Hfile. simpl. repeat split.
    + intros Hname. rewrite Hname. simpl. now rewrite Hfile.
    + intros Hname err w Hopen. rewrite (Hne _ Hname). simpl.
      unfold perform. now rewrite Hopen.
    + intros Hname f w Hopen. rewrite (Hne _ Hname). simpl.
      unfold perform. now rewrite Hopen.
Qed.

(** *** Input overrides *)

Lemma Header_Get_Set_ne (h : ftwhttp_Header) key key' value :
  key <> key' -> Header_Get (Header_Set h key value) key' = Header_Get h key'.
Proof. intros Hne. unfold Header_Get, Header_Set. now rewrite lookup_insert_ne. Qed.

Lemma applyInputOverride_sanity testRequest :
  checkTestSanity (snd (applyInputOverride FTWConfig testRequest))
  = checkTestSanity testRequest.
Proof.
  unfold applyInputOverride, checkTestSanity.
  destruct (Override_Port _), (Override_DestAddr _), (Override_Protocol _); reflexivity.
Qed.

Lemma Header_Get_Set_eq (h : ftwhttp_Header) key value :
  Header_Get (Header_Set h key value) key = value.
Proof. unfold Header_Get, Header_Set. now rewrite lookup_insert_eq. Qed.

(** *** The skip decision *)

Lemma needToSkipTest_decision include exclude title enabled :
  needToSkipTest include exclude title enabled
  = skip_decision include exclude title enabled.
Proof.
  unfold needToSkipTest, skip_decision, filter_matches, not_nil, is_nil.
  destruct enabled; simpl; [|reflexivity].
  destruct include as [inc|]; simpl.
  - destruct (MatchString inc title); simpl; [reflexivity|].
    destruct exclude as [exc|]; [destruct (MatchString exc title)|]; reflexivity.
  - destruct exclude as [exc|]; [destruct (MatchString exc title)|]; reflexivity.
Qed.

(** *** Well-formedness of the input *)

Lemma checkTestSanity_forms testRequest :
  checkTestSanity testRequest = true <-> (2 <= forms_set testRequest)%nat.
Proof.
  unfold checkTestSanity, forms_set.
  destruct (IsNotEmpty _), (String.eqb (Input_EncodedRequest _) ""),
    (String.eqb (Input_RAWRequest _) ""); simpl; split; intros; try lia;
    congruence.
Qed.

(** *** The marker synchronizer *)

Lemma perform_eq {A} (e : Event) (op : W -> A * W) (st : St W) :
  perform e op st = (fst (op (world st)), after st e (snd (op (world st)))).
Proof. unfold perform, after. now destruct (op (world st)). Qed.

Lemma probe_trace runContext dest stageID (st st' : St W) o :
  probe FTWConfig runContext dest stageID st = (o, st') ->
  exists evs, trace st' = trace st ++ EvNewOrReusedConnection dest :: evs
              /\ Forall (fun e => is_probe_event e = true) evs.
Proof.
  unfold probe. rewrite !perform_eq. simpl.
  destruct (fst (Client_NewOrReusedConnection dest (world st))).
  { intros [= <- <-]. exists []. simpl. split; [reflexivity|constructor]. }
  destruct (snd (fst (Client_Do _ _))).
  { intros [= <- <-]. eexists [_]. simpl. rewrite <- app_assoc. split; [reflexivity|].
    repeat constructor. }
  destruct (fst (CheckLogForMarker _ _ _)); intros [= <- <-];
    eexists [_; _]; simpl; rewrite <- !app_assoc; (split; [reflexivity|]);
    repeat constructor.
Qed.


(** One turn of the probe loop is one probe. *)
Lemma markAndFlush_loop_step x iterations runContext dest stageID ds (st : St W) :
  markAndFlush_loop (x :: iterations) runContext dest
    (marker_request FTWConfig stageID) stageID ds st
  = match probe FTWConfig runContext dest stageID st with
    | (ConnectFailed err, st') =>
      (Returned (None, Some (fmt_Errorf_w
         ("ftw/run: can't connect to destination " +:+ fmt_Destination dest +:+ ": ") err)),
       ds, st')
    | (SendFailed err, st') =>
      (Returned (None, Some (fmt_Errorf_w
         ("ftw/run: failed sending request to " +:+ fmt_Destination dest +:+ ": ") err)),
       ds, st')
    | (MarkerSeen line, st') => (Returned (Some line, None), ds, st')
    | (NoMarker, st') =>
      markAndFlush_loop iterations runContext dest
        (marker_request FTWConfig stageID) stageID ds st'
    end.
Proof.
  unfold probe. simpl. unfold bind, lift, Return, ret.
  destruct (perform (EvNewOrReusedConnection dest) _ st) as [[err|] st1]; [reflexivity|].
  destruct (perform (EvDo _) _ st1) as [[resp [err|]] st2]; simpl; [reflexivity|].
  destruct (perform (EvCheckLogForMarker stageID) _ st2) as [[line|] st3]; reflexivity.
Qed.

Lemma markAndFlush_loop_misses n iterations runContext dest stageID ds (st st' : St W) :
  misses FTWConfig runContext dest stageID n st st' ->
  markAndFlush_loop (repeat 0 n ++ iterations) runContext dest
    (marker_request FTWConfig stageID) stageID ds st
  = markAndFlush_loop iterations runContext dest
      (marker_request FTWConfig stageID) stageID ds st'.
Proof.
  induction 1 as [|n st st1 st2 Hprobe _ IH]; [reflexivity|].
  cbn [repeat app]. now rewrite markAndFlush_loop_step, Hprobe.
Qed.

(** What a run of the probe loop can produce. *)
Lemma markAndFlush_loop_spec iterations runContext dest stageID ds (st : St W) :
  exists fl st' evs,
    markAndFlush_loop iterations runContext dest
      (marker_request FTWConfig stageID) stageID ds st = (fl, ds, st')
    /\ trace st' = trace st ++ evs
    /\ Forall (fun e => is_probe_event e = true) evs
    /\ (iterations <> [] -> exists evs', evs = EvNewOrReusedConnection dest :: evs')
    /\ match fl with
       | Returned (marker, err) =>
         (exists line, marker = Some line /\ err = None)
         \/ (exists text e, marker = None /\ err = Some (fmt_Errorf_w text e))
       | Next _ => True
       end.
Proof.
  revert st. induction iterations as [|x iterations IH]; intros st.
  - exists (Next tt), st, []. simpl. rewrite app_nil_r. repeat split; auto; congruence.
  - rewrite markAndFlush_loop_step.
    destruct (probe FTWConfig runContext dest stageID st) as [o st1] eqn:Hprobe.
    destruct (probe_trace _ _ _ _ _ _ Hprobe) as (evs1 & Htr1 & Hev1).
    assert (Hall1 : Forall (fun e => is_probe_event e = true)
                      (EvNewOrReusedConnection dest :: evs1))
      by (constructor; [reflexivity|exact Hev1]).
    destruct o as [err|err|line|].
    + eexists _, st1, _. repeat split; eauto.
    + eexists _, st1, _. repeat split; eauto.
    + eexists _, st1, _. repeat split; eauto.
    + destruct (IH st1) as (fl & st2 & evs2 & Heq & Htr2 & Hev2 & _ & Hfl).
      exists fl, st2, ((EvNewOrReusedConnection dest :: evs1) ++ evs2).
      rewrite Heq. repeat split; auto.
      * rewrite Htr2, Htr1. now rewrite <- app_assoc.
      * apply Forall_app. split; assumption.
      * intros _. simpl. eauto.
Qed.

(** What a call of the marker synchronizer can produce: it always probes at
    least once, and returns either a line and no error, or no line and an
    error. *)
Lemma markAndFlush_spec runContext dest stageID (st : St W) :
  exists r st' evs,
    markAndFlush FTWConfig runContext dest stageID st = (r, st')
    /\ trace st' = trace st ++ EvNewOrReusedConnection dest :: evs
    /\ Forall (fun e => is_probe_event e = true) evs
    /\ ((exists line, r = (Some line, None))
        \/ (exists e, r = (None, Some e))).
Proof.
  unfold markAndFlush, call, bind.
  destruct (markAndFlush_loop_spec (repeat 0 20) runContext dest stageID [] st)
    as (fl & st' & evs & Heq & Htr & Hev & Hne & Hfl).
  rewrite Heq. destruct Hne as [evs' ->]; [discriminate|].
  inversion Hev as [|? ? _ Hev']; subst.
  destruct fl as [[marker err]|[]]; simpl.
  - eexists _, st', evs'. repeat split; eauto.
    destruct Hfl as [(line & -> & ->)|(text & e & -> & ->)]; eauto.
  - eexists _, st', evs'. repeat split; eauto.
Qed.



(** *** The result evaluator *)

Lemma first_satisfied_range rules :
  fst (first_satisfied rules) = Success \/ fst (first_satisfied rules) = Failed.
Proof.
  induction rules as [|[a b] rules IH]; simpl; [now right|].
  destruct b; [now left|]. now destruct (first_satisfied rules).
Qed.

Lemma checkResult_evaluate c response responseError (st : St W) :
  checkResult c response responseError st
  = let '(result, c', consulted) := evaluate c response responseError (world st) in
    ((result, c'), consulting st consulted).
Proof.
  unfold checkResult, evaluate, evaluation_rules, consulting, call, bind, lift,
    assertion, emit, Return, ret, run_deferred.
  destruct responseError as [err|]; simpl.
  - rewrite AssertExpectError_Expected. now destruct (ExpectError _).
  - destruct (CloudMode c); simpl;
      (destruct response as [response|]; simpl;
       [ destruct (AssertStatus _ _); simpl; [reflexivity|];
         destruct (AssertResponseContains _ _); simpl;
         [now rewrite <- app_assoc|] | ]);
      (destruct (AssertLogContains _ _); simpl;
       [now rewrite <- ?app_assoc|]);
      destruct (AssertNoLogContains _ _); simpl; now rewrite <- ?app_assoc.
Qed.

(** C1: the result evaluator.  With a transport error the result is
    [Success] when the expected output declares an error, [Failed]
    otherwise, and no other check is consulted.  Without one, the checks on
    the status, the body, the log window and its forbidden text are consulted
    in that order up to the first satisfied one, which yields [Success]; when
    none is satisfied the result is [Failed].  The trace shows exactly the
    checks that were consulted. *)
Theorem checkResult_precedence c response responseError (st : St W) :
  (forall err, responseError = Some err ->
     checkResult c response responseError st
     = ((if ExpectError (Expected c) then Success else Failed, c),
        consulting st [AExpectError]))
  /\ (responseError = None ->
      let c' := if CloudMode c then SetCloudMode c else c in
      let rules := evaluation_rules c' response (world st) in
      checkResult c response responseError st
      = ((fst (first_satisfied rules), c'),
         consulting st (snd (first_satisfied rules))))
  /\ (forall r, response = Some r ->
      map fst (evaluation_rules c response (world st))
      = [AStatus; AResponseContains; ALogContains; ANoLogContains]).
Proof.
  rewrite checkResult_evaluate. unfold evaluate. repeat split.
  - intros err ->. reflexivity.
  - intros ->. simpl. now destruct (first_satisfied _).
  - intros r ->. reflexivity.
Qed.

Lemma checkResult_spec c response responseError (st : St W) :
  exists result c' consulted,
    checkResult c response responseError st
    = ((result, c'), consulting st consulted)
    /\ (result = Success \/ result = Failed).
Proof.
  rewrite checkResult_evaluate. unfold evaluate.
  destruct responseError as [err|].
  - eexists _, _, _. split; [reflexivity|]. destruct (ExpectError _); auto.
  - simpl.
    pose proof (first_satisfied_range
      (evaluation_rules (if CloudMode c then SetCloudMode c else c)
         response (world st))) as Hr.
    destruct (first_satisfied _) as [result consulted]. eauto 6.
Qed.

(** *** The blocks of RunStage *)

Lemma Forall_probe_stage evs :
  Forall (fun e => is_probe_event e = true) evs ->
  Forall (fun e => is_stage_event e = true) evs.
Proof.
  intros H. eapply Forall_impl; [exact H|]. intros e. now destruct e.
Qed.

Lemma getRequestFromTest_spec testRequest (st : St W) :
  exists req evs,
    getRequestFromTest testRequest st
    = (req, {| world := world st; trace := trace st ++ evs |})
    /\ Forall (fun e => is_stage_event e = true) evs.
Proof.
  unfold getRequestFromTest, call, bind, exec, Return, ret, emit, run_deferred.
  destruct (GetRawRequest testRequest) as [[raw|] [err|]]; simpl.
  1, 3: eexists _, [_]; split; [reflexivity|repeat constructor].
  all: eexists _, []; rewrite app_nil_r; destruct st; split;
    [reflexivity|constructor].
Qed.

(** The start-marker block, given what the marker synchronizer returned. *)
Lemma acquireStartMarker_eq runContext c dest stageID out ds (st st' : St W) marker err :
  CloudMode c = false ->
  markAndFlush FTWConfig runContext dest stageID st = ((marker, err), st') ->
  acquireStartMarker FTWConfig runContext c dest stageID out ds st
  = match err with
    | Some e =>
      if ExpectError out
      then (Next (SetStartMarker c marker), ds, st')
      else (Returned (Some (fmt_Errorf_w "failed to find start marker: " e),
                      runContext, c), ds, st')
    | None => (Next (SetStartMarker c marker), ds, st')
    end.
Proof.
  intros Hcloud Hmark.
  unfold acquireStartMarker, notRunningInCloudMode, bind, lift, Return, ret.
  rewrite Hcloud. cbn [negb]. rewrite Hmark. simpl.
  destruct err as [e|]; [destruct (ExpectError out)|]; reflexivity.
Qed.

(** The end-marker block, given what the marker synchronizer returned. *)
Lemma acquireEndMarker_eq runContext c dest stageID out ds (st st' : St W) marker err :
  CloudMode c = false ->
  markAndFlush FTWConfig runContext dest stageID st = ((marker, err), st') ->
  acquireEndMarker FTWConfig runContext c dest stageID out ds st
  = match err with
    | Some e =>
      if ExpectError out
      then (Next (SetEndMarker c marker), ds, st')
      else (Returned (Some (fmt_Errorf_w "failed to find end marker: " e),
                      runContext, c), ds, st')
    | None => (Next (SetEndMarker c marker), ds, st')
    end.
Proof.
  intros Hcloud Hmark.
  unfold acquireEndMarker, notRunningInCloudMode, bind, lift, Return, ret.
  rewrite Hcloud. cbn [negb]. rewrite Hmark. simpl.
  destruct err as [e|]; [destruct (ExpectError out)|]; reflexivity.
Qed.

Lemma acquireStartMarker_cloud runContext c dest stageID out ds (st : St W) :
  CloudMode c = true ->
  acquireStartMarker FTWConfig runContext c dest stageID out ds st = (Next c, ds, st).
Proof.
  intros Hcloud. unfold acquireStartMarker, notRunningInCloudMode, ret.
  now rewrite Hcloud.
Qed.

Lemma acquireEndMarker_cloud runContext c dest stageID out ds (st : St W) :
  CloudMode c = true ->
  acquireEndMarker FTWConfig runContext c dest stageID out ds st = (Next c, ds, st).
Proof.
  intros Hcloud. unfold acquireEndMarker, notRunningInCloudMode, ret.
  now rewrite Hcloud.
Qed.

(** What a marker block can do: in cloud mode nothing; otherwise it probes,
    and it leaves [RunStage] only with a wrapped error and only when no
    error is expected. *)
Lemma acquireStartMarker_spec runContext c dest stageID out ds (st : St W) :
  exists fl st' evs,
    acquireStartMarker FTWConfig runContext c dest stageID out ds st = (fl, ds, st')
    /\ trace st' = trace st ++ evs
    /\ Forall (fun e => is_stage_event e = true) evs
    /\ (CloudMode c = false -> has_network evs)
    /\ match fl with
       | Returned r =>
         ExpectError out = false
         /\ exists text e, r = (Some (fmt_Errorf_w text e), runContext, c)
       | Next _ => True
       end.
Proof.
  destruct (CloudMode c) eqn:Hcloud.
  - rewrite acquireStartMarker_cloud by exact Hcloud.
    exists (Next c), st, []. rewrite app_nil_r.
    repeat split; auto; discriminate.
  - destruct (markAndFlush_spec runContext dest stageID st)
      as ([marker err] & st' & evs & Heq & Htr & Hev & _).
    rewrite (acquireStartMarker_eq _ _ _ _ _ _ _ _ _ _ Hcloud Heq).
    assert (Hall : Forall (fun e => is_stage_event e = true)
                     (EvNewOrReusedConnection dest :: evs))
      by (constructor; [reflexivity|now apply Forall_probe_stage]).
    destruct err as [e|]; [destruct (ExpectError out) eqn:Hexp|];
      eexists _, st', (EvNewOrReusedConnection dest :: evs);
      repeat split; eauto.
Qed.

Lemma acquireEndMarker_spec runContext c dest stageID out ds (st : St W) :
  exists fl st' evs,
    acquireEndMarker FTWConfig runContext c dest stageID out ds st = (fl, ds, st')
    /\ trace st' = trace st ++ evs
    /\ Forall (fun e => is_stage_event e = true) evs
    /\ match fl with
       | Returned r =>
         ExpectError out = false
         /\ exists text e, r = (Some (fmt_Errorf_w text e), runContext, c)
       | Next _ => True
       end.
Proof.
  destruct (CloudMode c) eqn:Hcloud.
  - rewrite acquireEndMarker_cloud by exact Hcloud.
    exists (Next c), st, []. rewrite app_nil_r.
    repeat split; auto.
  - destruct (markAndFlush_spec runContext dest stageID st)
      as ([marker err] & st' & evs & Heq & Htr & Hev & _).
    rewrite (acquireEndMarker_eq _ _ _ _ _ _ _ _ _ _ Hcloud Heq).
    assert (Hall : Forall (fun e => is_stage_event e = true)
                     (EvNewOrReusedConnection dest :: evs))
      by (constructor; [reflexivity|now apply Forall_probe_stage]).
    destruct err as [e|]; [destruct (ExpectError out) eqn:Hexp|];
      eexists _, st', (EvNewOrReusedConnection dest :: evs);
      repeat split; eauto.
Qed.

(** The request block always opens a connection for the real request, and
    leaves [RunStage] only with a wrapped error and only when no error is
    expected. *)
Lemma sendRequest_spec runContext (c : C) testRequest dest out ds (st : St W) :
  exists fl st' evs,
    sendRequest runContext c testRequest dest out ds st = (fl, ds, st')
    /\ trace st' = trace st ++ evs
    /\ Forall (fun e => is_stage_event e = true) evs
    /\ In (EvNewConnection dest) evs
    /\ match fl with
       | Returned r =>
         ExpectError out = false
         /\ exists text e, r = (Some (fmt_Errorf_w text e), runContext, c)
       | Next _ => True
       end.
Proof.
  unfold sendRequest, bind, lift, exec, Return, ret, update.
  destruct (getRequestFromTest_spec testRequest st) as (req & evs0 & -> & Hev0).
  rewrite !perform_eq. simpl.
  assert (Hstage : forall evs1,
            Forall (fun e => is_stage_event e = true) evs1 ->
            Forall (fun e => is_stage_event e = true) (evs0 ++ evs1))
    by (intros evs1 H1; apply Forall_app; split; assumption).
  destruct (fst (Client_NewConnection dest (world st))) as [err|];
    [destruct (ExpectError out) eqn:Hexp; simpl|simpl].
  2:{ eexists _, _, (evs0 ++ [EvNewConnection dest]). unfold after. simpl.
      rewrite <- app_assoc. repeat split; eauto;
        try (apply Hstage; repeat constructor);
        try (apply in_or_app; right; now left). }
  all: rewrite perform_eq; simpl;
    match goal with
    | |- context [Client_Do ?r ?w] =>
      destruct (Client_Do r w) as [[response [err'|]] w']; simpl
    end;
    try (destruct (ExpectError out) eqn:Hexp'; simpl);
    eexists _, _, (evs0 ++ [EvNewConnection dest; EvDo _]);
    unfold after; simpl; rewrite <- !app_assoc; simpl;
    repeat split; eauto;
    try (apply Hstage; repeat constructor);
    try (apply in_or_app; right; now left).
Qed.

Lemma displayResult_trace quiet result rtt stageTime (st : St W) :
  exists evs,
    displayResult quiet result rtt stageTime st
    = {| world := world st; trace := trace st ++ evs |}
    /\ Forall (fun e => is_stage_event e = true) evs
    /\ Forall (fun e => is_print e = true) evs.
Proof.
  unfold displayResult, printUnlessQuietMode, emit.
  destruct result, quiet; simpl;
    (eexists [_]; split; [reflexivity|split; repeat constructor])
    || (exists []; rewrite app_nil_r; destruct st;
        split; [reflexivity|split; constructor]).
Qed.

Lemma print_no_network evs :
  Forall (fun e => is_print e = true) evs -> existsb is_network evs = false.
Proof.
  induction 1 as [|e evs He _ IH]; [reflexivity|].
  simpl. rewrite IH. now destruct e.
Qed.

(** The evaluation block always returns from [RunStage] without error,
    having recorded a result that is [Success] or [Failed] and counted the
    stage as run. *)
Lemma evaluateAndRecord_spec runContext (c : C) testCase out response responseErr
    stageStartTime ds (st : St W) :
  exists result c' stageTime st' evs,
    evaluateAndRecord runContext c testCase out response responseErr
      stageStartTime ds st
    = (Returned (None,
                 record_executed runContext result (TestTitle testCase) stageTime,
                 c'), ds, st')
    /\ (result = Success \/ result = Failed)
    /\ trace st' = trace st ++ evs
    /\ Forall (fun e => is_stage_event e = true) evs.
Proof.
  unfold evaluateAndRecord, bind, lift, exec, Return, ret, silently.
  destruct (checkResult_spec (SetExpectTestOutput c out) response responseErr st)
    as (result & c' & consulted & -> & Hres).
  simpl. destruct (time_Now (world st)) as [now w'].
  destruct (displayResult_trace (Output runContext) result
              (Client_RoundTripDuration (world st)) (wrap_int (now - stageStartTime))
              {| world := w'; trace := trace st ++ map EvAssert consulted |})
    as (evs & Hd & Hev & _).
  simpl in Hd.
  exists result, c', (wrap_int (now - stageStartTime)).
  eexists _, (map EvAssert consulted ++ evs).
  split; [reflexivity|]. split; [exact Hres|].
  change (Output (set_Result (set_Stats runContext _) result))
    with (Output runContext).
  rewrite Hd. simpl. rewrite app_assoc. split; [reflexivity|].
  apply Forall_app. split; [|exact Hev].
  apply Forall_forall. intros e He. apply list_elem_of_In in He.
  apply in_map_iff in He. destruct He as (a & <- & _). reflexivity.
Qed.

Lemma has_network_In e evs :
  In e evs -> is_network e = true -> has_network evs.
Proof.
  intros Hin He. unfold has_network. apply existsb_exists. eauto.
Qed.

Lemma has_network_app_l evs evs' : has_network evs -> has_network (evs ++ evs').
Proof.
  unfold has_network. rewrite existsb_app. intros ->. reflexivity.
Qed.

Lemma has_network_app_r evs evs' : has_network evs' -> has_network (evs ++ evs').
Proof.
  unfold has_network. rewrite existsb_app. intros ->. apply orb_true_r.
Qed.

(** The four blocks together: they always return from [RunStage], after at
    least one call to the network, either with a wrapped error (only when no
    error is expected) or with a recorded [Success] or [Failed]. *)
Lemma stage_blocks_spec runContext (c : C) testCase stage stageStartTime stageID ds
    (st : St W) :
  exists r st' evs,
    stage_blocks FTWConfig runContext c testCase stage stageStartTime stageID ds st
    = (Returned r, ds, st')
    /\ trace st' = trace st ++ evs
    /\ Forall (fun e => is_stage_event e = true) evs
    /\ has_network evs
    /\ ((ExpectError (Stage_Output stage) = false
         /\ exists text e c', r = (Some (fmt_Errorf_w text e), runContext, c'))
        \/ (In (EvNewConnection (stage_dest FTWConfig stage)) evs
            /\ exists result c' stageTime,
                 (result = Success \/ result = Failed)
                 /\ r = (None,
                         record_executed runContext result (TestTitle testCase)
                           stageTime,
                         c'))).
Proof.
  unfold stage_blocks, bind.
  destruct (acquireStartMarker_spec runContext c (stage_dest FTWConfig stage) stageID
              (Stage_Output stage) ds st)
    as (fl1 & st1 & evs1 & Heq1 & Htr1 & Hev1 & Hnet1 & Hfl1).
  rewrite Heq1.
  destruct fl1 as [r1|c1].
  { destruct Hfl1 as (Hexp & text & e & ->).
    exists (Some (fmt_Errorf_w text e), runContext, c), st1, evs1.
    repeat split; auto.
    - apply Hnet1. destruct (CloudMode c) eqn:Hcloud; [|reflexivity].
      rewrite acquireStartMarker_cloud in Heq1 by exact Hcloud. discriminate.
    - left. eauto. }
  destruct (sendRequest_spec runContext c1 (stage_input FTWConfig stage)
              (stage_dest FTWConfig stage) (Stage_Output stage) ds st1)
    as (fl2 & st2 & evs2 & Heq2 & Htr2 & Hev2 & Hin2 & Hfl2).
  rewrite Heq2.
  assert (Hnet2 : has_network (evs1 ++ evs2))
    by (apply has_network_app_r; eapply has_network_In; eauto).
  assert (Htr12 : trace st2 = trace st ++ evs1 ++ evs2)
    by (now rewrite Htr2, Htr1, <- app_assoc).
  assert (Hev12 : Forall (fun e => is_stage_event e = true) (evs1 ++ evs2))
    by (apply Forall_app; split; assumption).
  destruct fl2 as [r2|[response responseErr]].
  { destruct Hfl2 as (Hexp & text & e & ->).
    exists (Some (fmt_Errorf_w text e), runContext, c1), st2, (evs1 ++ evs2).
    repeat split; auto. left. eauto. }
  destruct (acquireEndMarker_spec runContext c1 (stage_dest FTWConfig stage) stageID
              (Stage_Output stage) ds st2)
    as (fl3 & st3 & evs3 & Heq3 & Htr3 & Hev3 & Hfl3).
  rewrite Heq3.
  assert (Htr123 : trace st3 = trace st ++ (evs1 ++ evs2) ++ evs3)
    by (now rewrite Htr3, Htr12, <- app_assoc).
  assert (Hev123 : Forall (fun e => is_stage_event e = true) ((evs1 ++ evs2) ++ evs3))
    by (apply Forall_app; split; assumption).
  destruct fl3 as [r3|c3].
  { destruct Hfl3 as (Hexp & text & e & ->).
    exists (Some (fmt_Errorf_w text e), runContext, c1), st3, ((evs1 ++ evs2) ++ evs3).
    repeat split; auto.
    - now apply has_network_app_l.
    - left. eauto. }
  destruct (evaluateAndRecord_spec runContext c3 testCase (Stage_Output stage)
              response responseErr stageStartTime ds st3)
    as (result & c' & stageTime & st4 & evs4 & Heq4 & Hres & Htr4 & Hev4).
  rewrite Heq4.
  eexists _, st4, (((evs1 ++ evs2) ++ evs3) ++ evs4).
  split; [reflexivity|]. repeat split.
  - now rewrite Htr4, Htr123, <- app_assoc.
  - apply Forall_app; split; assumption.
  - now apply has_network_app_l, has_network_app_l.
  - right. split; [|eauto 6].
    apply in_or_app. left. apply in_or_app. left. apply in_or_app. now right.
Qed.

(** [RunStage], laid out along its three early exits. *)
Lemma RunStage_unfold runContext (c : C) testCase stage (st : St W) :
  RunStage FTWConfig runContext c testCase stage st
  = let '(stageStartTime, stageID, st0) := stage_prologue st in
    if checkTestSanity (stage_input FTWConfig stage)
    then ((Some errBadTestRequest, runContext, c), st0)
    else
      let overridden := overriddenTestResult c (TestTitle testCase) in
      if negb (TestResult_eqb overridden Failed)
      then ((None, record_forced runContext overridden (TestTitle testCase), c),
            displayResult (Output runContext) overridden 0 0 st0)
      else
        match stage_blocks FTWConfig runContext c testCase stage
                stageStartTime stageID [] st0 with
        | (Returned r, ds, st') | (Next r, ds, st') => (r, run_deferred ds st')
        end.
Proof.
  unfold RunStage, stage_prologue, call, bind, lift.
  destruct (silently time_Now st) as [stageStartTime st1].
  destruct (silently uuid_NewString st1) as [stageID st0].
  change (applyInputOverride FTWConfig (Stage_Input stage))
    with (@None error, stage_input FTWConfig stage).
  cbv beta iota.
  destruct (checkTestSanity (stage_input FTWConfig stage)); [reflexivity|].
  unfold ret at 1.
  destruct (negb (TestResult_eqb _ Failed)); reflexivity.
Qed.

Lemma stage_prologue_trace (st : St W) :
  trace (snd (stage_prologue st)) = trace st.
Proof.
  unfold stage_prologue, silently.
  destruct (time_Now (world st)) as [t w1]. simpl.
  destruct (uuid_NewString w1) as [id w2]. reflexivity.
Qed.

(** Every way in which [RunStage] can end. *)
Lemma RunStage_spec runContext (c : C) testCase stage (st : St W) :
  exists r st' evs,
    RunStage FTWConfig runContext c testCase stage st = (r, st')
    /\ trace st' = trace st ++ evs
    /\ Forall (fun e => is_stage_event e = true) evs
    /\ ((checkTestSanity (stage_input FTWConfig stage) = true
         /\ r = (Some errBadTestRequest, runContext, c)
         /\ evs = [])
        \/ (checkTestSanity (stage_input FTWConfig stage) = false
            /\ overriddenTestResult c (TestTitle testCase) <> Failed
            /\ r = (None,
                    record_forced runContext
                      (overriddenTestResult c (TestTitle testCase))
                      (TestTitle testCase), c)
            /\ existsb is_network evs = false)
        \/ (checkTestSanity (stage_input FTWConfig stage) = false
            /\ overriddenTestResult c (TestTitle testCase) = Failed
            /\ has_network evs
            /\ ((ExpectError (Stage_Output stage) = false
                 /\ exists text e c', r = (Some (fmt_Errorf_w text e), runContext, c'))
                \/ (In (EvNewConnection (stage_dest FTWConfig stage)) evs
                    /\ exists result c' stageTime,
                         (result = Success \/ result = Failed)
                         /\ r = (None,
                                 record_executed runContext result
                                   (TestTitle testCase) stageTime, c'))))).
Proof.
  rewrite RunStage_unfold.
  pose proof (stage_prologue_trace st) as Hpro.
  destruct (stage_prologue st) as [[stageStartTime stageID] st0]. simpl in Hpro.
  destruct (checkTestSanity (stage_input FTWConfig stage)) eqn:Hsane.
  { eexists _, st0, []. rewrite app_nil_r.
    split; [reflexivity|]. split; [auto|]. split; [constructor|]. left. auto. }
  cbv zeta.
  destruct (TestResult_eqb (overriddenTestResult c (TestTitle testCase)) Failed)
    eqn:Hover; cbn [negb].
  - apply TestResult_eqb_eq in Hover.
    destruct (stage_blocks_spec runContext c testCase stage stageStartTime stageID
                [] st0) as (r & st' & evs & -> & Htr & Hev & Hnet & Hr).
    exists r, st', evs. simpl. rewrite Htr, Hpro.
    split; [reflexivity|]. split; [reflexivity|]. split; [exact Hev|].
    right. right. auto.
  - destruct (displayResult_trace (Output runContext)
                (overriddenTestResult c (TestTitle testCase)) 0 0 st0)
      as (evs & -> & Hev & Hnet%print_no_network).
    eexists _, _, evs. simpl. rewrite Hpro.
    split; [reflexivity|]. split; [reflexivity|]. split; [exact Hev|].
    right. left. repeat split; auto.
    intros Heq. rewrite Heq in Hover. discriminate.
Qed.

(** *** Well-formedness, overrides and forced results in RunStage *)

Lemma RunStage_error_cases runContext (c : C) testCase stage (st : St W) :
  (checkTestSanity (stage_input FTWConfig stage) = true
   /\ fst (fst (fst (RunStage FTWConfig runContext c testCase stage st)))
      = Some errBadTestRequest)
  \/ (checkTestSanity (stage_input FTWConfig stage) = false
      /\ (fst (fst (fst (RunStage FTWConfig runContext c testCase stage st))) = None
          \/ exists text e,
               fst (fst (fst (RunStage FTWConfig runContext c testCase stage st)))
               = Some (fmt_Errorf_w text e))).
Proof.
  destruct (RunStage_spec runContext c testCase stage st)
    as (r & st' & evs & -> & _ & _ & H). simpl.
  destruct H as [(Hs & -> & _)|[(Hs & _ & -> & _)|(Hs & _ & _ & H)]]; auto.
  right. split; [exact Hs|].
  destruct H as [(_ & text & e & c' & ->)|(_ & res & c' & t & _ & ->)]; simpl; eauto.
Qed.

(** C8: [RunStage] fails with the bad-test-request error exactly when at
    least two of the three request-body forms are set; with at most one form
    set the check passes and the stage goes on to the forced-result check
    and, without a forced result, to the network. *)
Theorem RunStage_bad_test_request runContext (c : C) testCase stage (st : St W) :
  (checkTestSanity (Stage_Input stage) = true
   <-> (2 <= forms_set (Stage_Input stage))%nat)
  /\ (fst (fst (fst (RunStage FTWConfig runContext c testCase stage st)))
      = Some errBadTestRequest
      <-> (2 <= forms_set (Stage_Input stage))%nat)
  /\ ((forms_set (Stage_Input stage) <= 1)%nat ->
      RunStage FTWConfig runContext c testCase stage st
      = let '(stageStartTime, stageID, st0) := stage_prologue st in
        let overridden := overriddenTestResult c (TestTitle testCase) in
        if negb (TestResult_eqb overridden Failed)
        then ((None, record_forced runContext overridden (TestTitle testCase), c),
              displayResult (Output runContext) overridden 0 0 st0)
        else
          match stage_blocks FTWConfig runContext c testCase stage
                  stageStartTime stageID [] st0 with
          | (Returned r, ds, st') | (Next r, ds, st') => (r, run_deferred ds st')
          end).
Proof.
  assert (Hsane : checkTestSanity (stage_input FTWConfig stage) = true
                  <-> (2 <= forms_set (Stage_Input stage))%nat).
  { unfold stage_input. rewrite applyInputOverride_sanity.
    apply checkTestSanity_forms. }
  split; [apply checkTestSanity_forms|]. split.
  - split.
    + intros Herr.
      destruct (RunStage_error_cases runContext c testCase stage st)
        as [[Hs _]|[_ [Hn|(text & e & Hw)]]]; [now apply Hsane| |];
        unfold errBadTestRequest in Herr; congruence.
    + intros Hforms. apply Hsane in Hforms.
      destruct (RunStage_error_cases runContext c testCase stage st)
        as [[_ He]|[Hs _]]; [exact He|congruence].
  - intros Hforms. rewrite RunStage_unfold.
    destruct (stage_prologue st) as [[stageStartTime stageID] st0].
    assert (Hs : checkTestSanity (stage_input FTWConfig stage) = false)
      by (apply not_true_is_false; intros E; apply Hsane in E; lia).
    now rewrite Hs.
Qed.

(** C6, amended: for a stage whose input passes the well-formedness check
    and whose test id has a forced result, that result (forced ignore before
    forced fail before forced pass) is recorded; the stage makes no call to
    the network, to the marker synchronizer or to the result evaluator, is
    displayed with zero elapsed time and adds nothing to the run count and
    the run time.  Without a forced result the stage reaches the network. *)
Theorem RunStage_forced_result runContext (c : C) testCase stage (st : St W) :
  let id := TestTitle testCase in
  let overridden := overriddenTestResult c id in
  (ForcedIgnore c id = true -> overridden = Ignored)
  /\ (ForcedIgnore c id = false -> ForcedFail c id = true -> overridden = ForceFail)
  /\ (ForcedIgnore c id = false -> ForcedFail c id = false ->
      ForcedPass c id = true -> overridden = ForcePass)
  /\ (ForcedIgnore c id = false -> ForcedFail c id = false ->
      ForcedPass c id = false -> overridden = Failed)
  /\ (checkTestSanity (stage_input FTWConfig stage) = false ->
      overridden <> Failed ->
      RunStage FTWConfig runContext c testCase stage st
      = ((None, record_forced runContext overridden id, c),
         displayResult (Output runContext) overridden 0 0 (snd (stage_prologue st)))
      /\ Stats_count (Stats (record_forced runContext overridden id)) overridden
         = S (Stats_count (Stats runContext) overridden)
      /\ Stats_Run (Stats (record_forced runContext overridden id))
         = Stats_Run (Stats runContext)
      /\ Stats_RunTime (Stats (record_forced runContext overridden id))
         = Stats_RunTime (Stats runContext)
      /\ exists evs,
           trace (snd (RunStage FTWConfig runContext c testCase stage st))
           = trace st ++ evs
           /\ Forall (fun e => is_print e = true) evs)
  /\ (checkTestSanity (stage_input FTWConfig stage) = false ->
      overridden = Failed ->
      exists evs,
        trace (snd (RunStage FTWConfig runContext c testCase stage st))
        = trace st ++ evs
        /\ has_network evs).
Proof.
  intros id overridden. subst overridden. unfold overriddenTestResult.
  split; [now intros ->|]. split; [now intros -> ->|].
  split; [now intros -> -> ->|]. split; [now intros -> -> ->|].
  fold (overriddenTestResult c id). split.
  - intros Hsane Hover.
    assert (Hb : negb (TestResult_eqb (overriddenTestResult c id) Failed) = true).
    { destruct (TestResult_eqb _ Failed) eqn:Heq; [|reflexivity].
      apply TestResult_eqb_eq in Heq. contradiction. }
    rewrite RunStage_unfold.
    pose proof (stage_prologue_trace st) as Hpro.
    destruct (stage_prologue st) as [[stageStartTime stageID] st0].
    simpl in Hpro. rewrite Hsane. cbv zeta. fold id. rewrite Hb.
    split; [reflexivity|]. split.
    { unfold record_forced. simpl.
      now destruct (overriddenTestResult c id). }
    split; [reflexivity|]. split; [reflexivity|].
    destruct (displayResult_trace (Output runContext)
                (overriddenTestResult c id) 0 0 st0) as (evs & -> & _ & Hev).
    exists evs. simpl. now rewrite Hpro.
  - intros Hsane Hover.
    destruct (RunStage_spec runContext c testCase stage st)
      as (r & st' & evs & -> & Htr & _ & H). simpl.
    destruct H as [(Hs & _)|[(_ & Hne & _)|(_ & _ & Hnet & _)]];
      [congruence|contradiction|eauto].
Qed.

(** C10, amended: [applyInputOverride] returns a nil error, so [RunStage]
    never logs a problem with the overrides.  It sets the port, the address
    and the protocol to the configured overrides, each only when configured;
    with an address override it sets the [Host] header to the address
    exactly when [Headers.Get("Host")] is the empty string, that is when the
    headers have no [Host] entry or an empty one, and leaves the headers as
    they were when they carry a non-empty [Host]; it changes nothing
    else. *)
Theorem applyInputOverride_frame (testRequest : test_Input) :
  let overrides := TestOverride_Input FTWConfig in
  let result := snd (applyInputOverride FTWConfig testRequest) in
  fst (applyInputOverride FTWConfig testRequest) = None
  /\ Input_Port result
     = overridden_by (Override_Port overrides) (Input_Port testRequest)
  /\ Input_DestAddr result
     = overridden_by (Override_DestAddr overrides) (Input_DestAddr testRequest)
  /\ Input_Protocol result
     = overridden_by (Override_Protocol overrides) (Input_Protocol testRequest)
  /\ (Override_DestAddr overrides = None ->
      Input_Headers result = Input_Headers testRequest)
  /\ (Header_Get (headers_of testRequest) "Host" <> "" ->
      Input_Headers result = Input_Headers testRequest)
  /\ (forall addr, Override_DestAddr overrides = Some addr ->
      Header_Get (headers_of testRequest) "Host" = "" ->
      Input_Headers result = Some (Header_Set (headers_of testRequest) "Host" addr))
  /\ (forall key, key <> "Host" ->
      Header_Get (headers_of result) key = Header_Get (headers_of testRequest) key)
  /\ (Input_URI result = Input_URI testRequest
      /\ Input_Version result = Input_Version testRequest
      /\ Input_Method result = Input_Method testRequest
      /\ Input_Data result = Input_Data testRequest
      /\ Input_EncodedRequest result = Input_EncodedRequest testRequest
      /\ Input_RAWRequest result = Input_RAWRequest testRequest
      /\ Input_StopMagic result = Input_StopMagic testRequest)
  /\ (forall runContext (c : C) testCase stage (st : St W) msg,
      In (EvLogDebug msg)
         (trace (snd (RunStage FTWConfig runContext c testCase stage st))) ->
      In (EvLogDebug msg) (trace st)).
Proof.
  intros overrides result. subst overrides result.
  unfold applyInputOverride, overridden_by, headers_of.
  destruct (Override_Port _) as [port|], (Override_DestAddr _) as [addr|],
    (Override_Protocol _) as [protocol|]; simpl.
  all: repeat match goal with |- _ /\ _ => split end; try reflexivity;
    try discriminate.
  all: try (intros runContext c testCase stage st msg Hin;
            destruct (RunStage_spec runContext c testCase stage st)
              as (r & st' & evs & Heq & Htr & Hev & _);
            rewrite Heq in Hin; simpl in Hin; rewrite Htr in Hin;
            apply in_app_or in Hin; destruct Hin as [Hin|Hin]; [exact Hin|];
            rewrite Forall_forall in Hev; apply list_elem_of_In in Hin;
            apply Hev in Hin; discriminate).
  all: destruct (Input_Headers testRequest) as [h|]; simpl;
    try (intros Hhost; destruct (String.eqb_spec (Header_Get h "Host") "");
         [contradiction|reflexivity]);
    try (intros a [= <-] Hhost; rewrite Hhost; reflexivity);
    try (intros Hhost; now contradiction Hhost);
    try (intros a [= <-] _; reflexivity);
    try (intros key Hkey;
         match goal with
         | |- context [String.eqb ?x ""] => destruct (String.eqb x "")
         end; simpl; [now apply Header_Get_Set_ne|reflexivity]).
Qed.

(** *** Marker failures in RunStage *)

Lemma markAndFlush_error_nil runContext dest stageID (st st' : St W) marker e :
  markAndFlush FTWConfig runContext dest stageID st = ((marker, Some e), st') ->
  marker = None.
Proof.
  intros Heq.
  destruct (markAndFlush_spec runContext dest stageID st)
    as (r & st1 & evs & Heq' & _ & _ & [(line & ->)|(e' & ->)]);
    rewrite Heq in Heq'; congruence.
Qed.

(** A stage that reaches the start-marker block and does not expect an error
    is aborted by a failure of the marker synchronizer. *)
Lemma RunStage_start_marker_abort runContext (c : C) testCase stage
    (st st0 st1 : St W) stageStartTime stageID marker e :
  stage_prologue st = (stageStartTime, stageID, st0) ->
  checkTestSanity (stage_input FTWConfig stage) = false ->
  overriddenTestResult c (TestTitle testCase) = Failed ->
  CloudMode c = false ->
  ExpectError (Stage_Output stage) = false ->
  markAndFlush FTWConfig runContext (stage_dest FTWConfig stage) stageID st0
  = ((marker, Some e), st1) ->
  RunStage FTWConfig runContext c testCase stage st
  = ((Some (fmt_Errorf_w "failed to find start marker: " e), runContext, c), st1).
Proof.
  intros Hpro Hsane Hover Hcloud Hexp Hmark.
  rewrite RunStage_unfold, Hpro, Hsane. cbv zeta. rewrite Hover. simpl.
  unfold stage_blocks, bind.
  rewrite (acquireStartMarker_eq _ _ _ _ _ _ _ _ _ _ Hcloud Hmark), Hexp.
  reflexivity.
Qed.

(** A stage that expects an error is never aborted once its input has
    passed the well-formedness check; without a forced result it goes on to
    the real request. *)
Lemma RunStage_expect_error runContext (c : C) testCase stage (st : St W) :
  checkTestSanity (stage_input FTWConfig stage) = false ->
  ExpectError (Stage_Output stage) = true ->
  fst (fst (fst (RunStage FTWConfig runContext c testCase stage st))) = None
  /\ (overriddenTestResult c (TestTitle testCase) = Failed ->
      exists evs,
        trace (snd (RunStage FTWConfig runContext c testCase stage st))
        = trace st ++ evs
        /\ In (EvNewConnection (stage_dest FTWConfig stage)) evs).
Proof.
  intros Hsane Hexp.
  destruct (RunStage_spec runContext c testCase stage st)
    as (r & st' & evs & -> & Htr & _ & H). simpl.
  destruct H as [(Hs & _)|[(_ & Hne & -> & _)|(_ & Hov & _ & H)]];
    [congruence| |].
  - split; [reflexivity|]. intros Hov. contradiction.
  - destruct H as [(Hexp' & _)|(Hin & res & c' & t & _ & ->)]; [congruence|].
    split; [reflexivity|]. eauto.
Qed.


(** C7: in non-cloud mode a failure of the marker synchronizer before the
    real request is tolerated exactly when the expected output declares an
    error: the stage then continues, the check being handed a nil start
    marker; otherwise [RunStage] returns an error that wraps the failure.
    The block after the real request treats the end marker in the same
    way.  A stage that expects an error is never aborted by such a failure
    and goes on to the real request. *)
Theorem marker_failure_tolerance runContext (c : C) dest stageID out ds
    (st st' : St W) marker e :
  CloudMode c = false ->
  markAndFlush FTWConfig runContext dest stageID st = ((marker, Some e), st') ->
  marker = None
  /\ acquireStartMarker FTWConfig runContext c dest stageID out ds st
     = (if ExpectError out
        then (Next (SetStartMarker c None), ds, st')
        else (Returned (Some (fmt_Errorf_w "failed to find start marker: " e),
                        runContext, c), ds, st'))
  /\ acquireEndMarker FTWConfig runContext c dest stageID out ds st
     = (if ExpectError out
        then (Next (SetEndMarker c None), ds, st')
        else (Returned (Some (fmt_Errorf_w "failed to find end marker: " e),
                        runContext, c), ds, st'))
  /\ (forall testCase stage st0 stageStartTime,
      stage_prologue st0 = (stageStartTime, stageID, st) ->
      dest = stage_dest FTWConfig stage ->
      out = Stage_Output stage ->
      checkTestSanity (stage_input FTWConfig stage) = false ->
      overriddenTestResult c (TestTitle testCase) = Failed ->
      if ExpectError out
      then fst (fst (fst (RunStage FTWConfig runContext c testCase stage st0))) = None
           /\ exists evs,
                trace (snd (RunStage FTWConfig runContext c testCase stage st0))
                = trace st0 ++ evs
                /\ In (EvNewConnection dest) evs
      else RunStage FTWConfig runContext c testCase stage st0
           = ((Some (fmt_Errorf_w "failed to find start marker: " e),
               runContext, c), st')).
Proof.
  intros Hcloud Hmark.
  pose proof (markAndFlush_error_nil _ _ _ _ _ _ _ Hmark) as ->.
  split; [reflexivity|]. split; [|split].
  - now rewrite (acquireStartMarker_eq _ _ _ _ _ _ _ _ _ _ Hcloud Hmark).
  - now rewrite (acquireEndMarker_eq _ _ _ _ _ _ _ _ _ _ Hcloud Hmark).
  - intros testCase stage st0 stageStartTime Hpro -> -> Hsane Hover.
    destruct (ExpectError (Stage_Output stage)) eqn:Hexp.
    + destruct (RunStage_expect_error runContext c testCase stage st0 Hsane Hexp)
        as [Hnil Hnet]. split; [exact Hnil|]. now apply Hnet.
    + eapply RunStage_start_marker_abort; eauto.
Qed.

(** *** Statistics *)

Lemma wrap_int_succ a : wrap_int (wrap_int a + 1) = wrap_int (a + 1).
Proof.
  unfold wrap_int.
  replace ((a + 2 ^ 63) mod 2 ^ 64 - 2 ^ 63 + 1 + 2 ^ 63)
    with ((a + 2 ^ 63) mod 2 ^ 64 + 1) by lia.
  rewrite Zplus_mod_idemp_l. f_equal. f_equal. lia.
Qed.


Lemma overriddenTestResult_range (c : C) id :
  overriddenTestResult c id = Failed
  \/ overriddenTestResult c id = Ignored
  \/ overriddenTestResult c id = ForceFail
  \/ overriddenTestResult c id = ForcePass.
Proof.
  unfold overriddenTestResult.
  destruct (ForcedIgnore c id), (ForcedFail c id), (ForcedPass c id); auto.
Qed.

Lemma stats_delta_refl s : stats_delta s s 0 0.
Proof. unfold stats_delta. repeat split; auto; lia. Qed.

Lemma stats_delta_trans s1 s2 s3 k1 n1 k2 n2 :
  stats_delta s1 s2 k1 n1 -> stats_delta s2 s3 k2 n2 ->
  stats_delta s1 s3 (k1 + k2) (n1 + n2).
Proof.
  unfold stats_delta. intros (Ha & Hb & Hc) (Ha' & Hb' & Hc').
  repeat split; auto; lia.
Qed.

Lemma stats_delta_sum s1 s2 s3 k1 n1 k2 n2 k n :
  stats_delta s1 s2 k1 n1 -> stats_delta s2 s3 k2 n2 ->
  k = (k1 + k2)%nat -> n = (n1 + n2)%nat ->
  stats_delta s1 s3 k n.
Proof. intros H1 H2 -> ->. eapply stats_delta_trans; eauto. Qed.

Lemma stats_delta_skipped s title :
  stats_delta s (addResultToStats Skipped title s) 1 0.
Proof.
  unfold stats_delta, tally, run_consistent, executed. simpl.
  repeat split; auto; lia.
Qed.

Lemma stats_delta_forced s result title :
  result = Ignored \/ result = ForceFail \/ result = ForcePass ->
  stats_delta s (addResultToStats result title s) 0 1.
Proof.
  unfold stats_delta, tally, run_consistent, executed.
  intros [->|[->| ->]]; simpl; repeat split; auto; lia.
Qed.

Lemma stats_delta_executed s result title stageTime :
  result = Success \/ result = Failed ->
  stats_delta s (stats_executed result title stageTime s) 0 1.
Proof.
  unfold stats_delta, tally, run_consistent, executed, stats_executed.
  intros [-> | ->]; simpl; (split; [lia|split; [lia|]]); intros ->;
    rewrite wrap_int_succ; f_equal; lia.
Qed.

Lemma same_filters_refl ctx : same_filters ctx ctx.
Proof. unfold same_filters. auto. Qed.

Lemma same_filters_trans ctx1 ctx2 ctx3 :
  same_filters ctx1 ctx2 -> same_filters ctx2 ctx3 -> same_filters ctx1 ctx3.
Proof.
  unfold same_filters. intros (-> & -> & -> & ->) (-> & -> & -> & ->). auto.
Qed.

(** What [RunStage] does to the run context: nothing on an error, one more
    stage otherwise. *)
Lemma RunStage_stats runContext (c : C) testCase stage (st : St W) :
  exists err runContext' c' st' evs,
    RunStage FTWConfig runContext c testCase stage st
    = ((err, runContext', c'), st')
    /\ trace st' = trace st ++ evs
    /\ Forall (fun e => is_stage_event e = true) evs
    /\ same_filters runContext runContext'
    /\ match err with
       | Some _ => runContext' = runContext
       | None => stats_delta (Stats runContext) (Stats runContext') 0 1
       end.
Proof.
  destruct (RunStage_spec runContext c testCase stage st)
    as (r & st' & evs & -> & Htr & Hev & H).
  destruct H as [(_ & -> & _)|[(_ & Hne & -> & _)|(_ & _ & _ & H)]].
  - eexists _, _, _, st', evs. split; [reflexivity|].
    repeat split; auto.
  - eexists _, _, _, st', evs. split; [reflexivity|].
    split; [exact Htr|]. split; [exact Hev|]. split; [repeat split|].
    apply stats_delta_forced.
    destruct (overriddenTestResult_range c (TestTitle testCase))
      as [?|?]; [contradiction|assumption].
  - destruct H as [(_ & text & e & c' & ->)|(_ & res & c' & t & Hres & ->)].
    + eexists _, _, _, st', evs. split; [reflexivity|]. repeat split; auto.
    + eexists _, _, _, st', evs. split; [reflexivity|].
      split; [exact Htr|]. split; [exact Hev|]. split; [repeat split|].
      now apply stats_delta_executed.
Qed.

Lemma RunTest_stages_spec stages runContext testCase ds (st : St W) :
  exists fl st' evs,
    RunTest_stages FTWConfig runContext testCase stages ds st = (fl, ds, st')
    /\ trace st' = trace st ++ evs
    /\ Forall (fun e => is_stage_event e = true) evs
    /\ match fl with
       | Next runContext' =>
         same_filters runContext runContext'
         /\ stats_delta (Stats runContext) (Stats runContext') 0 (length stages)
       | Returned (err, _) => err <> None
       end.
Proof.
  revert runContext st.
  induction stages as [|stage stages IH]; intros runContext st.
  - exists (Next runContext), st, []. simpl. rewrite app_nil_r.
    split; [reflexivity|]. split; [reflexivity|]. split; [constructor|].
    split; [apply same_filters_refl|apply stats_delta_refl].
  - cbn [RunTest_stages]. unfold bind at 1. unfold lift at 1.
    destruct (silently (NewCheck FTWConfig) st) as [ftwCheck st1] eqn:Hnew.
    assert (Htr1 : trace st1 = trace st).
    { unfold silently in Hnew. destruct (NewCheck FTWConfig (world st)).
      now inversion Hnew. }
    unfold bind at 1. unfold lift at 1.
    destruct (RunStage_stats runContext ftwCheck testCase stage st1)
      as (err & ctx1 & c1 & st2 & evs1 & -> & Htr2 & Hev1 & Hsame1 & Herr).
    destruct err as [e|].
    + unfold bind, Return. eexists _, st2, evs1. split; [reflexivity|].
      rewrite Htr2, Htr1. repeat split; auto; discriminate.
    + unfold bind at 1. unfold ret at 1.
      destruct (IH ctx1 st2) as (fl & st3 & evs2 & -> & Htr3 & Hev2 & Hfl).
      exists fl, st3, (evs1 ++ evs2). split; [reflexivity|].
      split; [now rewrite Htr3, Htr2, Htr1, app_assoc|].
      split; [apply Forall_app; split; assumption|].
      destruct fl as [[err ?]|ctx2]; [exact Hfl|].
      destruct Hfl as [Hsame2 Hdelta2]. split.
      * eapply same_filters_trans; eauto.
      * eapply stats_delta_sum; [exact Herr|exact Hdelta2|reflexivity|reflexivity].
Qed.

Lemma printUnlessQuietMode_trace quiet format args (st : St W) :
  exists evs,
    printUnlessQuietMode quiet format args st
    = {| world := world st; trace := trace st ++ evs |}
    /\ Forall (fun e => is_stage_event e = true) evs
    /\ Forall (fun e => is_print e = true) evs.
Proof.
  unfold printUnlessQuietMode, emit. destruct quiet; simpl.
  - exists []. rewrite app_nil_r. destruct st. repeat split; constructor.
  - eexists [_]. repeat split; repeat constructor.
Qed.

(** A skipped test case: one more [Skipped] in the statistics, at most the
    "skipping" line on the console, and on to the next test case. *)
Lemma RunTest_cases_skip ftwTest changed runContext testCase cases ds (st : St W) :
  needToSkipTest (Include runContext) (Exclude runContext) (TestTitle testCase)
    (Meta_Enabled ftwTest) = true ->
  RunTest_cases (chk := chk) FTWConfig ftwTest changed runContext (testCase :: cases) ds st
  = RunTest_cases FTWConfig ftwTest changed
      (set_Stats runContext
         (addResultToStats Skipped (TestTitle testCase) (Stats runContext)))
      cases ds
      (if negb (Meta_Enabled ftwTest)
       then printUnlessQuietMode (Output runContext) "\tskipping %s\n"
              [PStr (TestTitle testCase)] st
       else st).
Proof.
  intros Hskip. cbn [RunTest_cases]. rewrite Hskip.
  unfold bind at 1. now destruct (negb (Meta_Enabled ftwTest)).
Qed.

Lemma RunTest_cases_spec ftwTest cases changed runContext ds (st : St W) :
  exists fl st' evs,
    RunTest_cases FTWConfig ftwTest changed runContext cases ds st = (fl, ds, st')
    /\ trace st' = trace st ++ evs
    /\ Forall (fun e => is_stage_event e = true) evs
    /\ match fl with
       | Next runContext' =>
         same_filters runContext runContext'
         /\ stats_delta (Stats runContext) (Stats runContext')
              (skipped_in (Include runContext) (Exclude runContext)
                 (Meta_Enabled ftwTest) cases)
              (stages_in (Include runContext) (Exclude runContext)
                 (Meta_Enabled ftwTest) cases)
       | Returned (err, _) => err <> None
       end.
Proof.
  revert changed runContext st.
  induction cases as [|testCase cases IH]; intros changed runContext st.
  - exists (Next runContext), st, []. simpl. rewrite app_nil_r.
    split; [reflexivity|]. split; [reflexivity|]. split; [constructor|].
    split; [apply same_filters_refl|apply stats_delta_refl].
  - destruct (needToSkipTest (Include runContext) (Exclude runContext)
                (TestTitle testCase) (Meta_Enabled ftwTest)) eqn:Hskip.
    + rewrite RunTest_cases_skip by exact Hskip.
      cbn [skipped_in stages_in]. rewrite Hskip.
      set (ctx1 := set_Stats runContext _).
      assert (Hst : exists evs0,
                (if negb (Meta_Enabled ftwTest)
                 then printUnlessQuietMode (Output runContext) "\tskipping %s\n"
                        [PStr (TestTitle testCase)] st
                 else st) = {| world := world st; trace := trace st ++ evs0 |}
                /\ Forall (fun e => is_stage_event e = true) evs0).
      { destruct (negb (Meta_Enabled ftwTest)).
        - destruct (printUnlessQuietMode_trace (Output runContext)
                      "\tskipping %s\n" [PStr (TestTitle testCase)] st)
            as (evs0 & -> & Hev0 & _). eauto.
        - exists []. rewrite app_nil_r. destruct st. split; [reflexivity|constructor]. }
      destruct Hst as (evs0 & -> & Hev0).
      destruct (IH changed ctx1 {| world := world st; trace := trace st ++ evs0 |})
        as (fl & st' & evs & -> & Htr & Hev & Hfl).
      simpl in Htr.
      exists fl, st', (evs0 ++ evs). split; [reflexivity|].
      split; [now rewrite Htr, <- app_assoc|].
      split; [apply Forall_app; split; assumption|].
      destruct fl as [[err ?]|ctx2]; [exact Hfl|].
      destruct Hfl as [Hsame Hdelta]. split.
      * eapply same_filters_trans; [|exact Hsame]. subst ctx1. repeat split.
      * eapply (stats_delta_sum _ (Stats ctx1));
          [subst ctx1; apply stats_delta_skipped|exact Hdelta
          |reflexivity|reflexivity].
    + cbn [RunTest_cases skipped_in stages_in]. rewrite Hskip.
      unfold bind at 1.
      assert (Hch : exists changed' evs0,
                (if changed
                 then bind (R := option error * TestRunContext)
                        (exec (printUnlessQuietMode (Output runContext)
                                 ":point_right:executing tests in file %s\n"
                                 [PStr (Meta_Name ftwTest)]))
                        (fun _ => ret false)
                 else ret changed) ds st
                = (Next changed', ds,
                   {| world := world st; trace := trace st ++ evs0 |})
                /\ Forall (fun e => is_stage_event e = true) evs0).
      { destruct changed.
        - unfold bind, exec, ret.
          destruct (printUnlessQuietMode_trace (Output runContext)
                      ":point_right:executing tests in file %s\n"
                      [PStr (Meta_Name ftwTest)] st)
            as (evs0 & -> & Hev0 & _). eauto.
        - exists false, []. rewrite app_nil_r. unfold ret. destruct st.
          split; [reflexivity|constructor]. }
      destruct Hch as (changed' & evs0 & -> & Hev0).
      unfold bind at 1. unfold exec at 1.
      destruct (printUnlessQuietMode_trace (Output runContext) "\trunning %s: "
                  [PStr (TestTitle testCase)]
                  {| world := world st; trace := trace st ++ evs0 |})
        as (evs1 & -> & Hev1 & _). simpl.
      unfold bind at 1.
      destruct (RunTest_stages_spec (Stages testCase) runContext testCase ds
                  {| world := world st; trace := (trace st ++ evs0) ++ evs1 |})
        as (fl1 & st1 & evs2 & -> & Htr1 & Hev2 & Hfl1).
      simpl in Htr1.
      destruct fl1 as [[err ctx']|ctx1].
      { eexists _, st1, ((evs0 ++ evs1) ++ evs2). split; [reflexivity|].
        split; [now rewrite Htr1, <- !app_assoc|].
        split; [|exact Hfl1]. repeat (apply Forall_app; split); assumption. }
      destruct Hfl1 as [Hsame1 Hdelta1].
      destruct (IH changed' ctx1 st1) as (fl & st' & evs & -> & Htr & Hev & Hfl).
      exists fl, st', (((evs0 ++ evs1) ++ evs2) ++ evs). split; [reflexivity|].
      split; [now rewrite Htr, Htr1, <- !app_assoc|].
      split; [repeat (apply Forall_app; split); assumption|].
      destruct fl as [[err ?]|ctx2]; [exact Hfl|].
      destruct Hfl as [Hsame Hdelta]. split.
      * eapply same_filters_trans; eauto.
      * destruct Hsame1 as (Hi & He & _). rewrite Hi, He in Hdelta.
        eapply stats_delta_sum; [exact Hdelta1|exact Hdelta|reflexivity|reflexivity].
Qed.

Lemma RunTest_spec runContext ftwTest (st : St W) :
  exists err runContext' st' evs,
    RunTest FTWConfig runContext ftwTest st = ((err, runContext'), st')
    /\ trace st' = trace st ++ evs
    /\ Forall (fun e => is_stage_event e = true) evs
    /\ (err = None ->
        same_filters runContext runContext'
        /\ stats_delta (Stats runContext) (Stats runContext')
             (skipped_in (Include runContext) (Exclude runContext)
                (Meta_Enabled ftwTest) (Tests ftwTest))
             (stages_in (Include runContext) (Exclude runContext)
                (Meta_Enabled ftwTest) (Tests ftwTest))).
Proof.
  unfold RunTest, call, bind.
  destruct (RunTest_cases_spec ftwTest (Tests ftwTest) true runContext [] st)
    as (fl & st' & evs & -> & Htr & Hev & Hfl).
  destruct fl as [[err ctx']|ctx']; simpl.
  - exists err, ctx', st', evs. repeat split; auto; contradiction.
  - exists None, ctx', st', evs. repeat split; auto; apply Hfl.
Qed.

(** C5: the skip decision.  A disabled test is always skipped; otherwise a
    title that matches the inclusion filter is never skipped; otherwise a
    configured inclusion filter that does not match skips the test;
    otherwise the test is skipped exactly when the exclusion filter matches.
    A skipped test case contributes one [Skipped] count: the run context
    that the loop goes on with has one more [Skipped], the other counts and
    [Run] as they were; none of its stages is run: the world is as it was
    and at most the "skipping" line is printed.  Over a whole test file
    that returns no error, the [Skipped] count grows by the number of test
    cases that the decision skips. *)
Theorem needToSkipTest_policy include exclude title enabled :
  needToSkipTest include exclude title enabled
  = skip_decision include exclude title enabled
  /\ (enabled = false -> needToSkipTest include exclude title enabled = true)
  /\ (enabled = true -> filter_matches include title = true ->
      needToSkipTest include exclude title enabled = false)
  /\ (enabled = true -> not_nil include = true ->
      filter_matches include title = false ->
      needToSkipTest include exclude title enabled = true)
  /\ (enabled = true -> include = None ->
      needToSkipTest include exclude title enabled = filter_matches exclude title)
  /\ (forall ftwTest changed runContext testCase cases ds (st : St W),
      Include runContext = include -> Exclude runContext = exclude ->
      TestTitle testCase = title -> Meta_Enabled ftwTest = enabled ->
      needToSkipTest include exclude title enabled = true ->
      let skipped :=
        set_Stats runContext (addResultToStats Skipped title (Stats runContext)) in
      let st' :=
        if negb enabled
        then printUnlessQuietMode (Output runContext) "\tskipping %s\n"
               [PStr title] st
        else st in
      RunTest_cases (chk := chk) FTWConfig ftwTest changed runContext
        (testCase :: cases) ds st
      = RunTest_cases FTWConfig ftwTest changed skipped cases ds st'
      /\ RunTest_cases (chk := chk) FTWConfig ftwTest changed runContext
           [testCase] ds st
         = (Next skipped, ds, st')
      /\ Stats_count (Stats skipped) Skipped
         = S (Stats_count (Stats runContext) Skipped)
      /\ (forall k, k <> Skipped ->
          Stats_count (Stats skipped) k = Stats_count (Stats runContext) k)
      /\ Stats_Run (Stats skipped) = Stats_Run (Stats runContext)
      /\ world st' = world st
      /\ exists evs,
           trace st' = trace st ++ evs
           /\ Forall (fun e => is_print e = true) evs
           /\ (length evs <= 1)%nat)
  /\ (forall ftwTest runContext (st : St W),
      Include runContext = include -> Exclude runContext = exclude ->
      Meta_Enabled ftwTest = enabled ->
      fst (fst (RunTest (chk := chk) FTWConfig runContext ftwTest st)) = None ->
      Stats_count
        (Stats (snd (fst (RunTest (chk := chk) FTWConfig runContext ftwTest st))))
        Skipped
      = (Stats_count (Stats runContext) Skipped
         + skipped_in include exclude enabled (Tests ftwTest))%nat).
Proof.
  assert (Hdec := needToSkipTest_decision include exclude title enabled).
  split; [exact Hdec|]. rewrite Hdec. unfold skip_decision.
  split; [now intros ->|]. split; [now intros -> ->|].
  split; [now intros -> -> ->|]. split; [now intros -> ->|].
  fold (skip_decision include exclude title enabled). rewrite <- Hdec. clear Hdec.
  split.
  - intros ftwTest changed runContext testCase cases ds st <- <- <- <- Hskip.
    set (st' := if negb (Meta_Enabled ftwTest) then _ else st).
    assert (Hst : exists evs,
              st' = {| world := world st; trace := trace st ++ evs |}
              /\ Forall (fun e => is_print e = true) evs
              /\ (length evs <= 1)%nat).
    { subst st'. destruct (negb (Meta_Enabled ftwTest)).
      - unfold printUnlessQuietMode, emit. destruct (Output runContext); simpl.
        + exists []. rewrite app_nil_r. destruct st.
          split; [reflexivity|]. split; [constructor|simpl; lia].
        + eexists [_]. split; [reflexivity|].
          split; [repeat constructor|simpl; lia].
      - exists []. rewrite app_nil_r. destruct st.
        split; [reflexivity|]. split; [constructor|simpl; lia]. }
    split; [now apply RunTest_cases_skip|].
    split; [now rewrite RunTest_cases_skip|].
    split; [reflexivity|].
    split; [intros k Hk; destruct k; try reflexivity; contradiction|].
    split; [reflexivity|].
    destruct Hst as (evs & Hst & Hev & Hlen). rewrite Hst.
    split; [reflexivity|]. exists evs. auto.
  - intros ftwTest runContext st <- <- <- Herr.
    destruct (RunTest_spec runContext ftwTest st)
      as (err & ctx' & st' & evs & Heq & _ & _ & H).
    rewrite Heq in Herr |- *. cbn [fst snd] in Herr |- *.
    destruct (H Herr) as (_ & Hskipped & _). exact Hskipped.
Qed.


Lemma Run_tests_spec tests runContext ds (st : St W) :
  exists fl st' evs,
    Run_tests FTWConfig runContext tests ds st = (fl, ds, st')
    /\ trace st' = trace st ++ evs
    /\ Forall (fun e => is_stage_event e = true) evs
    /\ match fl with
       | Next runContext' =>
         same_filters runContext runContext'
         /\ stats_delta (Stats runContext) (Stats runContext')
              (skipped_cases (Include runContext) (Exclude runContext) tests)
              (stages_run (Include runContext) (Exclude runContext) tests)
       | Returned r => exists e, r = (zero_TestRunContext, Some e)
       end.
Proof.
  revert runContext st.
  induction tests as [|tc tests IH]; intros runContext st.
  - exists (Next runContext), st, []. simpl. rewrite app_nil_r.
    split; [reflexivity|]. split; [reflexivity|]. split; [constructor|].
    split; [apply same_filters_refl|apply stats_delta_refl].
  - cbn [Run_tests skipped_cases stages_run]. unfold bind at 1. unfold lift at 1.
    destruct (RunTest_spec runContext tc st)
      as (err & ctx1 & st1 & evs1 & -> & Htr1 & Hev1 & Herr).
    destruct err as [e|].
    + unfold bind, Return. eexists _, st1, evs1. split; [reflexivity|].
      repeat split; eauto.
    + unfold bind at 1. unfold ret at 1.
      destruct (Herr eq_refl) as [Hsame1 Hdelta1].
      destruct (IH ctx1 st1) as (fl & st2 & evs2 & -> & Htr2 & Hev2 & Hfl).
      exists fl, st2, (evs1 ++ evs2). split; [reflexivity|].
      split; [now rewrite Htr2, Htr1, <- app_assoc|].
      split; [apply Forall_app; split; assumption|].
      destruct fl as [r|ctx2]; [exact Hfl|].
      destruct Hfl as [Hsame2 Hdelta2]. split.
      * eapply same_filters_trans; eauto.
      * destruct Hsame1 as (Hi & He & _). rewrite Hi, He in Hdelta2.
        eapply stats_delta_sum; [exact Hdelta1|exact Hdelta2|reflexivity|reflexivity].
Qed.

(** *** The log file over a run *)

Lemma closes_app evs evs' : closes (evs ++ evs') = (closes evs + closes evs')%nat.
Proof. unfold closes. now rewrite List.filter_app, length_app. Qed.

Lemma opens_app evs evs' : opens (evs ++ evs') = (opens evs + opens evs')%nat.
Proof. unfold opens. now rewrite List.filter_app, length_app. Qed.

Lemma stage_events_no_file evs :
  Forall (fun e => is_stage_event e = true) evs -> closes evs = 0%nat /\ opens evs = 0%nat.
Proof.
  unfold closes, opens.
  induction 1 as [|e evs He _ [IHc IHo]]; [split; reflexivity|].
  destruct e; try discriminate; simpl; auto.
Qed.

(** The reader that [Run] constructs: in standard mode its file is open and
    was opened by this call; in cloud mode no file is involved. *)
Lemma NewFTWLogLines_run name (st : St W) :
  exists r st' evs,
    NewFTWLogLines FTWConfig [WithLogFile name] st = (r, st')
    /\ trace st' = trace st ++ evs
    /\ closes evs = 0%nat
    /\ match r with
       | inl ll =>
         match RunMode FTWConfig with
         | DefaultRunMode => (exists f, logFile ll = Some f) /\ opens evs = 1%nat
         | CloudRunMode => logFile ll = None /\ opens evs = 0%nat
         end
       | inr _ => True
       end.
Proof.
  unfold NewFTWLogLines, openLogFile. simpl.
  destruct (RunMode FTWConfig); simpl.
  - destruct (String.eqb name ""); simpl.
    + exists (inr errNoLogFile), st, []. now rewrite app_nil_r.
    + rewrite perform_eq.
      destruct (fst (os_Open name (world st))) as [f|err]; simpl.
      * eexists _, _, [EvOpen name]. repeat split; eauto.
      * eexists _, _, [EvOpen name]. repeat split; eauto.
  - eexists _, st, []. rewrite app_nil_r. repeat split; eauto.
Qed.

Lemma cleanLogs_trace ll (st : St W) :
  exists evs,
    trace (cleanLogs ll st) = trace st ++ evs
    /\ closes evs = (if is_nil (logFile ll) then 0 else 1)%nat
    /\ opens evs = 0%nat.
Proof.
  unfold cleanLogs, Cleanup.
  destruct (logFile ll) as [f|]; simpl.
  - rewrite perform_eq. destruct (fst (File_Close f (world st))); simpl.
    + eexists [_; _]. rewrite <- app_assoc. simpl. repeat split; reflexivity.
    + eexists [_]. repeat split; reflexivity.
  - exists []. now rewrite app_nil_r.
Qed.

(** Every way in which [Run] can end. *)
Lemma Run_spec tests c (st : St W) :
  exists runContext err st' evs,
    Run FTWConfig tests c st = ((runContext, err), st')
    /\ trace st' = trace st ++ evs
    /\ match err with
       | Some _ => runContext = zero_TestRunContext /\ closes evs = 0%nat
       | None =>
         stats_delta zero_TestStats (Stats runContext)
           (skipped_cases (Config_Include c) (Config_Exclude c) tests)
           (stages_run (Config_Include c) (Config_Exclude c) tests)
         /\ opens evs = closes evs
         /\ closes evs = match RunMode FTWConfig with
                         | DefaultRunMode => 1%nat
                         | CloudRunMode => 0%nat
                         end
       end.
Proof.
  unfold Run, call. unfold bind at 1. unfold exec at 1.
  destruct (printUnlessQuietMode_trace (Config_Quiet c) ":rocket:Running go-ftw!\n" [] st)
    as (evs0 & -> & Hev0 & _).
  apply stage_events_no_file in Hev0. destruct Hev0 as [Hc0 Ho0].
  unfold bind at 1. unfold lift at 1.
  destruct (NewFTWLogLines_run (LogFile FTWConfig)
              {| world := world st; trace := trace st ++ evs0 |})
    as (r & st1 & evs1 & -> & Htr1 & Hc1 & Hr).
  simpl in Htr1.
  destruct r as [logLines|err].
  2:{ exists zero_TestRunContext, (Some err), st1, (evs0 ++ evs1). simpl.
      split; [reflexivity|]. split; [now rewrite Htr1, app_assoc|].
      split; [reflexivity|]. rewrite closes_app. lia. }
  set (conf := if negb (Config_ReadTimeout c =? 0) then _ else _).
  unfold bind at 1. unfold lift at 1. rewrite perform_eq.
  destruct (fst (ftwhttp_NewClient conf (world st1))) as [err|].
  { unfold bind, Return. simpl.
    eexists _, _, _, ((evs0 ++ evs1) ++ [EvNewClient conf]).
    split; [reflexivity|]. unfold after. simpl.
    split; [now rewrite Htr1, !app_assoc|].
    split; [reflexivity|]. rewrite !closes_app. simpl.
    unfold closes at 3. simpl. lia. }
  unfold bind at 1. unfold ret at 1. unfold bind at 1.
  match goal with
  | |- context [Run_tests FTWConfig ?ctx tests [] ?s] =>
    destruct (Run_tests_spec tests ctx [] s)
      as (fl & st2 & evs2 & -> & Htr2 & Hev2 & Hfl)
  end.
  unfold after in Htr2. simpl in Htr2.
  pose proof (stage_events_no_file _ Hev2) as [Hc2 Ho2].
  destruct fl as [r|ctx'].
  { destruct Hfl as [e ->]. simpl.
    exists zero_TestRunContext, (Some e), st2, (((evs0 ++ evs1) ++ [EvNewClient conf]) ++ evs2).
    split; [reflexivity|].
    split; [now rewrite Htr2, Htr1, !app_assoc|].
    split; [reflexivity|]. rewrite !closes_app.
    unfold closes at 3. simpl. lia. }
  destruct Hfl as [_ Hdelta]. simpl in Hdelta.
  unfold bind, exec, defer, Return. simpl.
  destruct (cleanLogs_trace logLines (emit (EvPrintSummary (Config_Quiet c) (Stats ctx')) st2))
    as (evs3 & Htr3 & Hc3 & Ho3).
  exists ctx', None. eexists _, _. split; [reflexivity|].
  split.
  { rewrite Htr3. unfold emit. simpl. rewrite Htr2, Htr1.
    rewrite <- !app_assoc. reflexivity. }
  split; [exact Hdelta|].
  rewrite !closes_app, !opens_app, Hc0, Ho0, Hc1, Hc2, Ho2, Hc3, Ho3.
  destruct (RunMode FTWConfig).
  - destruct Hr as [[f Hf] Ho1]. rewrite Hf, Ho1.
    unfold closes, opens. simpl. split; lia.
  - destruct Hr as [Hf Ho1]. rewrite Hf, Ho1.
    unfold closes, opens. simpl. split; lia.
Qed.


End Properties.

(** ** Further properties *)

Section MoreProperties.

Context {W : Type} {env : Env W} {acc : InputAccessors}.
Context {C : Type} {chk : Check C W} {gb : GoBytes}.

Variable FTWConfig : config_FTWConfiguration.

(** *** The options of the log reader *)

Lemma fold_log_options os ll :
  fold_left (fun ll opt => opt ll) (map log_option os) ll
  = {| logFile := logFile ll;
       FileName := last_file os (FileName ll);
       StartMarker := last_start os (StartMarker ll);
       EndMarker := last_end os (EndMarker ll) |}.
Proof.
  revert ll. induction os as [|o os IH]; intros ll; [now destruct ll|].
  cbn [map fold_left]. rewrite IH. now destruct o.
Qed.

(** X1: the exported options are independent of each other and the last one
    for a field wins: the reader is configured with the last file name
    given (the configured log file if none), the lower-cased last start and
    end markers (nil if none), and no open file. *)
Theorem options_last_wins (os : list LogOption) :
  configured_FTWLogLines FTWConfig (map log_option os)
  = {| logFile := None;
       FileName := last_file os (LogFile FTWConfig);
       StartMarker := last_start os None;
       EndMarker := last_end os None |}.
Proof. unfold configured_FTWLogLines. now rewrite fold_log_options. Qed.

Lemma NewFTWLogLines_configured opts (st : St W) :
  NewFTWLogLines FTWConfig opts st
  = (let '(err, ll, st) :=
       openLogFile FTWConfig (configured_FTWLogLines FTWConfig opts) st in
     match err with
     | Some err => (inr (fmt_Errorf_w "cannot open log file: " err), st)
     | None =>
       if RunMode_eqb (RunMode FTWConfig) DefaultRunMode && is_nil (logFile ll)
       then (inr errNoLogFile, st)
       else (inl ll, st)
     end).
Proof. reflexivity. Qed.

(** X2: the marker options have no influence on the file: with the exported
    options, construction depends on the start and end markers only through
    the marker fields of the reader it returns. *)
Theorem NewFTWLogLines_ignores_markers (os : list LogOption) (st : St W) :
  let files := map log_option
                 (List.filter (fun o => match o with OptLogFile _ => true
                                                | _ => false end) os) in
  match NewFTWLogLines FTWConfig (map log_option os) st,
        NewFTWLogLines FTWConfig files st with
  | (inl ll, st1), (inl ll', st2) =>
    st1 = st2 /\ logFile ll = logFile ll' /\ FileName ll = FileName ll'
    /\ StartMarker ll = last_start os None /\ EndMarker ll = last_end os None
  | (inr err, st1), (inr err', st2) => st1 = st2 /\ err = err'
  | _, _ => False
  end.
Proof.
  intros files. subst files.
  rewrite !NewFTWLogLines_configured. unfold configured_FTWLogLines.
  rewrite !fold_log_options. cbn [logFile FileName StartMarker EndMarker].
  assert (Hfile : forall d,
            last_file (List.filter (fun o => match o with OptLogFile _ => true
                                                     | _ => false end) os) d
            = last_file os d).
  { induction os as [|o os IH]; intros d; [reflexivity|].
    destruct o; simpl; auto. }
  rewrite Hfile. unfold openLogFile. simpl.
  destruct (RunMode FTWConfig); simpl; [|auto].
  destruct (String.eqb (last_file os (LogFile FTWConfig)) ""); simpl; [auto|].
  rewrite !perform_eq.
  destruct (fst (os_Open _ _)); simpl; auto.
Qed.

(** X3: a reader that was constructed is never opened a second time:
    [openLogFile] on it makes no call and changes nothing. *)
Theorem openLogFile_once opts (st st1 : St W) ll :
  NewFTWLogLines FTWConfig opts st = (inl ll, st1) ->
  openLogFile FTWConfig ll st1 = (None, ll, st1).
Proof.
  rewrite NewFTWLogLines_configured.
  destruct (openLogFile FTWConfig (configured_FTWLogLines FTWConfig opts) st)
    as [[err ll0] st0].
  destruct err as [err|]; [discriminate|].
  unfold openLogFile.
  destruct (RunMode_eqb (RunMode FTWConfig) DefaultRunMode); simpl.
  - destruct (is_nil (logFile ll0)) eqn:Hnil; [discriminate|].
    intros [= <- <-]. rewrite Hnil. now rewrite andb_false_r.
  - now intros [= <- <-].
Qed.

(** X4: construction followed by [Cleanup], for a reader whose options leave
    the file to the constructor.  In standard mode [Cleanup] closes the file
    that the constructor opened, with one call to [Close] whose error it
    returns; in cloud mode it makes no call and returns nil. *)
Theorem NewFTWLogLines_Cleanup opts (st st1 : St W) ll :
  logFile (configured_FTWLogLines FTWConfig opts) = None ->
  NewFTWLogLines FTWConfig opts st = (inl ll, st1) ->
  match RunMode FTWConfig with
  | DefaultRunMode =>
    exists f w,
      os_Open (FileName ll) (world st) = (inl f, w)
      /\ st1 = after st (EvOpen (FileName ll)) w
      /\ Cleanup ll st1
         = (fst (File_Close f w), after st1 (EvClose f) (snd (File_Close f w)))
  | CloudRunMode => st1 = st /\ Cleanup ll st1 = (None, st1)
  end.
Proof.
  intros Hnone. rewrite NewFTWLogLines_configured. unfold openLogFile.
  destruct (RunMode FTWConfig); simpl.
  - rewrite Hnone. simpl.
    destruct (String.eqb (FileName (configured_FTWLogLines FTWConfig opts)) "");
      simpl; [now rewrite Hnone|].
    rewrite perform_eq.
    destruct (os_Open _ (world st)) as [[f|err] w] eqn:Hopen; simpl;
      [|discriminate].
    intros [= <- <-]. exists f, w. simpl. rewrite Hopen.
    split; [reflexivity|]. split; [reflexivity|].
    unfold Cleanup. simpl. now rewrite perform_eq.
  - intros [= <- <-]. split; [reflexivity|]. unfold Cleanup. now rewrite Hnone.
Qed.

(** *** Input overrides *)

Lemma applyInputOverride_closed (testRequest : test_Input) :
  let overrides := TestOverride_Input FTWConfig in
  snd (applyInputOverride FTWConfig testRequest)
  = {| Input_DestAddr :=
         overridden_by (Override_DestAddr overrides) (Input_DestAddr testRequest);
       Input_Port := overridden_by (Override_Port overrides) (Input_Port testRequest);
       Input_Protocol :=
         overridden_by (Override_Protocol overrides) (Input_Protocol testRequest);
       Input_URI := Input_URI testRequest;
       Input_Version := Input_Version testRequest;
       Input_Headers :=
         match Override_DestAddr overrides with
         | Some addr => Some (host_default addr (headers_of testRequest))
         | None => Input_Headers testRequest
         end;
       Input_Method := Input_Method testRequest;
       Input_Data := Input_Data testRequest;
       Input_EncodedRequest := Input_EncodedRequest testRequest;
       Input_RAWRequest := Input_RAWRequest testRequest;
       Input_StopMagic := Input_StopMagic testRequest |}.
Proof.
  intros overrides. subst overrides. unfold applyInputOverride.
  destruct (Override_Port _) as [port|], (Override_DestAddr _) as [addr|],
    (Override_Protocol _) as [protocol|], testRequest as [? ? ? ? ? [h|] ? ? ? ? ?];
    reflexivity.
Qed.

Lemma host_default_idempotent addr (h : ftwhttp_Header) :
  host_default addr (host_default addr h) = host_default addr h.
Proof.
  unfold host_default.
  destruct (String.eqb (Header_Get h "Host") "") eqn:Hhost.
  - rewrite Header_Get_Set_eq.
    destruct (String.eqb addr "") eqn:Haddr; [|reflexivity].
    unfold Header_Set. now rewrite insert_insert_eq.
  - now rewrite Hhost.
Qed.

Lemma host_default_host addr (h : ftwhttp_Header) :
  addr <> "" ->
  Header_Get (host_default addr h) "Host" <> ""
  /\ (Header_Get h "Host" = "" -> Header_Get (host_default addr h) "Host" = addr).
Proof.
  intros Haddr. unfold host_default.
  destruct (String.eqb_spec (Header_Get h "Host") "") as [Hhost|Hhost].
  - rewrite Header_Get_Set_eq. auto.
  - split; [exact Hhost|]. intros H. contradiction.
Qed.

Lemma headers_of_Some (i : test_Input) h :
  Input_Headers i = Some h -> headers_of i = h.
Proof. intros H. unfold headers_of. now rewrite H. Qed.

(** X5: applying the global overrides twice is the same as applying them
    once. *)
Theorem applyInputOverride_idempotent (testRequest : test_Input) :
  snd (applyInputOverride FTWConfig (snd (applyInputOverride FTWConfig testRequest)))
  = snd (applyInputOverride FTWConfig testRequest).
Proof.
  rewrite (applyInputOverride_closed (snd (applyInputOverride FTWConfig testRequest))).
  rewrite (applyInputOverride_closed testRequest).
  cbv zeta.
  cbn [Input_DestAddr Input_Port Input_Protocol Input_URI Input_Version
       Input_Headers Input_Method Input_Data Input_EncodedRequest
       Input_RAWRequest Input_StopMagic].
  unfold overridden_by.
  destruct (Override_Port _) as [port|], (Override_DestAddr _) as [addr|],
    (Override_Protocol _) as [protocol|]; try reflexivity.
  all: erewrite (headers_of_Some _ _) by reflexivity;
    now rewrite host_default_idempotent.
Qed.

(** X6: with a non-empty address override every input leaves
    [applyInputOverride] with a header map that carries a non-empty [Host]:
    the one it had, or the address. *)
Theorem applyInputOverride_host (testRequest : test_Input) addr :
  Override_DestAddr (TestOverride_Input FTWConfig) = Some addr ->
  addr <> "" ->
  exists h,
    Input_Headers (snd (applyInputOverride FTWConfig testRequest)) = Some h
    /\ Header_Get h "Host" <> ""
    /\ (Header_Get (headers_of testRequest) "Host" = "" ->
        Header_Get h "Host" = addr).
Proof.
  intros Hover Haddr. rewrite applyInputOverride_closed. cbv zeta.
  cbn [Input_Headers]. rewrite Hover.
  exists (host_default addr (headers_of testRequest)).
  split; [reflexivity|]. now apply host_default_host.
Qed.

(** *** The probe budget of the marker synchronizer *)

Lemma count_events_app p evs evs' :
  count_events p (evs ++ evs') = (count_events p evs + count_events p evs')%nat.
Proof. unfold count_events. now rewrite List.filter_app, length_app. Qed.

Lemma probe_events_eq runContext dest stageID (st st' : St W) o :
  probe FTWConfig runContext dest stageID st = (o, st') ->
  trace st' = trace st ++ probe_events FTWConfig dest stageID o.
Proof.
  unfold probe. rewrite !perform_eq. unfold after. simpl.
  destruct (fst (Client_NewOrReusedConnection dest (world st))).
  { now intros [= <- <-]. }
  destruct (snd (fst (Client_Do _ _))).
  { intros [= <- <-]. simpl. now rewrite <- app_assoc. }
  destruct (fst (CheckLogForMarker _ _ _)); intros [= <- <-]; simpl;
    now rewrite <- !app_assoc.
Qed.

Lemma probe_events_counts dest stageID o :
  count_events is_reconnect (probe_events FTWConfig dest stageID o) = 1%nat
  /\ (count_events is_send (probe_events FTWConfig dest stageID o) <= 1)%nat
  /\ (count_events is_log_query (probe_events FTWConfig dest stageID o)
      <= count_events is_send (probe_events FTWConfig dest stageID o))%nat
  /\ length (probe_events FTWConfig dest stageID o)
     = (1 + count_events is_send (probe_events FTWConfig dest stageID o)
        + count_events is_log_query (probe_events FTWConfig dest stageID o))%nat.
Proof.
  unfold probe_events. generalize (marker_request FTWConfig stageID). intros req.
  destruct o; unfold count_events; simpl; repeat split; lia.
Qed.

Lemma markAndFlush_loop_budget iterations runContext dest stageID ds (st : St W) :
  exists fl st' evs,
    markAndFlush_loop iterations runContext dest
      (marker_request FTWConfig stageID) stageID ds st = (fl, ds, st')
    /\ trace st' = trace st ++ evs
    /\ (count_events is_reconnect evs <= length iterations)%nat
    /\ (count_events is_send evs <= count_events is_reconnect evs)%nat
    /\ (count_events is_log_query evs <= count_events is_send evs)%nat
    /\ length evs
       = (count_events is_reconnect evs + count_events is_send evs
          + count_events is_log_query evs)%nat.
Proof.
  revert st. induction iterations as [|x iterations IH]; intros st.
  - exists (Next tt), st, []. simpl. rewrite app_nil_r. repeat split; auto.
  - rewrite markAndFlush_loop_step.
    destruct (probe FTWConfig runContext dest stageID st) as [o st1] eqn:Hprobe.
    apply probe_events_eq in Hprobe.
    cbn [length].
    destruct o as [err|err|line|].
    1-3: match type of Hprobe with
         | _ = _ ++ probe_events _ _ _ ?o =>
           destruct (probe_events_counts dest stageID o) as (P1 & P2 & P3 & P4)
         end;
      eexists _, st1, _; split; [reflexivity|]; split; [exact Hprobe|];
      repeat split; lia.
    destruct (probe_events_counts dest stageID NoMarker) as (P1 & P2 & P3 & P4).
    destruct (IH st1) as (fl & st2 & evs2 & Heq & Htr2 & H1 & H2 & H3 & H4).
    exists fl, st2, (probe_events FTWConfig dest stageID NoMarker ++ evs2).
    split; [exact Heq|]. split; [now rewrite Htr2, Hprobe, <- app_assoc|].
    rewrite !count_events_app, length_app. repeat split; lia.
Qed.

(** X7: the retry budget.  A call of the marker synchronizer makes at least
    one and at most 20 connection attempts, never sends more probes than it
    obtained connections, never queries the log more often than it sent a
    probe, and makes no other call. *)
Theorem markAndFlush_budget runContext dest stageID (st : St W) :
  exists evs,
    trace (snd (markAndFlush FTWConfig runContext dest stageID st))
    = trace st ++ evs
    /\ (1 <= count_events is_reconnect evs <= 20)%nat
    /\ (count_events is_log_query evs <= count_events is_send evs
        <= count_events is_reconnect evs)%nat
    /\ length evs
       = (count_events is_reconnect evs + count_events is_send evs
          + count_events is_log_query evs)%nat.
Proof.
  destruct (markAndFlush_spec FTWConfig runContext dest stageID st)
    as (r & st1 & evs1 & Heq1 & Htr1 & _).
  unfold markAndFlush, call, bind in *.
  destruct (markAndFlush_loop_budget (repeat 0 20) runContext dest stageID [] st)
    as (fl & st' & evs & Heq & Htr & H1 & H2 & H3 & H4).
  rewrite Heq in *. rewrite repeat_length in H1.
  assert (Hst : st1 = st') by (destruct fl as [?|[]]; now inversion Heq1).
  subst st1. rewrite Htr in Htr1. apply app_inv_head in Htr1. subst evs.
  exists (EvNewOrReusedConnection dest :: evs1).
  split; [destruct fl as [?|[]]; exact Htr|].
  change (count_events is_reconnect (EvNewOrReusedConnection dest :: evs1))
    with (S (count_events is_reconnect evs1)) in *.
  repeat split; lia.
Qed.

(** X8: the marker synchronizer never returns both a line and an error, and
    never neither. *)
Theorem markAndFlush_exclusive runContext dest stageID (st : St W) :
  (exists line,
     fst (markAndFlush FTWConfig runContext dest stageID st) = (Some line, None))
  \/ (exists err,
        fst (markAndFlush FTWConfig runContext dest stageID st) = (None, Some err)).
Proof.
  destruct (markAndFlush_spec FTWConfig runContext dest stageID st)
    as (r & st1 & evs1 & -> & _ & _ & [(line & ->)|(e & ->)]); simpl; eauto.
Qed.

(** X9: a probe that cannot connect, or whose request fails, ends the
    synchronization at once: the error is returned wrapped, and no further
    probe is made. *)
Theorem markAndFlush_failure runContext dest stageID n (st st1 st2 : St W) err :
  misses FTWConfig runContext dest stageID n st st1 ->
  (n < 20)%nat ->
  (probe FTWConfig runContext dest stageID st1 = (ConnectFailed err, st2) ->
   markAndFlush FTWConfig runContext dest stageID st
   = ((None, Some (fmt_Errorf_w
         ("ftw/run: can't connect to destination " +:+ fmt_Destination dest +:+ ": ")
         err)), st2))
  /\ (probe FTWConfig runContext dest stageID st1 = (SendFailed err, st2) ->
      markAndFlush FTWConfig runContext dest stageID st
      = ((None, Some (fmt_Errorf_w
            ("ftw/run: failed sending request to " +:+ fmt_Destination dest +:+ ": ")
            err)), st2)).
Proof.
  intros Hmiss Hn.
  assert (Hrep : repeat 0 20 = repeat 0 n ++ 0 :: repeat 0 (20 - S n)).
  { change (0 :: repeat 0 (20 - S n)) with (repeat 0 (S (20 - S n))).
    rewrite <- repeat_app. f_equal. lia. }
  split; intros Hprobe; unfold markAndFlush, call, bind; rewrite Hrep;
    rewrite (markAndFlush_loop_misses _ _ _ _ _ _ _ _ _ Hmiss);
    rewrite markAndFlush_loop_step, Hprobe; reflexivity.
Qed.

(** *** Stages *)

Lemma count_events_none p evs :
  Forall (fun e => p e = false) evs -> count_events p evs = 0%nat.
Proof.
  unfold count_events. induction 1 as [|e evs He _ IH]; [reflexivity|].
  simpl. now rewrite He.
Qed.

Lemma displayResult_prints quiet result rtt stageTime (st : St W) :
  exists disp,
    displayResult quiet result rtt stageTime st
    = {| world := world st; trace := trace st ++ disp |}
    /\ Forall (fun e => is_print e = true) disp
    /\ Forall (fun e => stage_print_ok quiet e = true) disp.
Proof.
  unfold displayResult, printUnlessQuietMode, emit.
  destruct result, quiet; simpl;
    (eexists [_]; split; [reflexivity|split; repeat constructor])
    || (exists []; rewrite app_nil_r; destruct st;
        split; [reflexivity|split; constructor]).
Qed.

(** The request block: it logs at most the error of the raw request, opens
    the connection, and sends the request unless the connection failed and
    no error is expected. *)
Lemma sendRequest_events runContext (c : C) testRequest dest out ds (st : St W) :
  exists fl st' logged sent,
    sendRequest runContext c testRequest dest out ds st = (fl, ds, st')
    /\ trace st' = trace st ++ logged ++ EvNewConnection dest :: sent
    /\ Forall (fun e => is_log_error e = true) logged
    /\ (sent = [] \/ exists req, sent = [EvDo req]).
Proof.
  unfold sendRequest, bind, lift, exec, Return, ret, update.
  assert (Hreq : exists req logged,
            getRequestFromTest testRequest st
            = (req, {| world := world st; trace := trace st ++ logged |})
            /\ Forall (fun e => is_log_error e = true) logged).
  { unfold getRequestFromTest, call, bind, exec, Return, ret, emit, run_deferred.
    destruct (GetRawRequest testRequest) as [[raw|] [err|]]; simpl.
    1, 3: eexists _, [_]; split; [reflexivity|repeat constructor].
    all: eexists _, []; rewrite app_nil_r; destruct st; split;
      [reflexivity|constructor]. }
  destruct Hreq as (req & logged & -> & Hlog).
  rewrite !perform_eq. unfold after. simpl.
  destruct (fst (Client_NewConnection dest (world st))) as [err|];
    [destruct (ExpectError out) eqn:Hexp; simpl|simpl].
  2:{ eexists _, _, logged, []. rewrite <- app_assoc. simpl. auto. }
  all: rewrite perform_eq; unfold after; simpl;
    match goal with
    | |- context [Client_Do ?r ?w] =>
      destruct (Client_Do r w) as [[response [err'|]] w']; simpl
    end;
    try (destruct (ExpectError out) eqn:Hexp'; simpl);
    eexists _, _, logged, [EvDo _]; rewrite <- !app_assoc; simpl;
    (split; [reflexivity|]); eauto.
Qed.

Lemma evaluateAndRecord_events runContext (c : C) testCase out response responseErr
    stageStartTime ds (st : St W) :
  exists r st' consulted disp,
    evaluateAndRecord runContext c testCase out response responseErr
      stageStartTime ds st = (Returned r, ds, st')
    /\ trace st' = trace st ++ map EvAssert consulted ++ disp
    /\ Forall (fun e => is_print e = true) disp
    /\ Forall (fun e => stage_print_ok (Output runContext) e = true) disp.
Proof.
  unfold evaluateAndRecord, bind, lift, exec, Return, ret, silently.
  destruct (checkResult_spec (SetExpectTestOutput c out) response responseErr st)
    as (result & c' & consulted & -> & Hres).
  simpl. destruct (time_Now (world st)) as [now w'].
  destruct (displayResult_prints (Output runContext) result
              (Client_RoundTripDuration (world st)) (wrap_int (now - stageStartTime))
              {| world := w'; trace := trace st ++ map EvAssert consulted |})
    as (disp & Hd & Hp & Hq).
  simpl in Hd.
  change (Output (set_Result (set_Stats runContext _) result))
    with (Output runContext).
  rewrite Hd. eexists _, _, consulted, disp. simpl. rewrite app_assoc.
  repeat split; auto.
Qed.

Lemma marker_block_events (block : Body (StageReturn (C := C)) C) c dest stageID
    runContext ds (st : St W) :
  (CloudMode c = true -> block ds st = (Next c, ds, st)) ->
  (forall marker err st',
     CloudMode c = false ->
     markAndFlush FTWConfig runContext dest stageID st = ((marker, err), st') ->
     exists fl, block ds st = (fl, ds, st')) ->
  exists fl st' evs,
    block ds st = (fl, ds, st')
    /\ trace st' = trace st ++ evs
    /\ Forall (fun e => is_probe_event e = true) evs
    /\ (CloudMode c = true -> fl = Next c /\ evs = []).
Proof.
  intros Hcloud Hmark.
  destruct (CloudMode c) eqn:Hc.
  - exists (Next c), st, []. rewrite app_nil_r. repeat split; auto.
  - destruct (markAndFlush_spec FTWConfig runContext dest stageID st)
      as ([marker err] & st' & evs & Heq & Htr & Hev & _).
    destruct (Hmark marker err st' eq_refl Heq) as [fl Hfl].
    exists fl, st', (EvNewOrReusedConnection dest :: evs).
    repeat split; auto; try discriminate; now constructor.
Qed.

Lemma acquireStartMarker_events runContext (c : C) dest stageID out ds (st : St W) :
  exists fl st' evs,
    acquireStartMarker FTWConfig runContext c dest stageID out ds st = (fl, ds, st')
    /\ trace st' = trace st ++ evs
    /\ Forall (fun e => is_probe_event e = true) evs
    /\ (CloudMode c = true -> fl = Next c /\ evs = []).
Proof.
  apply (marker_block_events _ c dest stageID runContext).
  - intros Hc. now apply acquireStartMarker_cloud.
  - intros marker err st' Hc Hmark.
    rewrite (acquireStartMarker_eq FTWConfig _ _ _ _ out ds _ _ _ _ Hc Hmark).
    destruct err; [destruct (ExpectError out)|]; eauto.
Qed.

Lemma acquireEndMarker_events runContext (c : C) dest stageID out ds (st : St W) :
  exists fl st' evs,
    acquireEndMarker FTWConfig runContext c dest stageID out ds st = (fl, ds, st')
    /\ trace st' = trace st ++ evs
    /\ Forall (fun e => is_probe_event e = true) evs
    /\ (CloudMode c = true -> fl = Next c /\ evs = []).
Proof.
  apply (marker_block_events _ c dest stageID runContext).
  - intros Hc. now apply acquireEndMarker_cloud.
  - intros marker err st' Hc Hmark.
    rewrite (acquireEndMarker_eq FTWConfig _ _ _ _ out ds _ _ _ _ Hc Hmark).
    destruct err; [destruct (ExpectError out)|]; eauto.
Qed.

Lemma block_facts_nil quiet cloud : block_facts quiet cloud 0 [].
Proof. repeat split; constructor. Qed.

Lemma block_facts_app quiet cloud k1 k2 evs1 evs2 :
  block_facts quiet cloud k1 evs1 -> block_facts quiet cloud k2 evs2 ->
  block_facts quiet cloud (k1 + k2) (evs1 ++ evs2).
Proof.
  intros (A1 & B1 & C1) (A2 & B2 & C2). split; [|split].
  - apply Forall_app. now split.
  - rewrite count_events_app. lia.
  - intros Hc. destruct (C1 Hc) as [D1 E1]. destruct (C2 Hc) as [D2 E2]. split.
    + apply Forall_app. now split.
    + rewrite count_events_app. lia.
Qed.

Lemma block_facts_probe quiet cloud evs :
  Forall (fun e => is_probe_event e = true) evs ->
  (cloud = true -> evs = []) ->
  block_facts quiet cloud 0 evs.
Proof.
  intros Hev Hcloud. split; [|split].
  - eapply Forall_impl; [exact Hev|]. intros e. now destruct e.
  - apply count_events_none. eapply Forall_impl; [exact Hev|].
    intros e. now destruct e.
  - intros Hc. rewrite (Hcloud Hc). split; [constructor|]. reflexivity.
Qed.

Lemma block_facts_request quiet cloud dest logged sent :
  Forall (fun e => is_log_error e = true) logged ->
  (sent = [] \/ exists req, sent = [EvDo req]) ->
  block_facts quiet cloud 1 (logged ++ EvNewConnection dest :: sent).
Proof.
  intros Hlog Hsent.
  assert (H1 : Forall (fun e => stage_print_ok quiet e = true) logged)
    by (eapply Forall_impl; [exact Hlog|]; intros e; now destruct e).
  assert (H2 : Forall (fun e => is_marker_event e = false) logged)
    by (eapply Forall_impl; [exact Hlog|]; intros e; now destruct e).
  assert (H3 : count_events is_connect logged = 0%nat)
    by (apply count_events_none; eapply Forall_impl; [exact Hlog|];
        intros e; now destruct e).
  assert (H4 : count_events is_send logged = 0%nat)
    by (apply count_events_none; eapply Forall_impl; [exact Hlog|];
        intros e; now destruct e).
  split; [|split].
  - apply Forall_app. split; [exact H1|].
    destruct Hsent as [->|[req ->]]; repeat constructor.
  - rewrite count_events_app, H3.
    destruct Hsent as [->|[req ->]]; reflexivity.
  - intros _. split.
    + apply Forall_app. split; [exact H2|].
      destruct Hsent as [->|[req ->]]; repeat constructor.
    + rewrite count_events_app, H4.
      destruct Hsent as [->|[req ->]]; unfold count_events; simpl; lia.
Qed.

Lemma block_facts_verdict quiet cloud consulted disp :
  Forall (fun e => is_print e = true) disp ->
  Forall (fun e => stage_print_ok quiet e = true) disp ->
  block_facts quiet cloud 0 (map EvAssert consulted ++ disp).
Proof.
  intros Hp Hq.
  assert (Ha : forall p, (forall a, p (EvAssert a) = false) ->
               (forall e, is_print e = true -> p e = false) ->
               Forall (fun e => p e = false) (map EvAssert consulted ++ disp)).
  { intros p Hpa Hpp. apply Forall_app. split.
    - apply Forall_forall. intros e He. apply list_elem_of_In in He.
      apply in_map_iff in He. destruct He as (a & <- & _). apply Hpa.
    - eapply Forall_impl; [exact Hp|]. exact Hpp. }
  split; [|split].
  - apply Forall_app. split; [|exact Hq].
    apply Forall_forall. intros e He. apply list_elem_of_In in He.
    apply in_map_iff in He. now destruct He as (a & <- & _).
  - apply count_events_none. apply Ha; [reflexivity|]. intros e. now destruct e.
  - intros _. split.
    + apply Ha; [reflexivity|]. intros e. now destruct e.
    + rewrite count_events_none; [lia|].
      apply Ha; [reflexivity|]. intros e. now destruct e.
Qed.

(** The four blocks, seen from outside. *)
Lemma stage_blocks_facts runContext (c : C) testCase stage stageStartTime stageID ds
    (st : St W) :
  exists r st' evs k,
    stage_blocks FTWConfig runContext c testCase stage stageStartTime stageID ds st
    = (Returned r, ds, st')
    /\ trace st' = trace st ++ evs
    /\ block_facts (Output runContext) (CloudMode c) k evs
    /\ (k <= 1)%nat.
Proof.
  unfold stage_blocks, bind.
  destruct (acquireStartMarker_events runContext c (stage_dest FTWConfig stage)
              stageID (Stage_Output stage) ds st)
    as (fl1 & st1 & evs1 & -> & Htr1 & Hev1 & Hc1).
  assert (F1 : block_facts (Output runContext) (CloudMode c) 0 evs1)
    by (apply block_facts_probe; [exact Hev1|intros Hc; now apply Hc1]).
  destruct fl1 as [r1|c1].
  { exists r1, st1, evs1, 0%nat. split; [reflexivity|]. split; [exact Htr1|].
    split; [exact F1|lia]. }
  destruct (sendRequest_events runContext c1 (stage_input FTWConfig stage)
              (stage_dest FTWConfig stage) (Stage_Output stage) ds st1)
    as (fl2 & st2 & logged & sent & -> & Htr2 & Hlog & Hsent).
  pose proof (block_facts_app _ _ _ _ _ _ F1
                (block_facts_request (Output runContext) (CloudMode c)
                   (stage_dest FTWConfig stage) logged sent Hlog Hsent)) as F2.
  rewrite Htr1, <- app_assoc in Htr2.
  destruct fl2 as [r2|[response responseErr]].
  { eexists r2, st2, _, _. split; [reflexivity|]. split; [exact Htr2|].
    split; [exact F2|]. lia. }
  destruct (acquireEndMarker_events runContext c1 (stage_dest FTWConfig stage)
              stageID (Stage_Output stage) ds st2)
    as (fl3 & st3 & evs3 & -> & Htr3 & Hev3 & Hc3).
  assert (Hc13 : CloudMode c = true -> evs3 = []).
  { intros Hc. destruct (Hc1 Hc) as [Hfl _]. inversion Hfl; subst c1.
    now apply Hc3. }
  pose proof (block_facts_app _ _ _ _ _ _ F2
                (block_facts_probe (Output runContext) (CloudMode c) evs3 Hev3 Hc13))
    as F3.
  rewrite Htr2, <- app_assoc in Htr3.
  destruct fl3 as [r3|c3].
  { eexists r3, st3, _, _. split; [reflexivity|]. split; [exact Htr3|].
    split; [exact F3|]. lia. }
  destruct (evaluateAndRecord_events runContext c3 testCase (Stage_Output stage)
              response responseErr stageStartTime ds st3)
    as (r4 & st4 & consulted & disp & -> & Htr4 & Hp & Hq).
  pose proof (block_facts_app _ _ _ _ _ _ F3
                (block_facts_verdict (Output runContext) (CloudMode c)
                   consulted disp Hp Hq)) as F4.
  rewrite Htr3, <- app_assoc in Htr4.
  eexists r4, st4, _, _. split; [reflexivity|]. split; [exact Htr4|].
  split; [exact F4|]. lia.
Qed.

(** A stage, seen from outside. *)
Lemma RunStage_facts runContext (c : C) testCase stage (st : St W) :
  exists evs k,
    trace (snd (RunStage FTWConfig runContext c testCase stage st)) = trace st ++ evs
    /\ block_facts (Output runContext) (CloudMode c) k evs
    /\ (k <= 1)%nat.
Proof.
  rewrite RunStage_unfold.
  pose proof (stage_prologue_trace st) as Hpro.
  destruct (stage_prologue st) as [[stageStartTime stageID] st0]. simpl in Hpro.
  destruct (checkTestSanity (stage_input FTWConfig stage)).
  { exists [], 0%nat. simpl. rewrite app_nil_r.
    split; [exact Hpro|]. split; [apply block_facts_nil|lia]. }
  cbv zeta.
  destruct (negb (TestResult_eqb (overriddenTestResult c (TestTitle testCase)) Failed)).
  - destruct (displayResult_prints (Output runContext)
                (overriddenTestResult c (TestTitle testCase)) 0 0 st0)
      as (disp & -> & Hp & Hq).
    exists disp, 0%nat. simpl. rewrite Hpro. split; [reflexivity|].
    split; [|lia].
    exact (block_facts_verdict (Output runContext) (CloudMode c) [] disp Hp Hq).
  - destruct (stage_blocks_facts runContext c testCase stage stageStartTime stageID
                [] st0) as (r & st' & evs & k & -> & Htr & F & Hk).
    exists evs, k. simpl. rewrite Htr, Hpro. auto.
Qed.

(** X10: in cloud mode a stage never calls the marker synchronizer or the
    log reader's marker lookup, and it opens at most one connection and
    sends at most one request. *)
Theorem RunStage_cloud runContext (c : C) testCase stage (st : St W) :
  CloudMode c = true ->
  exists evs,
    trace (snd (RunStage FTWConfig runContext c testCase stage st)) = trace st ++ evs
    /\ Forall (fun e => is_marker_event e = false) evs
    /\ (count_events is_connect evs <= 1)%nat
    /\ (count_events is_send evs <= 1)%nat.
Proof.
  intros Hcloud.
  destruct (RunStage_facts runContext c testCase stage st)
    as (evs & k & Htr & (_ & Hconn & Hc) & Hk).
  destruct (Hc Hcloud) as [Hmark Hsend].
  exists evs. repeat split; auto; lia.
Qed.

Lemma quiet_no_print evs :
  Forall (fun e => stage_print_ok true e = true) evs ->
  count_events is_print evs = 0%nat.
Proof.
  intros H. apply count_events_none. eapply Forall_impl; [exact H|].
  intros e. now destruct e.
Qed.

(** X11: in every mode a stage opens at most one connection for the real
    request; on the console it puts only result lines of [displayResult],
    and nothing at all in quiet mode. *)
Theorem RunStage_console runContext (c : C) testCase stage (st : St W) :
  exists evs,
    trace (snd (RunStage FTWConfig runContext c testCase stage st)) = trace st ++ evs
    /\ (count_events is_connect evs <= 1)%nat
    /\ Forall (fun e => stage_print_ok (Output runContext) e = true) evs
    /\ (Output runContext = true -> count_events is_print evs = 0%nat).
Proof.
  destruct (RunStage_facts runContext c testCase stage st)
    as (evs & k & Htr & (Hprint & Hconn & _) & Hk).
  exists evs. split; [exact Htr|]. split; [lia|]. split; [exact Hprint|].
  intros Hquiet. rewrite Hquiet in Hprint. now apply quiet_no_print.
Qed.

(** X12: a stage that returns an error leaves the run context as it was:
    nothing is recorded in the statistics and [Result] is not assigned. *)
Theorem RunStage_abort_keeps_context runContext (c : C) testCase stage (st : St W) err :
  fst (fst (fst (RunStage FTWConfig runContext c testCase stage st))) = Some err ->
  snd (fst (fst (RunStage FTWConfig runContext c testCase stage st))) = runContext.
Proof.
  destruct (RunStage_stats FTWConfig runContext c testCase stage st)
    as (e & ctx' & c' & st' & evs & -> & _ & _ & _ & H).
  simpl. intros ->. exact H.
Qed.

(** X13: once its input has passed the well-formedness check, a stage that
    expects an error never returns one, whatever fails: marker
    synchronization, connection or request. *)
Theorem RunStage_error_expected runContext (c : C) testCase stage (st : St W) :
  checkTestSanity (stage_input FTWConfig stage) = false ->
  ExpectError (Stage_Output stage) = true ->
  fst (fst (fst (RunStage FTWConfig runContext c testCase stage st))) = None.
Proof.
  intros Hsane Hexp.
  exact (proj1 (RunStage_expect_error FTWConfig runContext c testCase stage st
                  Hsane Hexp)).
Qed.

(** When the connection for the real request cannot be opened, the block
    that sends it returns the wrapped error before any request is sent if no
    error is expected; if one is expected it sends the request all the same
    and hands its outcome on. *)
Lemma sendRequest_connection_failure runContext (c : C) testRequest dest out ds
    (st st1 : St W) req err w :
  getRequestFromTest testRequest st = (req, st1) ->
  Client_NewConnection dest (world st1) = (Some err, w) ->
  sendRequest runContext c testRequest dest out ds st
  = if ExpectError out
    then
      let sent := Client_Do req (Client_StartTrackingTime w) in
      (Next (fst sent), ds,
       {| world := Client_StopTrackingTime (snd sent);
          trace := trace st1 ++ [EvNewConnection dest; EvDo req] |})
    else
      (Returned (Some (fmt_Errorf_w
                   ("can't connect to destination " +:+ fmt_Destination dest +:+ ": ")
                   err), runContext, c),
       ds, after st1 (EvNewConnection dest) w).
Proof.
  intros Hreq Hconn.
  unfold sendRequest, bind, lift, exec, Return, ret, update.
  rewrite Hreq, perform_eq, Hconn. simpl.
  destruct (ExpectError out); [|reflexivity]. simpl.
  rewrite perform_eq. unfold after. simpl.
  destruct (Client_Do req (Client_StartTrackingTime w)) as [[response [e|]] w'];
    simpl; now rewrite <- app_assoc.
Qed.

(** X14: a refused connection.  In cloud mode, a stage with a well-formed
    input, no forced result and no expected error whose connection cannot be
    opened returns the "can't connect to destination" error wrapping the
    cause; it sends no request, evaluates nothing and records nothing: the
    call to [NewConnection] is the last thing it does. *)
Theorem RunStage_connection_refused runContext (c : C) testCase stage
    (st st0 st1 : St W) stageStartTime stageID req err w :
  CloudMode c = true ->
  checkTestSanity (stage_input FTWConfig stage) = false ->
  overriddenTestResult c (TestTitle testCase) = Failed ->
  ExpectError (Stage_Output stage) = false ->
  stage_prologue st = (stageStartTime, stageID, st0) ->
  getRequestFromTest (stage_input FTWConfig stage) st0 = (req, st1) ->
  Client_NewConnection (stage_dest FTWConfig stage) (world st1) = (Some err, w) ->
  RunStage FTWConfig runContext c testCase stage st
  = ((Some (fmt_Errorf_w
              ("can't connect to destination "
               +:+ fmt_Destination (stage_dest FTWConfig stage) +:+ ": ") err),
      runContext, c),
     after st1 (EvNewConnection (stage_dest FTWConfig stage)) w).
Proof.
  intros Hcloud Hsane Hover Hexp Hpro Hreq Hconn.
  rewrite RunStage_unfold, Hpro, Hsane, Hover. cbn [TestResult_eqb negb].
  unfold stage_blocks, bind.
  rewrite (acquireStartMarker_cloud FTWConfig) by exact Hcloud.
  rewrite (sendRequest_connection_failure _ _ _ _ _ _ _ _ _ _ _ Hreq Hconn), Hexp.
  reflexivity.
Qed.




(** *** Test files *)

Lemma counts_grow_refl s : counts_grow s s.
Proof. intros k. lia. Qed.

Lemma counts_grow_trans s1 s2 s3 :
  counts_grow s1 s2 -> counts_grow s2 s3 -> counts_grow s1 s3.
Proof. intros H1 H2 k. specialize (H1 k). specialize (H2 k). lia. Qed.

Lemma counts_grow_add result title s :
  counts_grow s (addResultToStats result title s).
Proof. intros k. simpl. destruct (TestResult_eqb k result); lia. Qed.

Lemma stage_print_test quiet e :
  stage_print_ok quiet e = true ->
  test_print_ok quiet e = true /\ is_header e = false.
Proof.
  destruct e; simpl; auto.
  intros H. apply andb_true_iff in H. destruct H as [Hq Hf].
  rewrite Hq, Hf. split; [reflexivity|].
  unfold display_formats in Hf. simpl in Hf.
  repeat (apply orb_true_iff in Hf; destruct Hf as [Hf|Hf];
          [apply String.eqb_eq in Hf; subst format; reflexivity|]).
  discriminate.
Qed.

Lemma RunStage_more runContext (c : C) testCase stage (st : St W) :
  exists err runContext' c' st' evs,
    RunStage FTWConfig runContext c testCase stage st = ((err, runContext', c'), st')
    /\ trace st' = trace st ++ evs
    /\ Forall (fun e => stage_print_ok (Output runContext) e = true) evs
    /\ same_filters runContext runContext'
    /\ counts_grow (Stats runContext) (Stats runContext').
Proof.
  destruct (RunStage_facts runContext c testCase stage st)
    as (evs & k & Htr & (Hprint & _) & _).
  destruct (RunStage_spec FTWConfig runContext c testCase stage st)
    as (r & st' & evs0 & Heq & _ & _ & H).
  rewrite Heq in Htr. simpl in Htr.
  assert (Hctx : same_filters runContext (snd (fst r))
                 /\ counts_grow (Stats runContext) (Stats (snd (fst r)))).
  { destruct H as [(_ & -> & _)|[(_ & _ & -> & _)|(_ & _ & _ & H)]]; simpl.
    - split; [apply same_filters_refl|apply counts_grow_refl].
    - split; [repeat split|apply counts_grow_add].
    - destruct H as [(_ & text & e & c' & ->)|(_ & res & c' & t & _ & ->)]; simpl.
      + split; [apply same_filters_refl|apply counts_grow_refl].
      + split; [repeat split|apply counts_grow_add]. }
  destruct r as [[err ctx'] c']. simpl in Hctx.
  exists err, ctx', c', st', evs. rewrite Heq. tauto.
Qed.

Lemma RunTest_stages_more stages runContext testCase ds (st : St W) :
  exists fl st' evs,
    RunTest_stages FTWConfig runContext testCase stages ds st = (fl, ds, st')
    /\ trace st' = trace st ++ evs
    /\ Forall (fun e => stage_print_ok (Output runContext) e = true) evs
    /\ same_filters runContext (context_of fl)
    /\ counts_grow (Stats runContext) (Stats (context_of fl)).
Proof.
  revert runContext st.
  induction stages as [|stage stages IH]; intros runContext st.
  - exists (Next runContext), st, []. simpl. rewrite app_nil_r.
    split; [reflexivity|]. split; [reflexivity|]. split; [constructor|].
    split; [apply same_filters_refl|apply counts_grow_refl].
  - cbn [RunTest_stages]. unfold bind at 1. unfold lift at 1.
    destruct (silently (NewCheck FTWConfig) st) as [ftwCheck st1] eqn:Hnew.
    assert (Htr1 : trace st1 = trace st).
    { unfold silently in Hnew. destruct (NewCheck FTWConfig (world st)).
      now inversion Hnew. }
    unfold bind at 1. unfold lift at 1.
    destruct (RunStage_more runContext ftwCheck testCase stage st1)
      as (err & ctx1 & c1 & st2 & evs1 & -> & Htr2 & Hev1 & Hsame1 & Hgrow1).
    destruct err as [e|].
    + unfold bind, Return. eexists _, st2, evs1. split; [reflexivity|].
      rewrite Htr2, Htr1. simpl. auto.
    + unfold bind at 1. unfold ret at 1.
      destruct (IH ctx1 st2) as (fl & st3 & evs2 & -> & Htr3 & Hev2 & Hsame2 & Hgrow2).
      exists fl, st3, (evs1 ++ evs2). split; [reflexivity|].
      split; [now rewrite Htr3, Htr2, Htr1, app_assoc|].
      pose proof Hsame1 as (Hi & He & Ho & Hl).
      rewrite Ho in Hev2.
      split; [apply Forall_app; split; assumption|].
      split; [eapply same_filters_trans; [exact Hsame1|exact Hsame2]|].
      eapply counts_grow_trans; eauto.
Qed.

Lemma RunTest_cases_more ftwTest cases changed runContext ds (st : St W) :
  exists fl st' evs,
    RunTest_cases FTWConfig ftwTest changed runContext cases ds st = (fl, ds, st')
    /\ trace st' = trace st ++ evs
    /\ Forall (fun e => test_print_ok (Output runContext) e = true) evs
    /\ (count_events is_header evs <= if changed then 1 else 0)%nat
    /\ same_filters runContext (context_of fl)
    /\ counts_grow (Stats runContext) (Stats (context_of fl)).
Proof.
  revert changed runContext st.
  induction cases as [|testCase cases IH]; intros changed runContext st.
  - exists (Next runContext), st, []. simpl. rewrite app_nil_r.
    split; [reflexivity|]. split; [reflexivity|]. split; [constructor|].
    split; [unfold count_events; simpl; lia|].
    split; [apply same_filters_refl|apply counts_grow_refl].
  - destruct (needToSkipTest (Include runContext) (Exclude runContext)
                (TestTitle testCase) (Meta_Enabled ftwTest)) eqn:Hskip.
    + rewrite RunTest_cases_skip by exact Hskip.
      set (ctx1 := set_Stats runContext _).
      assert (Hst : exists evs0,
                (if negb (Meta_Enabled ftwTest)
                 then printUnlessQuietMode (Output runContext) "\tskipping %s\n"
                        [PStr (TestTitle testCase)] st
                 else st) = {| world := world st; trace := trace st ++ evs0 |}
                /\ Forall (fun e => test_print_ok (Output runContext) e = true) evs0
                /\ count_events is_header evs0 = 0%nat).
      { destruct (negb (Meta_Enabled ftwTest)).
        - unfold printUnlessQuietMode, emit.
          destruct (Output runContext); simpl.
          + exists []. rewrite app_nil_r. destruct st. repeat split. constructor.
          + eexists [_]. repeat split. repeat constructor.
        - exists []. rewrite app_nil_r. destruct st. repeat split. constructor. }
      destruct Hst as (evs0 & -> & Hev0 & Hh0).
      destruct (IH changed ctx1 {| world := world st; trace := trace st ++ evs0 |})
        as (fl & st' & evs & -> & Htr & Hev & Hh & Hsame & Hgrow).
      simpl in Htr.
      exists fl, st', (evs0 ++ evs). split; [reflexivity|].
      split; [now rewrite Htr, <- app_assoc|].
      split; [apply Forall_app; split; assumption|].
      split; [rewrite count_events_app; lia|].
      split; [eapply same_filters_trans; [|exact Hsame]; subst ctx1; repeat split|].
      eapply counts_grow_trans; [|exact Hgrow]. subst ctx1. apply counts_grow_add.
    + cbn [RunTest_cases]. rewrite Hskip.
      unfold bind at 1.
      assert (Hch : exists changed' evs0,
                (if changed
                 then bind (R := option error * TestRunContext)
                        (exec (printUnlessQuietMode (Output runContext)
                                 ":point_right:executing tests in file %s\n"
                                 [PStr (Meta_Name ftwTest)]))
                        (fun _ => ret false)
                 else ret changed) ds st
                = (Next changed', ds,
                   {| world := world st; trace := trace st ++ evs0 |})
                /\ changed' = false
                /\ Forall (fun e => test_print_ok (Output runContext) e = true) evs0
                /\ (count_events is_header evs0 <= if changed then 1 else 0)%nat).
      { destruct changed.
        - unfold bind, exec, ret, printUnlessQuietMode, emit.
          destruct (Output runContext); simpl.
          + exists false, []. rewrite app_nil_r. destruct st.
            repeat split; [constructor|unfold count_events; simpl; lia].
          + eexists false, [_]. repeat split; [repeat constructor|].
            unfold count_events. simpl. lia.
        - exists false, []. rewrite app_nil_r. unfold ret. destruct st.
          repeat split; [constructor|unfold count_events; simpl; lia]. }
      destruct Hch as (changed' & evs0 & -> & -> & Hev0 & Hh0).
      unfold bind at 1. unfold exec at 1.
      assert (Hrun : exists evs1,
                printUnlessQuietMode (Output runContext) "\trunning %s: "
                  [PStr (TestTitle testCase)]
                  {| world := world st; trace := trace st ++ evs0 |}
                = {| world := world st; trace := (trace st ++ evs0) ++ evs1 |}
                /\ Forall (fun e => test_print_ok (Output runContext) e = true) evs1
                /\ count_events is_header evs1 = 0%nat).
      { unfold printUnlessQuietMode, emit. destruct (Output runContext); simpl.
        - exists []. rewrite app_nil_r. repeat split. constructor.
        - eexists [_]. repeat split. repeat constructor. }
      destruct Hrun as (evs1 & -> & Hev1 & Hh1).
      unfold bind at 1.
      destruct (RunTest_stages_more (Stages testCase) runContext testCase ds
                  {| world := world st; trace := (trace st ++ evs0) ++ evs1 |})
        as (fl1 & st1 & evs2 & -> & Htr1 & Hev2 & Hsame1 & Hgrow1).
      simpl in Htr1.
      assert (Hev2' : Forall (fun e => test_print_ok (Output runContext) e = true) evs2
                      /\ count_events is_header evs2 = 0%nat).
      { split.
        - eapply Forall_impl; [exact Hev2|]. intros e He.
          now apply stage_print_test.
        - apply count_events_none. eapply Forall_impl; [exact Hev2|].
          intros e He. now apply (stage_print_test (Output runContext)). }
      destruct Hev2' as [Hev2' Hh2].
      destruct fl1 as [[err ctx']|ctx1].
      { eexists _, st1, ((evs0 ++ evs1) ++ evs2). split; [reflexivity|].
        split; [now rewrite Htr1, <- !app_assoc|].
        split; [repeat (apply Forall_app; split); assumption|].
        split; [rewrite !count_events_app; lia|]. simpl. auto. }
      simpl in Hsame1, Hgrow1.
      destruct (IH false ctx1 st1) as (fl & st' & evs & -> & Htr & Hev & Hh & Hsame & Hgrow).
      exists fl, st', (((evs0 ++ evs1) ++ evs2) ++ evs). split; [reflexivity|].
      split; [now rewrite Htr, Htr1, <- !app_assoc|].
      pose proof Hsame1 as (Hi & He & Ho & Hl). rewrite Ho in Hev.
      split; [repeat (apply Forall_app; split); assumption|].
      split; [rewrite !count_events_app; lia|].
      split; [eapply same_filters_trans; [exact Hsame1|exact Hsame]|].
      eapply counts_grow_trans; eauto.
Qed.

Lemma test_quiet_no_print evs :
  Forall (fun e => test_print_ok true e = true) evs ->
  count_events is_print evs = 0%nat.
Proof.
  intros H. apply count_events_none. eapply Forall_impl; [exact H|].
  intros e. now destruct e.
Qed.

Lemma RunTest_more runContext ftwTest (st : St W) :
  exists err runContext' st' evs,
    RunTest FTWConfig runContext ftwTest st = ((err, runContext'), st')
    /\ trace st' = trace st ++ evs
    /\ Forall (fun e => test_print_ok (Output runContext) e = true) evs
    /\ (count_events is_header evs <= 1)%nat
    /\ same_filters runContext runContext'
    /\ counts_grow (Stats runContext) (Stats runContext').
Proof.
  unfold RunTest, call, bind.
  destruct (RunTest_cases_more ftwTest (Tests ftwTest) true runContext [] st)
    as (fl & st' & evs & -> & Htr & Hev & Hh & Hsame & Hgrow).
  destruct fl as [[err ctx']|ctx']; simpl in *;
    eexists _, _, st', evs; (split; [reflexivity|]); auto.
Qed.

(** X15: the console of a test file.  [RunTest] prints the "executing tests
    in file" header at most once, prints nothing in quiet mode, and
    otherwise only the header, the "running" and "skipping" lines and the
    result lines of its stages. *)
Theorem RunTest_console runContext ftwTest (st : St W) :
  exists evs,
    trace (snd (RunTest FTWConfig runContext ftwTest st)) = trace st ++ evs
    /\ (count_events is_header evs <= 1)%nat
    /\ Forall (fun e => test_print_ok (Output runContext) e = true) evs
    /\ (Output runContext = true -> count_events is_print evs = 0%nat).
Proof.
  destruct (RunTest_more runContext ftwTest st)
    as (err & ctx' & st' & evs & -> & Htr & Hev & Hh & _).
  exists evs. simpl. repeat split; auto.
  intros Hquiet. rewrite Hquiet in Hev. now apply test_quiet_no_print.
Qed.

(** X16: no per-outcome count ever decreases over [RunTest], whether it
    returns an error or not, and the filters, the quiet flag and the log
    reader of the run context are left as they were. *)
Theorem RunTest_counts_grow runContext ftwTest (st : St W) :
  let runContext' := snd (fst (RunTest FTWConfig runContext ftwTest st)) in
  counts_grow (Stats runContext) (Stats runContext')
  /\ same_filters runContext runContext'.
Proof.
  destruct (RunTest_more runContext ftwTest st)
    as (err & ctx' & st' & evs & -> & _ & _ & _ & Hsame & Hgrow).
  simpl. auto.
Qed.

Lemma skip_all_counts titles s :
  Stats_count (skip_all titles s) Skipped
  = (Stats_count s Skipped + length titles)%nat
  /\ (forall k, k <> Skipped -> Stats_count (skip_all titles s) k = Stats_count s k)
  /\ Stats_Run (skip_all titles s) = Stats_Run s
  /\ Stats_RunTime (skip_all titles s) = Stats_RunTime s.
Proof.
  revert s. induction titles as [|title titles IH]; intros s.
  - simpl. repeat split; auto; lia.
  - cbn [skip_all length]. destruct (IH (addResultToStats Skipped title s))
      as (H1 & H2 & H3 & H4).
    rewrite H1, H3, H4. simpl. repeat split; auto; try lia.
    intros k Hk. rewrite (H2 k Hk). simpl.
    destruct k; try reflexivity. contradiction.
Qed.

Lemma RunTest_cases_disabled ftwTest cases changed runContext ds (st : St W) :
  Meta_Enabled ftwTest = false ->
  RunTest_cases (chk := chk) FTWConfig ftwTest changed runContext cases ds st
  = (Next (set_Stats runContext
             (skip_all (map TestTitle cases) (Stats runContext))),
     ds,
     {| world := world st;
        trace := trace st ++ skipping_lines (Output runContext) cases |}).
Proof.
  intros Hoff. revert runContext st.
  induction cases as [|testCase cases IH]; intros runContext st.
  - simpl. unfold ret, skipping_lines.
    destruct runContext, st. simpl.
    destruct Output0; simpl; now rewrite app_nil_r.
  - rewrite RunTest_cases_skip
      by (unfold needToSkipTest; now rewrite Hoff).
    rewrite Hoff. cbn [negb]. rewrite IH.
    unfold skipping_lines, printUnlessQuietMode, emit. simpl.
    destruct (Output runContext); simpl; [reflexivity|].
    now rewrite <- app_assoc.
Qed.

(** X17: a disabled test file.  [RunTest] returns no error, records one
    [Skipped] per test case and nothing else, leaves the world as it was
    (no stage runs) and prints one "skipping" line per test case unless in
    quiet mode. *)
Theorem RunTest_disabled runContext ftwTest (st : St W) :
  Meta_Enabled ftwTest = false ->
  let stats := skip_all (map TestTitle (Tests ftwTest)) (Stats runContext) in
  RunTest FTWConfig runContext ftwTest st
  = ((None, set_Stats runContext stats),
     {| world := world st;
        trace := trace st ++ skipping_lines (Output runContext) (Tests ftwTest) |})
  /\ Stats_count stats Skipped
     = (Stats_count (Stats runContext) Skipped + length (Tests ftwTest))%nat
  /\ (forall k, k <> Skipped ->
      Stats_count stats k = Stats_count (Stats runContext) k)
  /\ Stats_Run stats = Stats_Run (Stats runContext).
Proof.
  intros Hoff stats. subst stats. split.
  - unfold RunTest, call, bind.
    now rewrite (RunTest_cases_disabled _ _ _ _ _ _ Hoff).
  - destruct (skip_all_counts (map TestTitle (Tests ftwTest)) (Stats runContext))
      as (H1 & H2 & H3 & _).
    rewrite length_map in H1. auto.
Qed.

(** *** Runs *)

(** X18: a run that returns an error returns the zero run context (the
    statistics gathered so far are not handed back) and has made no call to
    close a file. *)
Theorem Run_error tests c (st : St W) err :
  snd (fst (Run FTWConfig tests c st)) = Some err ->
  fst (fst (Run FTWConfig tests c st)) = zero_TestRunContext
  /\ exists evs,
       trace (snd (Run FTWConfig tests c st)) = trace st ++ evs
       /\ closes evs = 0%nat.
Proof.
  destruct (Run_spec FTWConfig tests c st)
    as (ctx & e & st' & evs & -> & Htr & H).
  simpl. intros ->. destruct H as [-> Hc]. eauto.
Qed.

(** X19: a run that completes has closed as many files as it has opened:
    one in standard mode, none in cloud mode. *)
Theorem Run_completed_log tests c (st : St W) :
  snd (fst (Run FTWConfig tests c st)) = None ->
  exists evs,
    trace (snd (Run FTWConfig tests c st)) = trace st ++ evs
    /\ opens evs = closes evs
    /\ closes evs = match RunMode FTWConfig with
                    | DefaultRunMode => 1%nat
                    | CloudRunMode => 0%nat
                    end.
Proof.
  destruct (Run_spec FTWConfig tests c st)
    as (ctx & e & st' & evs & -> & Htr & H).
  simpl. intros ->. destruct H as (_ & Ho & Hc). eauto.
Qed.

(** X20: in standard mode a run without a configured log file fails at once
    with the no-log-file error: no file is opened, no client is created and
    no test is run. *)
Theorem Run_no_log_file tests c (st : St W) :
  RunMode FTWConfig = DefaultRunMode ->
  LogFile FTWConfig = "" ->
  Run FTWConfig tests c st
  = ((zero_TestRunContext, Some errNoLogFile),
     printUnlessQuietMode (Config_Quiet c) ":rocket:Running go-ftw!\n" [] st).
Proof.
  intros Hmode Hfile.
  unfold Run, call, bind, exec, lift, NewFTWLogLines, openLogFile.
  simpl. rewrite Hmode, Hfile. reflexivity.
Qed.






End MoreProperties.

(** ** The properties on concrete runs *)

(** Construction of the log reader in a standard-mode run whose log file
    exists, and in a cloud-mode run. *)
Lemma NewFTWLogLines_contract_witness :
  let opts := [WithLogFile "/var/log/waf/error.log"] in
  let st := sim_st None sim_setup0 in
  (RunMode cfg_cloud = CloudRunMode
   /\ NewFTWLogLines cfg_cloud opts st
      = (inl (configured_FTWLogLines cfg_cloud opts), st))
  /\ (RunMode cfg_standard = DefaultRunMode
      /\ logFile (configured_FTWLogLines cfg_standard opts) = None
      /\ FileName (configured_FTWLogLines cfg_standard opts) <> ""
      /\ NewFTWLogLines cfg_standard opts st
         = (inl (set_logFile (configured_FTWLogLines cfg_standard opts)
                   (Some (mkFile 3))),
            after st (EvOpen "/var/log/waf/error.log")
              (snd (sim_os_Open "/var/log/waf/error.log" (world st)))))
  /\ (FileName (configured_FTWLogLines cfg_standard []) <> ""
      /\ NewFTWLogLines cfg_standard [WithLogFile ""] st = (inr errNoLogFile, st)).
Proof.
  intros opts st. split; [|split].
  - split; [reflexivity|].
    apply (proj1 (NewFTWLogLines_contract cfg_cloud opts st)). reflexivity.
  - split; [reflexivity|]. split; [reflexivity|]. split; [discriminate|].
    apply (proj2 (proj2 (proj2 (NewFTWLogLines_contract cfg_standard opts st)
                           eq_refl eq_refl))); [discriminate|reflexivity].
  - split; [discriminate|].
    apply (proj1 (proj2 (NewFTWLogLines_contract cfg_standard [WithLogFile ""] st)
                    eq_refl eq_refl)). reflexivity.
Defined.

(** The overrides applied to an input without headers. *)
Lemma applyInputOverride_frame_witness :
  Override_DestAddr (TestOverride_Input cfg_override) = Some "waf.example.com"
  /\ Header_Get (headers_of plain_input) "Host" = ""
  /\ fst (applyInputOverride cfg_override plain_input) = None
  /\ Input_Port (snd (applyInputOverride cfg_override plain_input)) = Some 8080
  /\ Input_Headers (snd (applyInputOverride cfg_override plain_input))
     = Some (Header_Set (headers_of plain_input) "Host" "waf.example.com")
  /\ Header_Get (headers_of (snd (applyInputOverride cfg_override plain_input)))
       "Accept"
     = Header_Get (headers_of plain_input) "Accept".
Proof.
  pose proof (@applyInputOverride_frame SimWorld sim_env sim_accessors SimCheck
                sim_check cfg_override plain_input) as H.
  cbv zeta in H.
  destruct H as (Hnil & Hport & _ & _ & _ & _ & Hhost & Hother & _).
  split; [reflexivity|]. split; [reflexivity|]. split; [exact Hnil|].
  split; [exact Hport|]. split; [|apply Hother; discriminate].
  apply Hhost; reflexivity.
Defined.

(** The skip decision on a title that both filters match, and on a disabled
    test file, whose only test case is counted as skipped. *)
Lemma needToSkipTest_policy_witness :
  let include := Some (prefix_pattern "920") in
  let exclude := Some (prefix_pattern "9201") in
  let st := sim_st None sim_setup0 in
  let skipped :=
    set_Stats sim_context
      (addResultToStats Skipped "920200-1" (Stats sim_context)) in
  (filter_matches include "920100-1" = true
   /\ filter_matches exclude "920100-1" = true
   /\ needToSkipTest include exclude "920100-1" true = false)
  /\ needToSkipTest include exclude "920100-1" false = true
  /\ (needToSkipTest None None "920200-1" false = true
      /\ (forall ds,
          RunTest_cases cfg_standard disabled_test true sim_context
            (Tests disabled_test) ds st
          = (Next skipped, ds, st))
      /\ Stats_count (Stats skipped) Skipped
         = S (Stats_count (Stats sim_context) Skipped))
  /\ (fst (fst (RunTest cfg_standard sim_context disabled_test st)) = None
      /\ Stats_count
           (Stats (snd (fst (RunTest cfg_standard sim_context disabled_test st))))
           Skipped
         = (Stats_count (Stats sim_context) Skipped + 1)%nat).
Proof.
  intros include exclude st skipped.
  pose proof (@needToSkipTest_policy SimWorld sim_env sim_accessors SimCheck
                sim_check cfg_standard include exclude "920100-1" true)
    as (_ & _ & Hinc & _).
  pose proof (@needToSkipTest_policy SimWorld sim_env sim_accessors SimCheck
                sim_check cfg_standard include exclude "920100-1" false)
    as (_ & Hoff & _).
  pose proof (@needToSkipTest_policy SimWorld sim_env sim_accessors SimCheck
                sim_check cfg_standard None None "920200-1" false)
    as (_ & _ & _ & _ & _ & Hcase & Hfile).
  assert (Herr : fst (fst (RunTest cfg_standard sim_context disabled_test st))
                 = None) by (vm_compute; reflexivity).
  split; [|split; [|split]].
  - split; [reflexivity|]. split; [reflexivity|].
    apply Hinc; reflexivity.
  - apply Hoff. reflexivity.
  - split; [reflexivity|]. split.
    + intros ds.
      exact (proj1 (proj2
        (Hcase disabled_test true sim_context
           (case_of "920200-1" [plain_stage; plain_stage]) [] ds st
           eq_refl eq_refl eq_refl eq_refl eq_refl))).
    + exact (proj1 (proj2 (proj2
        (Hcase disabled_test true sim_context
           (case_of "920200-1" [plain_stage; plain_stage]) [] [] st
           eq_refl eq_refl eq_refl eq_refl eq_refl)))).
  - split; [exact Herr|].
    exact (Hfile disabled_test sim_context st eq_refl eq_refl eq_refl Herr).
Defined.

(** A stage with two request-body forms, and a stage with none. *)
Lemma RunStage_bad_test_request_witness :
  let c := sim_new_check cfg_standard in
  let st := sim_st None sim_setup0 in
  (forms_set (Stage_Input bad_stage) = 2%nat
   /\ fst (fst (fst (RunStage cfg_standard sim_context c
                       (case_of "920100-1" [bad_stage]) bad_stage st)))
      = Some errBadTestRequest)
  /\ (forms_set (Stage_Input plain_stage) = 0%nat
      /\ fst (fst (fst (RunStage cfg_standard sim_context c
                          (case_of "920100-1" [plain_stage]) plain_stage st)))
         <> Some errBadTestRequest).
Proof.
  intros c st. split.
  - split; [reflexivity|].
    apply (proj1 (proj2 (RunStage_bad_test_request cfg_standard sim_context c
                           (case_of "920100-1" [bad_stage]) bad_stage st))).
    change (2 <= 2)%nat. lia.
  - split; [reflexivity|]. intros Herr.
    apply (proj1 (proj2 (RunStage_bad_test_request cfg_standard sim_context c
                           (case_of "920100-1" [plain_stage]) plain_stage st)))
      in Herr.
    change (2 <= 0)%nat in Herr. lia.
Defined.

(** A stage whose test id is configured for a forced pass. *)
Lemma RunStage_forced_result_witness :
  let c := sim_new_check cfg_standard in
  let st := sim_st None sim_setup0 in
  let testCase := case_of "forced-pass-1" [plain_stage] in
  checkTestSanity (stage_input cfg_standard plain_stage) = false
  /\ overriddenTestResult c (TestTitle testCase) = ForcePass
  /\ overriddenTestResult c (TestTitle testCase) <> Failed
  /\ RunStage cfg_standard sim_context c testCase plain_stage st
     = ((None, record_forced sim_context ForcePass "forced-pass-1", c),
        displayResult (Output sim_context) ForcePass 0 0 (snd (stage_prologue st))).
Proof.
  intros c st testCase.
  assert (Hover : overriddenTestResult c (TestTitle testCase) <> Failed)
    by discriminate.
  split; [reflexivity|]. split; [reflexivity|]. split; [exact Hover|].
  exact (proj1 (proj1 (proj2 (proj2 (proj2 (proj2
    (RunStage_forced_result cfg_standard sim_context c testCase plain_stage st)))))
    eq_refl Hover)).
Defined.

(** The evaluator on an expected transport error, and on a response whose
    status is expected: only the first check is consulted. *)
Lemma checkResult_precedence_witness :
  let c := sim_check_expecting cfg_standard (expect_status [200] true) in
  let st := sim_st None sim_setup0 in
  let refused := errors_New "connection refused" in
  checkResult c None (Some refused) st
  = ((Success, c), consulting st [AExpectError])
  /\ checkResult c (Some (sim_response sim_setup0)) None st
     = ((Success, c), consulting st [AStatus]).
Proof.
  intros c st refused. split.
  - exact (proj1 (checkResult_precedence c None (Some refused) st)
             refused eq_refl).
  - exact (proj1 (proj2 (checkResult_precedence c
                           (Some (sim_response sim_setup0)) None st))
             eq_refl).
Defined.



(** A start marker that cannot be acquired because the server refuses the
    connection: tolerated by a stage that expects an error, fatal for one
    that does not. *)
Lemma marker_failure_tolerance_witness :
  let c := sim_new_check cfg_standard in
  let st := sim_st None sim_setup_refusing in
  let refused :=
    fmt_Errorf_w
      ("ftw/run: can't connect to destination " +:+ fmt_Destination localhost +:+ ": ")
      (errors_New "connection refused") in
  let st' := snd (markAndFlush cfg_standard sim_context localhost "stage-0" st) in
  CloudMode c = false
  /\ markAndFlush cfg_standard sim_context localhost "stage-0" st
     = ((None, Some refused), st')
  /\ acquireStartMarker cfg_standard sim_context c localhost "stage-0"
       (expect_status [200] true) [] st
     = (Next (SetStartMarker c None), [], st')
  /\ acquireStartMarker cfg_standard sim_context c localhost "stage-0"
       (expect_status [200] false) [] st
     = (Returned (Some (fmt_Errorf_w "failed to find start marker: " refused),
                  sim_context, c), [], st')
  /\ acquireEndMarker cfg_standard sim_context c localhost "stage-0"
       (expect_status [200] false) [] st
     = (Returned (Some (fmt_Errorf_w "failed to find end marker: " refused),
                  sim_context, c), [], st').
Proof.
  intros c st refused st'.
  assert (Hcloud : CloudMode c = false) by reflexivity.
  assert (Hmark : markAndFlush cfg_standard sim_context localhost "stage-0" st
                  = ((None, Some refused), st')) by reflexivity.
  split; [exact Hcloud|]. split; [exact Hmark|].
  split; [|split].
  - exact (proj1 (proj2 (marker_failure_tolerance cfg_standard sim_context c
                           localhost "stage-0" (expect_status [200] true) []
                           st st' None refused Hcloud Hmark))).
  - exact (proj1 (proj2 (marker_failure_tolerance cfg_standard sim_context c
                           localhost "stage-0" (expect_status [200] false) []
                           st st' None refused Hcloud Hmark))).
  - exact (proj1 (proj2 (proj2 (marker_failure_tolerance cfg_standard sim_context c
                                  localhost "stage-0" (expect_status [200] false) []
                                  st st' None refused Hcloud Hmark)))).
Defined.

(** *** Runs on which the specification and the code differ *)


(** C6 as stated fails on a stage whose test id has a forced pass and whose
    input sets two request-body forms: the well-formedness check comes
    first, and the stage ends with the bad-test-request error, nothing being
    recorded. *)
Lemma RunStage_forced_result_counterexample :
  let c := sim_new_check cfg_standard in
  let st := sim_st None sim_setup0 in
  let testCase := case_of "forced-pass-1" [bad_stage] in
  overriddenTestResult c (TestTitle testCase) = ForcePass
  /\ fst (RunStage cfg_standard sim_context c testCase bad_stage st)
     = (Some errBadTestRequest, sim_context, c)
  /\ ~ forced_result_always_recorded cfg_standard sim_context c testCase
         bad_stage st.
Proof.
  intros c st testCase. split; [reflexivity|]. split; [reflexivity|].
  unfold forced_result_always_recorded. intros H.
  assert (Hover : overriddenTestResult c (TestTitle testCase) <> Failed)
    by discriminate.
  specialize (H Hover).
  assert (Hrun : fst (RunStage cfg_standard sim_context c testCase bad_stage st)
                 = (Some errBadTestRequest, sim_context, c)) by reflexivity.
  rewrite Hrun in H. discriminate.
Qed.

(** C10 as stated fails on an input whose headers carry a [Host] entry with
    an empty value: the entry is present, and the address override replaces
    it all the same, because the code looks at the value that
    [Headers.Get("Host")] returns and not at the presence of the entry. *)
Lemma applyInputOverride_frame_counterexample :
  headers_of empty_host_input !! "Host" = Some ""
  /\ headers_of (snd (applyInputOverride cfg_override empty_host_input)) !! "Host"
     = Some "waf.example.com"
  /\ ~ host_set_only_when_absent cfg_override empty_host_input.
Proof.
  assert (Hold : headers_of empty_host_input !! "Host" = Some "")
    by (vm_compute; reflexivity).
  assert (Hnew : headers_of (snd (applyInputOverride cfg_override empty_host_input))
                 !! "Host" = Some "waf.example.com")
    by (vm_compute; reflexivity).
  split; [exact Hold|]. split; [exact Hnew|].
  unfold host_set_only_when_absent. intros H.
  assert (Hpresent : is_Some (headers_of empty_host_input !! "Host"))
    by (rewrite Hold; eauto).
  specialize (H Hpresent). rewrite Hold, Hnew in H. discriminate H.
Qed.


(** C3: a run in standard mode that is aborted by a stage (here a malformed
    input) returns before the [defer] statement is reached: the log file
    that the run opened is never closed.  A run that completes closes it
    once. *)
Theorem Run_abort_leaves_log_open :
  let st := sim_st (Some 0%nat) sim_setup0 in
  let aborted := Run cfg_standard malformed_tests quiet_config st in
  let completed := Run cfg_standard mixed_tests quiet_config st in
  (snd (fst aborted) = Some errBadTestRequest
   /\ opens (trace (snd aborted)) = 1%nat
   /\ closes (trace (snd aborted)) = 0%nat
   /\ sim_open (world (snd aborted)) = [mkFile 3])
  /\ (snd (fst completed) = None
      /\ opens (trace (snd completed)) = 1%nat
      /\ closes (trace (snd completed)) = 1%nat
      /\ sim_open (world (snd completed)) = []).
Proof.
  vm_compute. repeat split; reflexivity.
Qed.

(** ** The further properties on concrete runs *)

Lemma openLogFile_once_witness :
  let opts := [WithLogFile "/var/log/waf/error.log"] in
  let st := sim_st None sim_setup0 in
  let ll := set_logFile (configured_FTWLogLines cfg_standard opts) (Some (mkFile 3)) in
  let st1 := snd (NewFTWLogLines cfg_standard opts st) in
  NewFTWLogLines cfg_standard opts st = (inl ll, st1)
  /\ openLogFile cfg_standard ll st1 = (None, ll, st1).
Proof.
  intros opts st ll st1.
  assert (H : NewFTWLogLines cfg_standard opts st = (inl ll, st1))
    by (vm_compute; reflexivity).
  split; [exact H|]. exact (openLogFile_once cfg_standard opts st st1 ll H).
Defined.

Lemma NewFTWLogLines_Cleanup_witness :
  let opts := [WithLogFile "/var/log/waf/error.log"] in
  let st := sim_st None sim_setup0 in
  let ll := set_logFile (configured_FTWLogLines cfg_standard opts) (Some (mkFile 3)) in
  let st1 := snd (NewFTWLogLines cfg_standard opts st) in
  logFile (configured_FTWLogLines cfg_standard opts) = None
  /\ NewFTWLogLines cfg_standard opts st = (inl ll, st1)
  /\ exists f w,
       os_Open (FileName ll) (world st) = (inl f, w)
       /\ st1 = after st (EvOpen (FileName ll)) w
       /\ Cleanup ll st1
          = (fst (File_Close f w), after st1 (EvClose f) (snd (File_Close f w))).
Proof.
  intros opts st ll st1.
  assert (H : NewFTWLogLines cfg_standard opts st = (inl ll, st1))
    by (vm_compute; reflexivity).
  split; [reflexivity|]. split; [exact H|].
  exact (NewFTWLogLines_Cleanup cfg_standard opts st st1 ll eq_refl H).
Defined.

Lemma applyInputOverride_host_witness :
  Override_DestAddr (TestOverride_Input cfg_override) = Some "waf.example.com"
  /\ "waf.example.com" <> ""
  /\ exists h,
       Input_Headers (snd (applyInputOverride cfg_override hosted_input)) = Some h
       /\ Header_Get h "Host" <> ""
       /\ (Header_Get (headers_of hosted_input) "Host" = "" ->
           Header_Get h "Host" = "waf.example.com").
Proof.
  assert (Hne : "waf.example.com" <> "") by discriminate.
  split; [reflexivity|]. split; [exact Hne|].
  exact (applyInputOverride_host cfg_override hosted_input "waf.example.com"
           eq_refl Hne).
Defined.

Lemma markAndFlush_failure_witness :
  let st := sim_st None sim_setup_refusing in
  let refused := errors_New "connection refused" in
  let st2 := snd (probe cfg_standard sim_context localhost "stage-0" st) in
  misses cfg_standard sim_context localhost "stage-0" 0 st st
  /\ probe cfg_standard sim_context localhost "stage-0" st
     = (ConnectFailed refused, st2)
  /\ markAndFlush cfg_standard sim_context localhost "stage-0" st
     = ((None, Some (fmt_Errorf_w
           ("ftw/run: can't connect to destination " +:+ fmt_Destination localhost
            +:+ ": ") refused)), st2).
Proof.
  intros st refused st2.
  assert (Hm : misses cfg_standard sim_context localhost "stage-0" 0 st st)
    by constructor.
  assert (Hp : probe cfg_standard sim_context localhost "stage-0" st
               = (ConnectFailed refused, st2)) by (vm_compute; reflexivity).
  split; [exact Hm|]. split; [exact Hp|].
  exact (proj1 (markAndFlush_failure cfg_standard sim_context localhost "stage-0"
                  0%nat st st st2 refused Hm ltac:(lia)) Hp).
Defined.

Lemma RunStage_cloud_witness :
  let c := sim_new_check cfg_cloud in
  let st := sim_st None sim_setup0 in
  CloudMode c = true
  /\ exists evs,
       trace (snd (RunStage cfg_cloud sim_context c (case_of "920100-1" [plain_stage])
                     plain_stage st)) = trace st ++ evs
       /\ Forall (fun e => is_marker_event e = false) evs
       /\ (count_events is_connect evs <= 1)%nat
       /\ (count_events is_send evs <= 1)%nat.
Proof.
  intros c st. split; [reflexivity|].
  exact (RunStage_cloud cfg_cloud sim_context c (case_of "920100-1" [plain_stage])
           plain_stage st eq_refl).
Defined.

Lemma RunStage_console_witness :
  let c := sim_new_check cfg_standard in
  let st := sim_st (Some 0%nat) sim_setup0 in
  Output sim_context = true
  /\ exists evs,
       trace (snd (RunStage cfg_standard sim_context c
                     (case_of "920100-1" [plain_stage]) plain_stage st))
       = trace st ++ evs
       /\ count_events is_print evs = 0%nat.
Proof.
  intros c st. split; [reflexivity|].
  destruct (RunStage_console cfg_standard sim_context c
              (case_of "920100-1" [plain_stage]) plain_stage st)
    as (evs & Htr & _ & _ & Hquiet).
  exists evs. split; [exact Htr|exact (Hquiet eq_refl)].
Defined.

Lemma RunStage_abort_keeps_context_witness :
  let c := sim_new_check cfg_standard in
  let st := sim_st None sim_setup0 in
  let r := RunStage cfg_standard sim_context c (case_of "920100-1" [bad_stage])
             bad_stage st in
  fst (fst (fst r)) = Some errBadTestRequest
  /\ snd (fst (fst r)) = sim_context.
Proof.
  intros c st r.
  assert (H : fst (fst (fst r)) = Some errBadTestRequest) by (vm_compute; reflexivity).
  split; [exact H|].
  exact (RunStage_abort_keeps_context cfg_standard sim_context c
           (case_of "920100-1" [bad_stage]) bad_stage st errBadTestRequest H).
Defined.

Lemma RunStage_error_expected_witness :
  let c := sim_new_check cfg_standard in
  let st := sim_st None sim_setup_refusing in
  checkTestSanity (stage_input cfg_standard failing_stage) = false
  /\ ExpectError (Stage_Output failing_stage) = true
  /\ fst (fst (fst (RunStage cfg_standard sim_context c
                      (case_of "920100-1" [failing_stage]) failing_stage st)))
     = None.
Proof.
  intros c st. split; [reflexivity|]. split; [reflexivity|].
  exact (RunStage_error_expected cfg_standard sim_context c
           (case_of "920100-1" [failing_stage]) failing_stage st eq_refl eq_refl).
Defined.

Lemma RunStage_connection_refused_witness :
  let c := sim_new_check cfg_cloud in
  let tc := case_of "920100-1" [plain_stage] in
  let st := sim_st None sim_setup_refusing in
  let st0 := snd (stage_prologue st) in
  let req := fst (getRequestFromTest (stage_input cfg_cloud plain_stage) st0) in
  let st1 := snd (getRequestFromTest (stage_input cfg_cloud plain_stage) st0) in
  let refused := errors_New "connection refused" in
  CloudMode c = true
  /\ checkTestSanity (stage_input cfg_cloud plain_stage) = false
  /\ overriddenTestResult c (TestTitle tc) = Failed
  /\ ExpectError (Stage_Output plain_stage) = false
  /\ Client_NewConnection (stage_dest cfg_cloud plain_stage) (world st1)
     = (Some refused, world st1)
  /\ RunStage cfg_cloud sim_context c tc plain_stage st
     = ((Some (fmt_Errorf_w
                 ("can't connect to destination "
                  +:+ fmt_Destination (stage_dest cfg_cloud plain_stage) +:+ ": ")
                 refused), sim_context, c),
        after st1 (EvNewConnection (stage_dest cfg_cloud plain_stage)) (world st1)).
Proof.
  intros c tc st st0 req st1 refused.
  assert (Hpro : stage_prologue st
                 = (fst (fst (stage_prologue st)), snd (fst (stage_prologue st)), st0))
    by (vm_compute; reflexivity).
  assert (Hreq : getRequestFromTest (stage_input cfg_cloud plain_stage) st0
                 = (req, st1)) by (vm_compute; reflexivity).
  assert (Hconn : Client_NewConnection (stage_dest cfg_cloud plain_stage) (world st1)
                  = (Some refused, world st1)) by (vm_compute; reflexivity).
  assert (Hover : overriddenTestResult c (TestTitle tc) = Failed)
    by (vm_compute; reflexivity).
  split; [reflexivity|]. split; [reflexivity|]. split; [exact Hover|].
  split; [reflexivity|]. split; [exact Hconn|].
  exact (RunStage_connection_refused cfg_cloud sim_context c tc plain_stage
           st st0 st1 _ _ req refused (world st1)
           eq_refl eq_refl Hover eq_refl Hpro Hreq Hconn).
Defined.


Lemma RunTest_console_witness :
  let st := sim_st (Some 0%nat) sim_setup0 in
  let t := one_stage_test "920100-1" plain_stage in
  Output sim_context = true
  /\ exists evs,
       trace (snd (RunTest cfg_standard sim_context t st)) = trace st ++ evs
       /\ (count_events is_header evs <= 1)%nat
       /\ count_events is_print evs = 0%nat.
Proof.
  intros st t. split; [reflexivity|].
  destruct (RunTest_console cfg_standard sim_context t st)
    as (evs & Htr & Hh & _ & Hquiet).
  exists evs. split; [exact Htr|]. split; [exact Hh|exact (Hquiet eq_refl)].
Defined.

Lemma RunTest_disabled_witness :
  let st := sim_st None sim_setup0 in
  Meta_Enabled disabled_test = false
  /\ RunTest cfg_standard verbose_context disabled_test st
     = ((None,
         set_Stats verbose_context
           (skip_all (map TestTitle (Tests disabled_test)) (Stats verbose_context))),
        {| world := world st;
           trace := trace st
                    ++ skipping_lines (Output verbose_context) (Tests disabled_test) |}).
Proof.
  intros st. split; [reflexivity|].
  exact (proj1 (RunTest_disabled cfg_standard verbose_context disabled_test st eq_refl)).
Defined.

Lemma Run_error_witness :
  let st := sim_st (Some 0%nat) sim_setup0 in
  snd (fst (Run cfg_standard malformed_tests quiet_config st)) = Some errBadTestRequest
  /\ fst (fst (Run cfg_standard malformed_tests quiet_config st)) = zero_TestRunContext.
Proof.
  intros st.
  assert (H : snd (fst (Run cfg_standard malformed_tests quiet_config st))
              = Some errBadTestRequest) by (vm_compute; reflexivity).
  split; [exact H|].
  exact (proj1 (Run_error cfg_standard malformed_tests quiet_config st
                  errBadTestRequest H)).
Defined.

Lemma Run_completed_log_witness :
  let st := sim_st (Some 0%nat) sim_setup0 in
  snd (fst (Run cfg_standard mixed_tests quiet_config st)) = None
  /\ exists evs,
       trace (snd (Run cfg_standard mixed_tests quiet_config st)) = trace st ++ evs
       /\ opens evs = closes evs
       /\ closes evs = 1%nat.
Proof.
  intros st.
  assert (H : snd (fst (Run cfg_standard mixed_tests quiet_config st)) = None)
    by (vm_compute; reflexivity).
  split; [exact H|].
  exact (Run_completed_log cfg_standard mixed_tests quiet_config st H).
Defined.

Lemma Run_no_log_file_witness :
  let st := sim_st None sim_setup0 in
  RunMode cfg_no_log = DefaultRunMode
  /\ LogFile cfg_no_log = ""
  /\ Run cfg_no_log mixed_tests verbose_config st
     = ((zero_TestRunContext, Some errNoLogFile),
        printUnlessQuietMode (Config_Quiet verbose_config)
          ":rocket:Running go-ftw!\n" [] st).
Proof.
  intros st. split; [reflexivity|]. split; [reflexivity|].
  exact (Run_no_log_file cfg_no_log mixed_tests verbose_config st eq_refl eq_refl).
Defined.

